(** * The streaming delegate of homebridge-unifi-protect2

    A shallow embedding of [protect-stream.ts] (class
    [ProtectStreamingDelegate]): the two session registries, the three
    HomeKit operations [prepareStream], [startStream] and [stopStream], the
    shutdown handler, the FFmpeg command line and the SDP message of the
    talkback path, and [getDefaultIpAddress].

    The collaborators that live outside the file ([FfmpegProcess],
    [RtpSplitter], [RtpUtils.reservePorts], HAP's SSRC generator, the host's
    interface table) are taken as an environment [Env] of oracles; every call
    to one of them is recorded in the event trace of the state. *)

From stdpp Require Import base option list strings pretty gmap fin_maps.
From Stdlib Require Import ZArith.

Local Open Scope string_scope.
Local Open Scope Z_scope.

(** ** JavaScript primitives used by the file *)

Module Js.

(** [Array.prototype.join]: the elements separated by [sep].  An
    [undefined] element is joined as the empty string, which is how the one
    optional element of the file ([ffmpegOptions]) is passed in. *)
Fixpoint join (sep : string) (l : list string) : string :=
  match l with
  | [] => ""
  | [x] => x
  | x :: rest => x +:+ sep +:+ join sep rest
  end.

(** String concatenation with a number: the decimal numeral.  The numbers
    of the file (ports, SSRCs, bit rates, payload types) are integers. *)
Definition num (z : Z) : string := pretty z.

(** A [Buffer] is a sequence of octets. *)
Definition Buffer := list N.

(** [Buffer.concat]. *)
Definition Buffer_concat (bs : list Buffer) : Buffer := mjoin bs.

Definition b64alphabet : string :=
  "ABCDEFGHIJKLMNOPQRSTUVWXYZabcdefghijklmnopqrstuvwxyz0123456789+/".

Definition b64char (n : N) : string :=
  match String.get (N.to_nat n) b64alphabet with
  | Some c => String c ""
  | None => ""
  end.

(** [buf.toString("base64")]: three octets give four characters, the tail
    is padded with [=]. *)
Fixpoint base64 (b : Buffer) : string :=
  match b with
  | [] => ""
  | [x] =>
      let n := (N.shiftl (x mod 256) 16)%N in
      b64char (N.shiftr n 18) +:+ b64char (N.land (N.shiftr n 12) 63) +:+ "=="
  | [x; y] =>
      let n := (N.shiftl (x mod 256) 16 + N.shiftl (y mod 256) 8)%N in
      b64char (N.shiftr n 18) +:+ b64char (N.land (N.shiftr n 12) 63)
        +:+ b64char (N.land (N.shiftr n 6) 63) +:+ "="
  | x :: y :: z :: rest =>
      let n := (N.shiftl (x mod 256) 16 + N.shiftl (y mod 256) 8 + z mod 256)%N in
      b64char (N.shiftr n 18) +:+ b64char (N.land (N.shiftr n 12) 63)
        +:+ b64char (N.land (N.shiftr n 6) 63) +:+ b64char (N.land n 63)
        +:+ base64 rest
  end.

End Js.

(** ** Data model *)

(** HAP's [SRTPCryptoSuites]. *)
Inductive SRTPCryptoSuites :=
  | AES_CM_128_HMAC_SHA1_80
  | AES_CM_256_HMAC_SHA1_80
  | NONE.

(** Object identities of the collaborators' instances. *)
Definition FfmpegProcess := nat.
Definition RtpSplitter := nat.

(** [type SessionInfo]. *)
Record SessionInfo := {
  address : string;
  addressVersion : string;
  videoPort : Z;
  videoReturnPort : Z;
  videoCryptoSuite : SRTPCryptoSuites;
  videoSRTP : Js.Buffer;
  videoSSRC : Z;
  hasLibFdk : bool;
  audioPort : Z;
  audioReturnPort : Z;
  audioTwoWayPort : Z;
  rtpSplitter : option RtpSplitter;
  audioCryptoSuite : SRTPCryptoSuites;
  audioSRTP : Js.Buffer;
  audioSSRC : Z
}.

(** The values of [ongoingSessions]:
    [{ ffmpeg: FfmpegProcess[], rtpSplitter: RtpSplitter | null }]. *)
Record OngoingSession := {
  ffmpeg : list FfmpegProcess;
  og_rtpSplitter : option RtpSplitter
}.

(** One media leg of HAP's [PrepareStreamRequest]. *)
Record PrepareLeg := {
  port : Z;
  srtpCryptoSuite : SRTPCryptoSuites;
  srtp_key : Js.Buffer;
  srtp_salt : Js.Buffer
}.

Record PrepareStreamRequest := {
  sessionID : string;
  targetAddress : string;
  rq_addressVersion : string;
  video : PrepareLeg;
  audio : PrepareLeg
}.

(** One media leg of HAP's [PrepareStreamResponse]. *)
Record ResponseLeg := {
  rs_port : Z;
  ssrc : Z;
  rs_srtp_key : Js.Buffer;
  rs_srtp_salt : Js.Buffer
}.

(** [rs_address] is [None] when [getDefaultIpAddress] returned [null]. *)
Record PrepareStreamResponse := {
  rs_address : option string;
  rs_video : ResponseLeg;
  rs_audio : ResponseLeg
}.

Record VideoInfo := {
  width : Z;
  height : Z;
  fps : Z;
  max_bit_rate : Z;
  pt : Z
}.

Record AudioInfo := {
  sample_rate : Z;
  au_max_bit_rate : Z;
  au_pt : Z
}.

Record StartStreamRequest := {
  st_sessionID : string;
  st_video : VideoInfo;
  st_audio : AudioInfo
}.

(** [camera.talkbackSettings] and [camera.host] of the accessory context. *)
Record TalkbackSettings := {
  typeFmt : string;
  samplingRate : Z;
  channels : Z;
  bindPort : Z
}.

(** What the delegate reads from its camera and platform. *)
Record Delegate := {
  name : string;
  cameraUrl : string;
  twoWayAudio : bool;
  videoProcessor : string;
  ffmpegOptions : option string;
  debugMode : bool;
  host : string;
  talkbackSettings : TalkbackSettings
}.

(** An entry of [os.networkInterfaces()]. *)
Record NetworkInterfaceInfo := {
  ni_address : string;
  family : string;
  internal : bool
}.

(** Errors an operation can end with. *)
Inductive Exn :=
  | TypeError (what : string)
  | ReservePortsRejected
  | FfmpegLaunchError
  | FfmpegStopError
  | SplitterCloseError.

(** The collaborators.  Port reservations and SSRC draws are numbered, so
    each call may be answered differently; whether a launch, a [stop()] or a
    [close()] throws is a matter of the process or splitter it is about. *)
Record Env := {
  codecEnabled : string -> string -> bool;
  (** [RtpUtils.reservePorts(count?)]: the n-th call either rejects or
      resolves to a non-empty array, given as its first port. *)
  reservePorts : nat -> option nat -> option Z;
  generateSynchronisationSource : nat -> Z;
  networkInterfaceDefault : string;
  networkInterfaces : gmap string (list NetworkInterfaceInfo);
  (** does [new FfmpegProcess(..., command, ...)] throw? *)
  ffmpegLaunchThrows : FfmpegProcess -> string -> bool;
  (** does [process.stop()] throw? *)
  ffmpegStopThrows : FfmpegProcess -> bool;
  (** is [process.getStdin()] a stream? *)
  ffmpegHasStdin : FfmpegProcess -> bool;
  (** does [splitter.close()] throw? *)
  splitterCloseThrows : RtpSplitter -> bool
}.

(** What the collaborators and the logger were asked to do. *)
Inductive Event :=
  | EvLog (msg : string)
  | EvLogError (msg : string)
  | EvCodecProbe (binary codec : string)
  | EvReservePorts (count : option nat) (first : Z)
  | EvReserveRejected (count : option nat)
  | EvSsrc (value : Z)
  | EvSplitterNew (id : RtpSplitter) (version : string) (serverPort returnPort twoWayPort : Z)
  | EvSplitterClose (id : RtpSplitter)
  | EvSpawn (id : FfmpegProcess) (session : string) (command : string)
            (returnPort : option (string * Z)) (hasCallback : bool)
  | EvStop (id : FfmpegProcess)
  | EvStdinWrite (id : FfmpegProcess) (data : string)
  | EvStdinEnd (id : FfmpegProcess).

(** The delegate's mutable state and the history of its outside calls.
    The two registries are objects keyed by HAP session identifiers (UUID
    strings); they are maps from session id to entry, and a lookup that
    finds nothing is JavaScript's [undefined]. *)
Record State := {
  pendingSessions : gmap string SessionInfo;
  ongoingSessions : gmap string OngoingSession;
  trace : list Event;
  nextId : nat;
  portCalls : nat;
  ssrcCalls : nat
}.

(** The state the constructor leaves. *)
Definition initial : State :=
  {| pendingSessions := ∅; ongoingSessions := ∅; trace := [];
     nextId := 0; portCalls := 0; ssrcCalls := 0 |}.

Definition with_pending (f : gmap string SessionInfo -> gmap string SessionInfo)
    (s : State) : State :=
  {| pendingSessions := f (pendingSessions s); ongoingSessions := ongoingSessions s;
     trace := trace s; nextId := nextId s; portCalls := portCalls s;
     ssrcCalls := ssrcCalls s |}.

Definition with_ongoing (f : gmap string OngoingSession -> gmap string OngoingSession)
    (s : State) : State :=
  {| pendingSessions := pendingSessions s; ongoingSessions := f (ongoingSessions s);
     trace := trace s; nextId := nextId s; portCalls := portCalls s;
     ssrcCalls := ssrcCalls s |}.

Definition with_events (evs : list Event) (s : State) : State :=
  {| pendingSessions := pendingSessions s; ongoingSessions := ongoingSessions s;
     trace := trace s ++ evs; nextId := nextId s; portCalls := portCalls s;
     ssrcCalls := ssrcCalls s |}.

Definition with_event (e : Event) (s : State) : State := with_events [e] s.

Definition with_nextId (s : State) : State :=
  {| pendingSessions := pendingSessions s; ongoingSessions := ongoingSessions s;
     trace := trace s; nextId := S (nextId s); portCalls := portCalls s;
     ssrcCalls := ssrcCalls s |}.

Definition with_portCall (s : State) : State :=
  {| pendingSessions := pendingSessions s; ongoingSessions := ongoingSessions s;
     trace := trace s; nextId := nextId s; portCalls := S (portCalls s);
     ssrcCalls := ssrcCalls s |}.

Definition with_ssrcCall (s : State) : State :=
  {| pendingSessions := pendingSessions s; ongoingSessions := ongoingSessions s;
     trace := trace s; nextId := nextId s; portCalls := portCalls s;
     ssrcCalls := S (ssrcCalls s) |}.

(** ** A state and exception monad for the methods *)

Inductive Outcome (A : Type) :=
  | Returned (a : A)
  | Thrown (e : Exn).
Arguments Returned {A} a.
Arguments Thrown {A} e.

Definition M (A : Type) : Type := State -> Outcome A * State.

Definition m_ret {A} (a : A) : M A := λ s, (Returned a, s).

Definition m_bind {A B} (m : M A) (k : A -> M B) : M B :=
  λ s, match m s with
       | (Returned a, s') => k a s'
       | (Thrown e, s') => (Thrown e, s')
       end.

#[global] Instance M_ret : MRet M := @m_ret.
#[global] Instance M_bind : MBind M := λ A B k m, m_bind m k.

Definition throw {A} (e : Exn) : M A := λ s, (Thrown e, s).

(** [try { body } catch(error) { handler }]. *)
Definition try_catch {A} (body : M A) (handler : Exn -> M A) : M A :=
  λ s, match body s with
       | (Returned a, s') => (Returned a, s')
       | (Thrown e, s') => handler e s'
       end.

Definition gets {A} (f : State -> A) : M A := λ s, (Returned (f s), s).
Definition modify (f : State -> State) : M unit := λ s, (Returned tt, f s).
Definition emit (e : Event) : M unit := modify (with_event e).

(** [for(const x of l) { body }]. *)
Fixpoint for_of {A} (l : list A) (body : A -> M unit) : M unit :=
  match l with
  | [] => mret tt
  | x :: rest => body x ;; for_of rest body
  end.

(** ** The methods of [ProtectStreamingDelegate] *)

Section Delegate.

Context (env : Env) (this : Delegate).

Definition log (msg : string) : M unit := emit (EvLog msg).
Definition log_error (msg : string) : M unit := emit (EvLogError msg).

(** [(await RtpUtils.reservePorts(count))[0]]. *)
Definition reserveFirstPort (count : option nat) : M Z :=
  n ← gets portCalls;
  modify with_portCall ;;
  match reservePorts env n count with
  | Some p => emit (EvReservePorts count p) ;; mret p
  | None => emit (EvReserveRejected count) ;; throw ReservePortsRejected
  end.

(** [this.hap.CameraController.generateSynchronisationSource()]. *)
Definition newSynchronisationSource : M Z :=
  n ← gets ssrcCalls;
  modify with_ssrcCall ;;
  let v := generateSynchronisationSource env n in
  emit (EvSsrc v) ;; mret v.

(** [new RtpSplitter(this, addressVersion, serverPort, returnPort, twoWayPort)]. *)
Definition newRtpSplitter (version : string) (serverPort returnPort twoWayPort : Z)
    : M RtpSplitter :=
  id ← gets nextId;
  modify with_nextId ;;
  emit (EvSplitterNew id version serverPort returnPort twoWayPort) ;;
  mret id.

(** [new FfmpegProcess(this, sessionId, command, returnPort?, callback?)]. *)
Definition newFfmpegProcess (session command : string)
    (returnPort : option (string * Z)) (hasCallback : bool) : M FfmpegProcess :=
  id ← gets nextId;
  if ffmpegLaunchThrows env id command then throw FfmpegLaunchError
  else
    modify with_nextId ;;
    emit (EvSpawn id session command returnPort hasCallback) ;;
    mret id.

(** [ffmpegProcess.stop()]. *)
Definition ffmpegStop (p : FfmpegProcess) : M unit :=
  if ffmpegStopThrows env p then throw FfmpegStopError else emit (EvStop p).

(** [rtpSplitter.close()]. *)
Definition splitterClose (r : RtpSplitter) : M unit :=
  if splitterCloseThrows env r then throw SplitterCloseError
  else emit (EvSplitterClose r).

(** [getDefaultIpAddress]: the address of the default interface, [None]
    for [null]. *)
Definition getDefaultIpAddress (version : string) : option string :=
  let interfaceName := networkInterfaceDefault env in
  let interfaces := networkInterfaces env in
  (* interfaces[interfaceName]?.filter((info) => !info.internal) *)
  let externalInfo :=
    (λ l, List.filter (λ info, negb (internal info)) l) <$> interfaces !! interfaceName in
  let preferredFamily := if String.eqb version "ipv6" then "IPv6" else "IPv4" in
  (* externalInfo?.find(...) || externalInfo?.[0] *)
  let addressInfo :=
    match externalInfo with
    | None => None
    | Some l =>
        match List.find (λ info, String.eqb (family info) preferredFamily) l with
        | Some info => Some info
        | None => head l
        end
    end in
  match addressInfo with
  | None => None
  | Some info => Some (ni_address info)
  end.

(** [prepareStream], run from its call to its callback with nothing else
    running at its [await]s; the value returned is the response handed to
    [callback(undefined, response)].  The segments between the [await]s,
    which the other handlers can run in between, are [prepareStream_call]
    and the definitions before it, below. *)
Definition prepareStream (request : PrepareStreamRequest) : M PrepareStreamResponse :=
  emit (EvCodecProbe (videoProcessor this) "libfdk_aac") ;;
  let hasLibFdk := codecEnabled env (videoProcessor this) "libfdk_aac" in
  audioReturnPort ← reserveFirstPort None;
  audioServerPort ←
    (if hasLibFdk && twoWayAudio this then reserveFirstPort None else mret (-1));
  audioTwoWayPort ←
    (if hasLibFdk && twoWayAudio this then reserveFirstPort (Some 2%nat) else mret (-1));
  audioSSRC ← newSynchronisationSource;
  (if negb hasLibFdk
   then log (name this +:+ ": Audio support disabled. A version of FFmpeg that is compiled with fdk_aac support is required to support audio.")
   else mret tt) ;;
  rtpSplitter ←
    (if hasLibFdk && twoWayAudio this
     then r ← newRtpSplitter (rq_addressVersion request) audioServerPort
                 audioReturnPort audioTwoWayPort;
          mret (Some r)
     else mret None);
  videoReturnPort ← reserveFirstPort None;
  videoSSRC ← newSynchronisationSource;
  let sessionInfo :=
    {| address := targetAddress request;
       addressVersion := rq_addressVersion request;
       videoPort := port (video request);
       videoReturnPort := videoReturnPort;
       videoCryptoSuite := srtpCryptoSuite (video request);
       videoSRTP := Js.Buffer_concat [srtp_key (video request); srtp_salt (video request)];
       videoSSRC := videoSSRC;
       hasLibFdk := hasLibFdk;
       audioPort := port (audio request);
       audioTwoWayPort := audioTwoWayPort;
       rtpSplitter := rtpSplitter;
       audioReturnPort := audioReturnPort;
       audioCryptoSuite := srtpCryptoSuite (audio request);
       audioSRTP := Js.Buffer_concat [srtp_key (audio request); srtp_salt (audio request)];
       audioSSRC := audioSSRC |} in
  let currentAddress := getDefaultIpAddress (rq_addressVersion request) in
  let response :=
    {| rs_address := currentAddress;
       rs_video := {| rs_port := videoReturnPort; ssrc := videoSSRC;
                      rs_srtp_key := srtp_key (video request);
                      rs_srtp_salt := srtp_salt (video request) |};
       rs_audio := {| rs_port := if hasLibFdk && twoWayAudio this
                                 then audioServerPort else audioReturnPort;
                      ssrc := audioSSRC;
                      rs_srtp_key := srtp_key (audio request);
                      rs_srtp_salt := srtp_salt (audio request) |} |} in
  modify (with_pending (insert (sessionID request) sessionInfo)) ;;
  mret response.

(** The module constant [beVerbose]. *)
Definition beVerbose : bool := false.

(** The packet sizes of [startStream]. *)
Definition videomtu : Z := 188 * 3.
Definition audiomtu : Z := 188 * 1.

(** The logging tail both command lines get. *)
Definition loglevel : string :=
  if beVerbose then " -loglevel level+verbose"
  else if debugMode this then " -loglevel level+debug"
  else "".

Definition ffmpegVideoArgs (request : StartStreamRequest) : string :=
  Js.join " " [
    "";
    "-map 0:v";
    "-vcodec copy";
    "-f rawvideo";
    "-pix_fmt yuvj420p";
    "-r " +:+ Js.num (fps (st_video request));
    default "" (ffmpegOptions this);
    "-b:v " +:+ Js.num (max_bit_rate (st_video request)) +:+ "k";
    "-bufsize " +:+ Js.num (2 * max_bit_rate (st_video request)) +:+ "k";
    "-maxrate " +:+ Js.num (max_bit_rate (st_video request)) +:+ "k";
    "-payload_type " +:+ Js.num (pt (st_video request))
  ].

Definition ffmpegVideoStream (sessionInfo : SessionInfo) : string :=
  Js.join " " [
    "";
    "-ssrc " +:+ Js.num (videoSSRC sessionInfo);
    "-f rtp";
    "-srtp_out_suite AES_CM_128_HMAC_SHA1_80";
    "-srtp_out_params " +:+ Js.base64 (videoSRTP sessionInfo);
    "srtp://" +:+ address sessionInfo +:+ ":" +:+ Js.num (videoPort sessionInfo)
      +:+ "?rtcpport=" +:+ Js.num (videoPort sessionInfo)
      +:+ "&localrtcpport=" +:+ Js.num (videoPort sessionInfo)
      +:+ "&pkt_size=" +:+ Js.num videomtu
  ].

Definition ffmpegAudioArgs (request : StartStreamRequest) : string :=
  Js.join " " [
    "";
    "-map 0:a";
    "-acodec libfdk_aac";
    "-profile:a aac_eld";
    "-flags +global_header";
    "-f null";
    "-ar " +:+ Js.num (sample_rate (st_audio request)) +:+ "k";
    "-b:a " +:+ Js.num (au_max_bit_rate (st_audio request)) +:+ "k";
    "-bufsize " +:+ Js.num (2 * au_max_bit_rate (st_audio request)) +:+ "k";
    "-ac 1";
    "-payload_type " +:+ Js.num (au_pt (st_audio request))
  ].

Definition ffmpegAudioStream (sessionInfo : SessionInfo) : string :=
  Js.join " " [
    "";
    "-ssrc " +:+ Js.num (audioSSRC sessionInfo);
    "-f rtp";
    "-srtp_out_suite AES_CM_128_HMAC_SHA1_80";
    "-srtp_out_params " +:+ Js.base64 (audioSRTP sessionInfo);
    "srtp://" +:+ address sessionInfo +:+ ":" +:+ Js.num (audioPort sessionInfo)
      +:+ "?rtcpport=" +:+ Js.num (audioPort sessionInfo)
      +:+ "&localrtcpport=" +:+ Js.num (audioPort sessionInfo)
      +:+ "&pkt_size=" +:+ Js.num audiomtu
  ].

(** The video part of [fcmd], as it stands before the audio test. *)
Definition fcmdVideo (request : StartStreamRequest) (sessionInfo : SessionInfo) : string :=
  ("-hide_banner -rtsp_transport tcp -i " +:+ cameraUrl this)
    +:+ ffmpegVideoArgs request +:+ ffmpegVideoStream sessionInfo.

(** The audio part, appended under [if(sessionInfo.hasLibFdk)]. *)
Definition fcmdAudio (request : StartStreamRequest) (sessionInfo : SessionInfo) : string :=
  if hasLibFdk sessionInfo
  then ffmpegAudioArgs request +:+ ffmpegAudioStream sessionInfo
  else "".

(** [fcmd] as handed to the first [FfmpegProcess]. *)
Definition fcmd (request : StartStreamRequest) (sessionInfo : SessionInfo) : string :=
  fcmdVideo request sessionInfo +:+ fcmdAudio request sessionInfo +:+ loglevel.

Definition sdpIpVersion (sessionInfo : SessionInfo) : string :=
  if String.eqb (addressVersion sessionInfo) "ipv6" then "IP6 " else "IP4".

(** The lines of [sdpReturnAudio], before [join]. *)
Definition sdpReturnAudioLines (sessionInfo : SessionInfo) : list string :=
  [ "v=0";
    "o=- 0 0 IN " +:+ sdpIpVersion sessionInfo +:+ " 127.0.0.1";
    "s=" +:+ name this +:+ " Audio Talkback";
    "c=IN " +:+ sdpIpVersion sessionInfo +:+ " " +:+ address sessionInfo;
    "t=0 0";
    "m=audio " +:+ Js.num (audioTwoWayPort sessionInfo) +:+ " RTP/AVP 110";
    "b=AS:24";
    "a=rtpmap:110 MPEG4-GENERIC/16000/1";
    "a=fmtp:110 profile-level-id=1;mode=AAC-hbr;sizelength=13;indexlength=3;indexdeltalength=3; config=F8F0212C00BC00";
    "a=crypto:1 AES_CM_128_HMAC_SHA1_80 inline:" +:+ Js.base64 (audioSRTP sessionInfo) ].

Definition newline : string := String (Ascii.ascii_of_nat 10) "".

Definition sdpReturnAudio (sessionInfo : SessionInfo) : string :=
  Js.join newline (sdpReturnAudioLines sessionInfo).

Definition ffmpegReturnAudioCmd : string :=
  Js.join " " [
    "-hide_banner";
    "-protocol_whitelist pipe,udp,rtp,file,crypto";
    "-f sdp";
    "-acodec libfdk_aac";
    "-i pipe:0";
    "-map 0:a";
    "-acodec " +:+ typeFmt (talkbackSettings this);
    "-flags +global_header";
    "-ar " +:+ Js.num (samplingRate (talkbackSettings this));
    "-b:a 64k";
    "-ac " +:+ Js.num (channels (talkbackSettings this));
    "-f adts";
    "udp://" +:+ host this +:+ ":" +:+ Js.num (bindPort (talkbackSettings this))
  ] +:+ loglevel.

(** The line [startStream] logs on entry. *)
Definition startStreamLogLine (request : StartStreamRequest) : string :=
  name this +:+ ": HomeKit video stream request received: "
    +:+ Js.num (width (st_video request)) +:+ "x"
    +:+ Js.num (height (st_video request)) +:+ ", "
    +:+ Js.num (fps (st_video request)) +:+ " fps, "
    +:+ Js.num (max_bit_rate (st_video request)) +:+ " kbps.".

(** [startStream].  Reading a property of [sessionInfo] when the session id
    has no pending entry is a [TypeError], raised where the first such read
    stands (building [ffmpegVideoStream]), after the request has been logged. *)
Definition startStream (request : StartStreamRequest) : M unit :=
  let id := st_sessionID request in
  pending ← gets (λ s, pendingSessions s !! id);
  log (startStreamLogLine request) ;;
  match pending with
  | None => throw (TypeError "Cannot read property 'videoSSRC' of undefined")
  | Some sessionInfo =>
      let twoWay := hasLibFdk sessionInfo && twoWayAudio this in
      outbound ← newFfmpegProcess id (fcmd request sessionInfo)
                 (if twoWay then None
                  else Some (addressVersion sessionInfo, videoReturnPort sessionInfo))
                 true;
      modify (with_ongoing (insert id
                {| ffmpeg := [outbound]; og_rtpSplitter := rtpSplitter sessionInfo |})) ;;
      modify (with_pending (delete id)) ;;
      if negb (hasLibFdk sessionInfo) || negb (twoWayAudio this) then mret tt
      else
        ffmpegReturnAudio ← newFfmpegProcess id ffmpegReturnAudioCmd None false;
        (* this.ongoingSessions[request.sessionID].ffmpeg.push(ffmpegReturnAudio) *)
        ongoing ← gets (λ s, ongoingSessions s !! id);
        match ongoing with
        | None => throw (TypeError "Cannot read property 'ffmpeg' of undefined")
        | Some o =>
            modify (with_ongoing (insert id
                      {| ffmpeg := ffmpeg o ++ [ffmpegReturnAudio];
                         og_rtpSplitter := og_rtpSplitter o |})) ;;
            (* getStdin()?.write(sdpReturnAudio); getStdin()?.end() *)
            (if ffmpegHasStdin env ffmpegReturnAudio
             then emit (EvStdinWrite ffmpegReturnAudio (sdpReturnAudio sessionInfo))
             else mret tt) ;;
            (if ffmpegHasStdin env ffmpegReturnAudio
             then emit (EvStdinEnd ffmpegReturnAudio)
             else mret tt)
        end
  end.

Definition exn_text (e : Exn) : string :=
  match e with
  | TypeError what => "TypeError: " +:+ what
  | ReservePortsRejected => "Error: reservePorts"
  | FfmpegLaunchError => "Error: FfmpegProcess"
  | FfmpegStopError => "Error: FfmpegProcess.stop"
  | SplitterCloseError => "Error: RtpSplitter.close"
  end.

(** The [try] block of [stopStream]. *)
Definition stopStreamBody (sessionId : string) : M unit :=
  ongoing ← gets (λ s, ongoingSessions s !! sessionId);
  match ongoing with
  | Some o => for_of (ffmpeg o) ffmpegStop
  | None => mret tt
  end ;;
  (* this.ongoingSessions[sessionId]?.rtpSplitter?.close() *)
  ongoing ← gets (λ s, ongoingSessions s !! sessionId);
  match ongoing ≫= og_rtpSplitter with
  | Some r => splitterClose r
  | None => mret tt
  end ;;
  modify (with_pending (delete sessionId)) ;;
  modify (with_ongoing (delete sessionId)) ;;
  log (name this +:+ ": Stopped video stream.").

(** [stopStream]. *)
Definition stopStream (sessionId : string) : M unit :=
  try_catch (stopStreamBody sessionId)
    (λ error, log_error (name this +:+ ": Error occurred terminating video process: "
                           +:+ exn_text error)).

(** The [APIEvent.SHUTDOWN] handler of the constructor.  [Object.keys] is a
    snapshot of the keys taken before the first [stopStream]; the model
    lists them in the map's own order. *)
Definition shutdown : M unit :=
  sessions ← gets (λ s, (map_to_list (ongoingSessions s)).*1);
  for_of sessions stopStream.

End Delegate.

(** ** Closed forms used in the statements *)

(** The state [startStream] reaches once the outbound process is launched
    and the housekeeping is done (up to the two-way audio test). *)
Definition afterOutbound (this : Delegate) (request : StartStreamRequest)
    (sessionInfo : SessionInfo) (s : State) : State :=
  let id := st_sessionID request in
  with_pending (delete id)
    (with_ongoing (insert id {| ffmpeg := [nextId s];
                                og_rtpSplitter := rtpSplitter sessionInfo |})
       (with_event
          (EvSpawn (nextId s) id (fcmd this request sessionInfo)
             (if hasLibFdk sessionInfo && twoWayAudio this then None
              else Some (addressVersion sessionInfo, videoReturnPort sessionInfo))
             true)
          (with_nextId (with_event (EvLog (startStreamLogLine this request)) s)))).

(** The state after the talkback process is launched, registered and fed. *)
Definition afterTalkback (env : Env) (this : Delegate) (request : StartStreamRequest)
    (sessionInfo : SessionInfo) (s : State) : State :=
  let id := st_sessionID request in
  let p := S (nextId s) in
  let fed (s1 : State) :=
    if ffmpegHasStdin env p
    then with_event (EvStdinEnd p)
           (with_event (EvStdinWrite p (sdpReturnAudio this sessionInfo)) s1)
    else s1 in
  fed (with_ongoing (insert id {| ffmpeg := [nextId s; p];
                                  og_rtpSplitter := rtpSplitter sessionInfo |})
         (with_event (EvSpawn p id (ffmpegReturnAudioCmd this) None false)
            (with_nextId (afterOutbound this request sessionInfo s)))).

(** What [for(const ffmpegProcess of ...) ffmpegProcess?.stop()] does to a
    list of processes: the stop calls made, and the error that ended the
    loop, if one did. *)
Fixpoint stopAll (env : Env) (l : list FfmpegProcess) : list Event * option Exn :=
  match l with
  | [] => ([], None)
  | p :: rest =>
      if ffmpegStopThrows env p then ([], Some FfmpegStopError)
      else (EvStop p :: (stopAll env rest).1, (stopAll env rest).2)
  end.

(** What the [try] block of [stopStream] asks of the collaborators for the
    entry found in [ongoingSessions], and the error that ended it, if any. *)
Definition teardown (env : Env) (o : option OngoingSession) : list Event * option Exn :=
  match o with
  | None => ([], None)
  | Some o =>
      match (stopAll env (ffmpeg o)).2 with
      | Some e => ((stopAll env (ffmpeg o)).1, Some e)
      | None =>
          match og_rtpSplitter o with
          | None => ((stopAll env (ffmpeg o)).1, None)
          | Some r =>
              if splitterCloseThrows env r
              then ((stopAll env (ffmpeg o)).1, Some SplitterCloseError)
              else (((stopAll env (ffmpeg o)).1 ++ [EvSplitterClose r])%list, None)
          end
      end
  end.

(** No session id is in both registries. *)
Definition registriesDisjoint (s : State) : Prop :=
  ∀ id, pendingSessions s !! id = None ∨ ongoingSessions s !! id = None.

(** The port reservations recorded in a trace: the count asked for and the
    first port obtained. *)
Definition reservations (tr : list Event) : list (option nat * Z) :=
  omap (λ e, match e with
             | EvReservePorts count first => Some (count, first)
             | _ => None
             end) tr.

(** The host's non-internal addresses on the default interface, when the
    interface is in the table. *)
Definition externalInfo (env : Env) : option (list NetworkInterfaceInfo) :=
  (λ l, List.filter (λ info, negb (internal info)) l)
    <$> networkInterfaces env !! networkInterfaceDefault env.

(** ** Test data: a host, a camera and one viewing session *)

Module Sample.

Definition eth0_v6 : NetworkInterfaceInfo :=
  {| ni_address := "fe80::1"; family := "IPv6"; internal := false |}.

(** A host whose FFmpeg has [libfdk_aac], whose collaborators never throw
    and whose default interface has one IPv6 address. *)
Definition env : Env :=
  {| codecEnabled := λ _ _, true;
     reservePorts := λ n _, Some (50000 + 10 * Z.of_nat n);
     generateSynchronisationSource := λ n, 1000 + Z.of_nat n;
     networkInterfaceDefault := "eth0";
     networkInterfaces := {[ "eth0" := [eth0_v6] ]};
     ffmpegLaunchThrows := λ _ _, false;
     ffmpegStopThrows := λ _, false;
     ffmpegHasStdin := λ _, true;
     splitterCloseThrows := λ _, false |}.

(** The same host without [libfdk_aac]. *)
Definition env_noaac : Env :=
  {| codecEnabled := λ _ _, false;
     reservePorts := reservePorts env;
     generateSynchronisationSource := generateSynchronisationSource env;
     networkInterfaceDefault := networkInterfaceDefault env;
     networkInterfaces := networkInterfaces env;
     ffmpegLaunchThrows := ffmpegLaunchThrows env;
     ffmpegStopThrows := ffmpegStopThrows env;
     ffmpegHasStdin := ffmpegHasStdin env;
     splitterCloseThrows := splitterCloseThrows env |}.

(** The same host with no interface table entry at all. *)
Definition env_offline : Env :=
  {| codecEnabled := codecEnabled env;
     reservePorts := reservePorts env;
     generateSynchronisationSource := generateSynchronisationSource env;
     networkInterfaceDefault := "eth0";
     networkInterfaces := ∅;
     ffmpegLaunchThrows := ffmpegLaunchThrows env;
     ffmpegStopThrows := ffmpegStopThrows env;
     ffmpegHasStdin := ffmpegHasStdin env;
     splitterCloseThrows := splitterCloseThrows env |}.

(** The same host with a generator that draws the same number twice. *)
Definition env_same_ssrc : Env :=
  {| codecEnabled := codecEnabled env;
     reservePorts := reservePorts env;
     generateSynchronisationSource := λ _, 4242;
     networkInterfaceDefault := networkInterfaceDefault env;
     networkInterfaces := networkInterfaces env;
     ffmpegLaunchThrows := ffmpegLaunchThrows env;
     ffmpegStopThrows := ffmpegStopThrows env;
     ffmpegHasStdin := ffmpegHasStdin env;
     splitterCloseThrows := splitterCloseThrows env |}.

Definition talkback : TalkbackSettings :=
  {| typeFmt := "aac"; samplingRate := 22050; channels := 1; bindPort := 7004 |}.

(** A doorbell with two-way audio. *)
Definition doorbell : Delegate :=
  {| name := "Door"; cameraUrl := "rtsp://10.0.0.1:7447/abc"; twoWayAudio := true;
     videoProcessor := "ffmpeg"; ffmpegOptions := None; debugMode := false;
     host := "10.0.0.9"; talkbackSettings := talkback |}.

(** A camera without two-way audio. *)
Definition camera : Delegate :=
  {| name := "Yard"; cameraUrl := "rtsp://10.0.0.1:7447/xyz"; twoWayAudio := false;
     videoProcessor := "ffmpeg"; ffmpegOptions := None; debugMode := false;
     host := "10.0.0.8"; talkbackSettings := talkback |}.

Definition leg (p : Z) : PrepareLeg :=
  {| port := p; srtpCryptoSuite := AES_CM_128_HMAC_SHA1_80;
     srtp_key := [1; 2; 3]%N; srtp_salt := [4; 5]%N |}.

Definition prepare (version : string) : PrepareStreamRequest :=
  {| sessionID := "s1"; targetAddress := "10.0.0.2"; rq_addressVersion := version;
     video := leg 51000; audio := leg 51002 |}.

Definition start : StartStreamRequest :=
  {| st_sessionID := "s1";
     st_video := {| width := 1280; height := 720; fps := 30; max_bit_rate := 299; pt := 99 |};
     st_audio := {| sample_rate := 16; au_max_bit_rate := 24; au_pt := 110 |} |}.

(** The doorbell's registry after the negotiation of session [s1]. *)
Definition negotiated : State :=
  (prepareStream env doorbell (prepare "ipv4") initial).2.

(** The same registry once the stream is started. *)
Definition streaming : State :=
  (startStream env doorbell start negotiated).2.

(** What the negotiation of [s1] over IPv4 stores for the doorbell. *)
Definition session : SessionInfo :=
  {| address := "10.0.0.2"; addressVersion := "ipv4";
     videoPort := 51000; videoReturnPort := 50030;
     videoCryptoSuite := AES_CM_128_HMAC_SHA1_80;
     videoSRTP := [1; 2; 3; 4; 5]%N; videoSSRC := 1001;
     hasLibFdk := true;
     audioPort := 51002; audioReturnPort := 50000; audioTwoWayPort := 50020;
     rtpSplitter := Some 0%nat;
     audioCryptoSuite := AES_CM_128_HMAC_SHA1_80;
     audioSRTP := [1; 2; 3; 4; 5]%N; audioSSRC := 1000 |}.

(** The registry after negotiating, starting, and negotiating the same
    session id again. *)
Definition renegotiated : State :=
  (prepareStream env doorbell (prepare "ipv4") streaming).2.

(** The doorbell's registry after negotiating and starting [s1] over IPv6. *)
Definition streaming_v6 : State :=
  (startStream env doorbell start
     (prepareStream env doorbell (prepare "ipv6") initial).2).2.

(** The SDP message the talkback process should be fed over IPv6, in the
    format of a session description (one space between fields). *)
Definition sdp_v6_expected : string :=
  Js.join newline
    [ "v=0";
      "o=- 0 0 IN IP6 127.0.0.1";
      "s=Door Audio Talkback";
      "c=IN IP6 10.0.0.2";
      "t=0 0";
      "m=audio 50020 RTP/AVP 110";
      "b=AS:24";
      "a=rtpmap:110 MPEG4-GENERIC/16000/1";
      "a=fmtp:110 profile-level-id=1;mode=AAC-hbr;sizelength=13;indexlength=3;indexdeltalength=3; config=F8F0212C00BC00";
      "a=crypto:1 AES_CM_128_HMAC_SHA1_80 inline:AQIDBAU=" ].

(** The SDP message it is fed. *)
Definition sdp_v6_written : string :=
  Js.join newline
    [ "v=0";
      "o=- 0 0 IN IP6  127.0.0.1";
      "s=Door Audio Talkback";
      "c=IN IP6  10.0.0.2";
      "t=0 0";
      "m=audio 50020 RTP/AVP 110";
      "b=AS:24";
      "a=rtpmap:110 MPEG4-GENERIC/16000/1";
      "a=fmtp:110 profile-level-id=1;mode=AAC-hbr;sizelength=13;indexlength=3;indexdeltalength=3; config=F8F0212C00BC00";
      "a=crypto:1 AES_CM_128_HMAC_SHA1_80 inline:AQIDBAU=" ].

(** What the negotiation stores when FFmpeg has no [libfdk_aac]. *)
Definition session_noaac : SessionInfo :=
  {| address := "10.0.0.2"; addressVersion := "ipv4";
     videoPort := 51000; videoReturnPort := 50010;
     videoCryptoSuite := AES_CM_128_HMAC_SHA1_80;
     videoSRTP := [1; 2; 3; 4; 5]%N; videoSSRC := 1001;
     hasLibFdk := false;
     audioPort := 51002; audioReturnPort := 50000; audioTwoWayPort := -1;
     rtpSplitter := None;
     audioCryptoSuite := AES_CM_128_HMAC_SHA1_80;
     audioSRTP := [1; 2; 3; 4; 5]%N; audioSSRC := 1000 |}.

(** The doorbell's registry after a negotiation on the host without AAC. *)
Definition negotiated_noaac : State :=
  (prepareStream env_noaac doorbell (prepare "ipv4") initial).2.

End Sample.

(** ** The request dispatcher, the snapshot handler and the constructor *)

(** HAP's [StreamingRequest]: the three request types of
    [StreamRequestTypes]. *)
Inductive StreamingRequest :=
  | START (request : StartStreamRequest)
  | RECONFIGURE (sessionID : string) (video : VideoInfo)
  | STOP (sessionID : string).

(** One invocation of a HAP callback by a handler, before it returns. *)
Inductive CallbackCall :=
  | CallbackOk
  | CallbackError (message : string)
  | CallbackData (data : Js.Buffer).

(** What [nvrApi.fetch] resolves to when it is not [null]: the [ok] flag and
    the outcome of [response.buffer()] ([None] when it rejects). *)
Record FetchResponse := {
  ok : bool;
  buffer : option Js.Buffer
}.

Section Handlers.

Context (env : Env) (this : Delegate).

(** The line [handleStreamRequest] logs for a reconfigure request. *)
Definition reconfigureLogLine (video : VideoInfo) : string :=
  name this +:+ ": Ignoring request to reconfigure: "
    +:+ Js.num (width video) +:+ "x" +:+ Js.num (height video) +:+ ", "
    +:+ Js.num (fps video) +:+ " fps, "
    +:+ Js.num (max_bit_rate video) +:+ " kbps.".

(** [handleStreamRequest]; the value returned lists the calls of [callback]
    the handler itself has made when it returns.  [startStream] is an async
    method without an [await]: it runs to its end inside the call, and an
    error in it rejects a promise nobody looks at, so the handler returns
    normally.  On the start path the callback is handed to the
    [FfmpegProcess] and not called here. *)
Definition handleStreamRequest (request : StreamingRequest) : M (list CallbackCall) :=
  match request with
  | START r =>
      try_catch (startStream env this r) (λ _, mret tt) ;;
      mret []
  | RECONFIGURE _ video =>
      log (reconfigureLogLine video) ;;
      mret [CallbackOk]
  | STOP sessionId =>
      stopStream env this sessionId ;;
      mret [CallbackOk]
  end.

(** [new URLSearchParams({ force: "true", width, height })] as text. *)
Definition snapshotParams (w h : Z) : string :=
  "force=true&width=" +:+ Js.num w +:+ "&height=" +:+ Js.num h.

(** [handleSnapshotRequest], over the camera's [snapshotUrl] and the
    controller's [fetch] ([None] for a [null] response).  The [debug] line
    is not part of the trace, and the HAP callback is taken not to throw. *)
Definition handleSnapshotRequest (fetch : string -> option FetchResponse)
    (snapshotUrl : string) (w h : Z) : M (list CallbackCall) :=
  let response := fetch (snapshotUrl +:+ "?" +:+ snapshotParams w h) in
  (* if(!response?.ok) *)
  if negb (default false (ok <$> response))
  then
    log (name this +:+ ": Unable to retrieve snapshot.") ;;
    mret [CallbackError (name this +:+ ": Unable to retrieve snapshot.")]
  else
    match response ≫= buffer with
    | Some b => mret [CallbackData b]
    | None =>
        log_error (name this +:+ ": An error occurred while making a snapshot request: "
                     +:+ "Error: response.buffer" +:+ ".") ;;
        mret [CallbackError "Error: response.buffer"]
    end.

End Handlers.

(** JavaScript's truthiness of a string that may be [undefined]. *)
Definition truthy (s : option string) : bool :=
  match s with
  | Some (String _ _) => true
  | _ => false
  end.

(** [this.config.videoProcessor || pathToFfmpeg || "ffmpeg"] of the
    constructor. *)
Definition chooseVideoProcessor (configured pathToFfmpeg : option string) : string :=
  if truthy configured then default "" configured
  else if truthy pathToFfmpeg then default "" pathToFfmpeg
  else "ffmpeg".

(** ** Closed forms used in the statements, continued *)

(** The processes that appear in a trace as launched, and as told to stop. *)
Definition spawned (tr : list Event) : list FfmpegProcess :=
  omap (λ e, match e with EvSpawn id _ _ _ _ => Some id | _ => None end) tr.

Definition stopped (tr : list Event) : list FfmpegProcess :=
  omap (λ e, match e with EvStop id => Some id | _ => None end) tr.

(** The splitters that appear in a trace as constructed, and as closed. *)
Definition splittersMade (tr : list Event) : list RtpSplitter :=
  omap (λ e, match e with EvSplitterNew id _ _ _ _ => Some id | _ => None end) tr.

Definition splittersClosed (tr : list Event) : list RtpSplitter :=
  omap (λ e, match e with EvSplitterClose id => Some id | _ => None end) tr.

(** Does the teardown of an ongoing entry run into a throwing [stop()] or
    [close()]? *)
Definition teardownThrows (env : Env) (o : OngoingSession) : bool :=
  match (teardown env (Some o)).2 with
  | Some _ => true
  | None => false
  end.

(** ** Test data, continued *)

Module Sample2.


(** A host on which the first three reservations resolve and the fourth
    rejects. *)
Definition env_threeports : Env :=
  {| codecEnabled := codecEnabled Sample.env;
     reservePorts := λ n _, if (n <? 3)%nat then Some (50000 + 10 * Z.of_nat n) else None;
     generateSynchronisationSource := generateSynchronisationSource Sample.env;
     networkInterfaceDefault := networkInterfaceDefault Sample.env;
     networkInterfaces := networkInterfaces Sample.env;
     ffmpegLaunchThrows := ffmpegLaunchThrows Sample.env;
     ffmpegStopThrows := ffmpegStopThrows Sample.env;
     ffmpegHasStdin := ffmpegHasStdin Sample.env;
     splitterCloseThrows := splitterCloseThrows Sample.env |}.

(** A host on which no FFmpeg process can be launched. *)
Definition env_nolaunch : Env :=
  {| codecEnabled := codecEnabled Sample.env;
     reservePorts := reservePorts Sample.env;
     generateSynchronisationSource := generateSynchronisationSource Sample.env;
     networkInterfaceDefault := networkInterfaceDefault Sample.env;
     networkInterfaces := networkInterfaces Sample.env;
     ffmpegLaunchThrows := λ _ _, true;
     ffmpegStopThrows := ffmpegStopThrows Sample.env;
     ffmpegHasStdin := ffmpegHasStdin Sample.env;
     splitterCloseThrows := splitterCloseThrows Sample.env |}.

(** A host on which only the talkback process (the second launch of the
    sample session, object 2) cannot be launched. *)
Definition env_notalkback : Env :=
  {| codecEnabled := codecEnabled Sample.env;
     reservePorts := reservePorts Sample.env;
     generateSynchronisationSource := generateSynchronisationSource Sample.env;
     networkInterfaceDefault := networkInterfaceDefault Sample.env;
     networkInterfaces := networkInterfaces Sample.env;
     ffmpegLaunchThrows := λ id _, (id =? 2)%nat;
     ffmpegStopThrows := ffmpegStopThrows Sample.env;
     ffmpegHasStdin := ffmpegHasStdin Sample.env;
     splitterCloseThrows := splitterCloseThrows Sample.env |}.

(** A host on which stopping the talkback process (object 2) throws. *)
Definition env_stubborn : Env :=
  {| codecEnabled := codecEnabled Sample.env;
     reservePorts := reservePorts Sample.env;
     generateSynchronisationSource := generateSynchronisationSource Sample.env;
     networkInterfaceDefault := networkInterfaceDefault Sample.env;
     networkInterfaces := networkInterfaces Sample.env;
     ffmpegLaunchThrows := ffmpegLaunchThrows Sample.env;
     ffmpegStopThrows := λ id, (id =? 2)%nat;
     ffmpegHasStdin := ffmpegHasStdin Sample.env;
     splitterCloseThrows := splitterCloseThrows Sample.env |}.

(** A second negotiation of [s1], from another client address. *)
Definition prepare_again : PrepareStreamRequest :=
  {| sessionID := "s1"; targetAddress := "10.0.0.3"; rq_addressVersion := "ipv4";
     video := Sample.leg 52000; audio := Sample.leg 52002 |}.

End Sample2.

(** ** The camera accessory ([protect-camera.ts]) *)

Module Camera.

(** A channel of [ProtectCameraConfig.channels], with the fields the class
    reads. *)
Record Channel := {
  ch_name : string;
  isRtspEnabled : bool;
  rtspAlias : string
}.

(** [ProtectCameraConfig], with the fields the class reads; [channels] may
    be [undefined]. *)
Record ProtectCameraConfig := {
  cam_id : string;
  cam_type : string;
  channels : option (list Channel)
}.

(** The controller the camera belongs to ([ProtectNvr], [ProtectApi] and
    the bootstrap), as far as the class asks it.  [optionEnabled] gets the
    option name and the default, when one is passed. *)
Record Nvr := {
  optionEnabled : ProtectCameraConfig -> string -> option bool -> bool;
  enableRtsp : ProtectCameraConfig -> option ProtectCameraConfig;
  nvrHost : string;
  rtspPort : Z;
  camerasUrl : string;
  getNvrName : string;
  getDeviceName : ProtectCameraConfig -> option string -> string
}.

(** The fields of a [ProtectCamera] and of its accessory context that the
    methods below read and write; [delegates] counts the
    [ProtectStreamingDelegate] objects constructed (each one handed to
    [configureController]), [logged] is what was passed to [this.log]. *)
Record ProtectCamera := {
  cameraUrl : option string;
  isVideoConfigured : bool;
  snapshotUrl : option string;
  twoWayAudio : option bool;
  detectMotion : option bool;
  delegates : nat;
  logged : list string
}.

(** HAP's [CharacteristicValue], as far as strict equality can tell. *)
Inductive CharacteristicValue :=
  | CvBool (b : bool)
  | CvNumber (z : Z)
  | CvString (s : string).

Section Methods.

Context (nvr : Nvr) (displayName : string).

(** [configureTwoWayAudio]: the value assigned to [this.twoWayAudio], from
    [this.accessory.context.camera]. *)
Definition configureTwoWayAudio (camera : option ProtectCameraConfig) : bool :=
  match camera with
  | Some c =>
      if String.eqb (cam_type c) "UVC G3 Micro" || String.eqb (cam_type c) "UVC G4 Doorbell"
      then optionEnabled nvr c "TwoWayAudio" None
      else false
  | None => false
  end.

(** The [StreamOnly] option in force, [""] for none. *)
Definition forceQuality (camera : ProtectCameraConfig) : string :=
  if optionEnabled nvr camera "StreamOnly.Low" (Some false) then "Low"
  else if optionEnabled nvr camera "StreamOnly.Medium" (Some false) then "Medium"
  else if optionEnabled nvr camera "StreamOnly.High" (Some false) then "High"
  else "".

Definition channelPriority (camera : ProtectCameraConfig) : list string :=
  if String.eqb (cam_type camera) "UVC G4 Pro" || String.eqb (cam_type camera) "UVC G4 Bullet"
  then ["Medium"; "Low"; "High"]
  else ["High"; "Medium"; "Low"].

(** The [find] callback of the forced branch. *)
Definition forcedChannel (quality : string) (channel : Channel) : bool :=
  isRtspEnabled channel && String.eqb (ch_name channel) quality.

(** The [find] callback of the default branch. *)
Definition preferredChannel (camera : ProtectCameraConfig) (quality : string)
    (channel : Channel) : bool :=
  isRtspEnabled channel
  && optionEnabled nvr camera ("Stream." +:+ quality) None
  && String.eqb (ch_name channel) quality.

(** [for(const quality of channelPriority) { ... if(foundChannel) { ...; break; } }]. *)
Fixpoint firstByPriority (camera : ProtectCameraConfig) (chans : list Channel)
    (priority : list string) : option Channel :=
  match priority with
  | [] => None
  | quality :: rest =>
      match List.find (preferredChannel camera quality) chans with
      | Some channel => Some channel
      | None => firstByPriority camera chans rest
      end
  end.

(** The channel [configureVideoStream] settles on, if any. *)
Definition foundChannel (camera : ProtectCameraConfig) (chans : list Channel)
    : option Channel :=
  if truthy (Some (forceQuality camera))
  then List.find (forcedChannel (forceQuality camera)) chans
  else firstByPriority camera chans (channelPriority camera).

Definition noStreamLine (camera : ProtectCameraConfig) : string :=
  getNvrName nvr +:+ " " +:+ getDeviceName nvr camera (Some displayName)
    +:+ ": No RTSP stream has been configured for this camera. "
    +:+ "Enable an RTSP stream in the UniFi Protect webUI to resolve this issue or "
    +:+ "assign the Administrator role to the user configured for this plugin to allow it to automatically configure itself.".

Definition qualityLine (camera : ProtectCameraConfig) (quality : string) : string :=
  getNvrName nvr +:+ " " +:+ getDeviceName nvr camera (Some displayName)
    +:+ ": Stream quality configured: " +:+ quality +:+ ".".

(** [configureVideoStream], over [this.accessory.context.camera]. *)
Definition configureVideoStream (contextCamera : option ProtectCameraConfig)
    (this : ProtectCamera) : Outcome bool * ProtectCamera :=
  (* if(!this.accessory.context.camera?.channels) return false *)
  match contextCamera with
  | None => (Returned false, this)
  | Some context =>
      match channels context with
      | None => (Returned false, this)
      | Some _ =>
          (* await nvrApi.enableRtsp(context.camera) ?? context.camera *)
          let camera := default context (enableRtsp nvr context) in
          match channels camera with
          | None => (Thrown (TypeError "Cannot read property 'find' of undefined"), this)
          | Some chans =>
              let found := foundChannel camera chans in
              let newCameraQuality := default "" (ch_name <$> found) in
              let newCameraUrl := default "" (rtspAlias <$> found) in
              let configured :=
                if negb (truthy (Some newCameraUrl))
                then
                  (if negb (isVideoConfigured this) || truthy (cameraUrl this)
                   then [noStreamLine camera] else [],
                   newCameraUrl)
                else
                  let url := "rtsp://" +:+ nvrHost nvr +:+ ":" +:+ Js.num (rtspPort nvr)
                               +:+ "/" +:+ newCameraUrl in
                  (if negb (bool_decide (cameraUrl this = Some url))
                   then [qualityLine camera newCameraQuality] else [],
                   url) in
              (Returned true,
               {| cameraUrl := Some configured.2;
                  isVideoConfigured := true;
                  snapshotUrl := Some (camerasUrl nvr +:+ "/" +:+ cam_id camera +:+ "/snapshot");
                  twoWayAudio := twoWayAudio this;
                  detectMotion := detectMotion this;
                  delegates := if isVideoConfigured this then delegates this
                               else S (delegates this);
                  logged := (logged this ++ configured.1)%list |})
          end
      end
  end.

(** [this.accessory.context.detectMotion !== value]. *)
Definition differs (current : option bool) (value : CharacteristicValue) : bool :=
  match current, value with
  | Some b, CvBool b' => negb (Bool.eqb b b')
  | _, _ => true
  end.

(** [value === true]. *)
Definition isTrue (value : CharacteristicValue) : bool :=
  match value with
  | CvBool true => true
  | _ => false
  end.

(** The [SET] handler of the motion switch; the callback is called with
    [null]. *)
Definition motionSwitchSet (value : CharacteristicValue) (this : ProtectCamera)
    : ProtectCamera :=
  {| cameraUrl := cameraUrl this;
     isVideoConfigured := isVideoConfigured this;
     snapshotUrl := snapshotUrl this;
     twoWayAudio := twoWayAudio this;
     detectMotion := Some (isTrue value);
     delegates := delegates this;
     logged :=
       (logged this ++
          if differs (detectMotion this) value
          then [displayName +:+ ": Motion detection "
                  +:+ (if isTrue value then "enabled" else "disabled") +:+ "."]
          else [])%list |}.

(** The [GET] handler of the motion switch: the value handed to the
    callback. *)
Definition motionSwitchGet (this : ProtectCamera) : option bool :=
  detectMotion this.

End Methods.

(** A camera right after construction. *)
Definition fresh : ProtectCamera :=
  {| cameraUrl := None; isVideoConfigured := false; snapshotUrl := None;
     twoWayAudio := None; detectMotion := None; delegates := 0; logged := [] |}.

(** A controller with every option at its default and no [StreamOnly]
    option set. *)
Definition nvr0 : Nvr :=
  {| optionEnabled := λ _ _ d, default true d;
     enableRtsp := λ _, None;
     nvrHost := "10.0.0.1"; rtspPort := 7447;
     camerasUrl := "https://10.0.0.1/proxy/protect/api/cameras";
     getNvrName := "UNVR";
     getDeviceName := λ _ n, default "camera" n |}.

(** The same controller with [StreamOnly.Low] set. *)
Definition nvr_low : Nvr :=
  {| optionEnabled := λ _ o d, if String.eqb o "StreamOnly.Low" then true else default true d;
     enableRtsp := λ _, None;
     nvrHost := "10.0.0.1"; rtspPort := 7447;
     camerasUrl := "https://10.0.0.1/proxy/protect/api/cameras";
     getNvrName := "UNVR";
     getDeviceName := λ _ n, default "camera" n |}.

Definition high : Channel :=
  {| ch_name := "High"; isRtspEnabled := true; rtspAlias := "aaaa" |}.
Definition medium : Channel :=
  {| ch_name := "Medium"; isRtspEnabled := true; rtspAlias := "bbbb" |}.
Definition low : Channel :=
  {| ch_name := "Low"; isRtspEnabled := false; rtspAlias := "cccc" |}.

Definition g4pro : ProtectCameraConfig :=
  {| cam_id := "c1"; cam_type := "UVC G4 Pro"; channels := Some [high; medium; low] |}.

Definition g3flex : ProtectCameraConfig :=
  {| cam_id := "c2"; cam_type := "UVC G3 Flex"; channels := Some [high; medium; low] |}.

Definition doorbell : ProtectCameraConfig :=
  {| cam_id := "c3"; cam_type := "UVC G4 Doorbell"; channels := Some [high; medium; low] |}.

(** A controller with [StreamOnly.Low] set whose [enableRtsp] answers with
    the updated camera: High and Medium enabled, Low still not. *)
Definition nvr_low_updating : Nvr :=
  {| optionEnabled := optionEnabled nvr_low;
     enableRtsp := λ c, Some {| cam_id := cam_id c; cam_type := cam_type c;
                                channels := Some [high; medium; low] |};
     nvrHost := nvrHost nvr_low; rtspPort := rtspPort nvr_low;
     camerasUrl := camerasUrl nvr_low;
     getNvrName := getNvrName nvr_low;
     getDeviceName := getDeviceName nvr_low |}.

(** A camera as the accessory context has it before the update, with no
    channel enabled. *)
Definition g3flex_stale : ProtectCameraConfig :=
  {| cam_id := "c2"; cam_type := "UVC G3 Flex";
     channels := Some [{| ch_name := "High"; isRtspEnabled := false; rtspAlias := "" |}] |}.

End Camera.

(** ** Negotiations in flight *)

(** [prepareStream] is an async method that suspends at each [await]: the
    other handlers, and other negotiations, run between its segments.  A
    negotiation in flight is a task: finished with its result, or suspended
    with the code that runs when the event loop resumes it. *)
#[warnings="-register-all"]
Inductive Co (A : Type) : Type :=
  | Done (a : A)
  | Suspended (resume : State -> Outcome (Co A) * State).
Arguments Done {A} a.
Arguments Suspended {A} resume.

(** A task run to its end with nothing in between. *)
Fixpoint uninterrupted {A} (c : Co A) (s : State) : Outcome A * State :=
  match c with
  | Done a => (Returned a, s)
  | Suspended resume =>
      match resume s with
      | (Returned c', s') => uninterrupted c' s'
      | (Thrown e, s') => (Thrown e, s')
      end
  end.

(** [resumptions c ss a sf]: the task [c], resumed in the states [ss] one
    after the other (each is whatever the rest of the program has made of
    the state by then), finishes with [a], leaving the state [sf]. *)
Inductive resumptions {A} : Co A -> list State -> A -> State -> Prop :=
  | resumptions_last resume s a s' :
      resume s = (Returned (Done a), s') ->
      resumptions (Suspended resume) [s] a s'
  | resumptions_next resume s c' s' ss a sf :
      resume s = (Returned c', s') ->
      resumptions c' ss a sf ->
      resumptions (Suspended resume) (s :: ss) a sf.

(** The same as a function: the result of resuming [c] in the states [ss],
    if it finishes exactly there. *)
Fixpoint resumeAll {A} (c : Co A) (ss : list State) : option (A * State) :=
  match ss, c with
  | s :: rest, Suspended resume =>
      match resume s with
      | (Returned (Done a), s') => match rest with [] => Some (a, s') | _ => None end
      | (Returned c', _) => resumeAll c' rest
      | (Thrown _, _) => None
      end
  | _, _ => None
  end.

Section Suspensions.

Context (env : Env) (this : Delegate).

(** [RtpUtils.reservePorts(count)] is called in one segment and answers in
    the next: the call takes the next answer of the environment, the
    [await] delivers it, as the first port or as a rejection. *)
Definition reservePorts_call : M nat :=
  n ← gets portCalls;
  modify with_portCall ;;
  mret n.

Definition reservePorts_first (n : nat) (count : option nat) : M Z :=
  match reservePorts env n count with
  | Some p => emit (EvReservePorts count p) ;; mret p
  | None => emit (EvReserveRejected count) ;; throw ReservePortsRejected
  end.

(** The segments of [prepareStream], from the last to the first, with the
    locals bound so far as arguments.  [prepareStream_fromN] is the code
    that runs when the [await] of line N is resumed; [prepareStream_lineN]
    is the code from line N on, reached without suspending. *)

(** Lines 224-250: the response, the write to [pendingSessions], the
    callback. *)
Definition prepareStream_from221 (request : PrepareStreamRequest) (hasLibFdk : bool)
    (audioReturnPort audioServerPort audioTwoWayPort audioSSRC : Z)
    (rtpSplitter : option RtpSplitter) (videoReturnPort videoSSRC : Z)
    (currentAddress : option string) : M (Co PrepareStreamResponse) :=
  let sessionInfo :=
    {| address := targetAddress request;
       addressVersion := rq_addressVersion request;
       videoPort := port (video request);
       videoReturnPort := videoReturnPort;
       videoCryptoSuite := srtpCryptoSuite (video request);
       videoSRTP := Js.Buffer_concat [srtp_key (video request); srtp_salt (video request)];
       videoSSRC := videoSSRC;
       hasLibFdk := hasLibFdk;
       audioPort := port (audio request);
       audioTwoWayPort := audioTwoWayPort;
       rtpSplitter := rtpSplitter;
       audioReturnPort := audioReturnPort;
       audioCryptoSuite := srtpCryptoSuite (audio request);
       audioSRTP := Js.Buffer_concat [srtp_key (audio request); srtp_salt (audio request)];
       audioSSRC := audioSSRC |} in
  let response :=
    {| rs_address := currentAddress;
       rs_video := {| rs_port := videoReturnPort; ssrc := videoSSRC;
                      rs_srtp_key := srtp_key (video request);
                      rs_srtp_salt := srtp_salt (video request) |};
       rs_audio := {| rs_port := if hasLibFdk && twoWayAudio this
                                 then audioServerPort else audioReturnPort;
                      ssrc := audioSSRC;
                      rs_srtp_key := srtp_key (audio request);
                      rs_srtp_salt := srtp_salt (audio request) |} |} in
  modify (with_pending (insert (sessionID request) sessionInfo)) ;;
  mret (Done response).

(** Lines 537-556: [getDefaultIpAddress] resumed from its own [await] (line
    536) returns the address; its caller resumes from line 221 later. *)
Definition prepareStream_from536 (request : PrepareStreamRequest) (hasLibFdk : bool)
    (audioReturnPort audioServerPort audioTwoWayPort audioSSRC : Z)
    (rtpSplitter : option RtpSplitter) (videoReturnPort videoSSRC : Z)
    : M (Co PrepareStreamResponse) :=
  mret (Suspended
          (prepareStream_from221 request hasLibFdk audioReturnPort audioServerPort
             audioTwoWayPort audioSSRC rtpSplitter videoReturnPort videoSSRC
             (getDefaultIpAddress env (rq_addressVersion request)))).

(** Lines 198-221: the video SSRC is drawn, the session record is built and
    [getDefaultIpAddress] is called, which suspends at line 536. *)
Definition prepareStream_line198 (request : PrepareStreamRequest) (hasLibFdk : bool)
    (audioReturnPort audioServerPort audioTwoWayPort audioSSRC : Z)
    (rtpSplitter : option RtpSplitter) (videoReturnPort : Z)
    : M (Co PrepareStreamResponse) :=
  videoSSRC ← newSynchronisationSource env;
  mret (Suspended
          (prepareStream_from536 request hasLibFdk audioReturnPort audioServerPort
             audioTwoWayPort audioSSRC rtpSplitter videoReturnPort videoSSRC)).

(** Line 197 resumed: the video return port, or the rejection. *)
Definition prepareStream_from197 (request : PrepareStreamRequest) (hasLibFdk : bool)
    (audioReturnPort audioServerPort audioTwoWayPort audioSSRC : Z)
    (rtpSplitter : option RtpSplitter) (n : nat) : M (Co PrepareStreamResponse) :=
  videoReturnPort ← reservePorts_first n None;
  prepareStream_line198 request hasLibFdk audioReturnPort audioServerPort
    audioTwoWayPort audioSSRC rtpSplitter videoReturnPort.

(** Lines 185-197: the audio SSRC is drawn, the splitter is constructed and
    the video return port is asked for. *)
Definition prepareStream_line185 (request : PrepareStreamRequest) (hasLibFdk : bool)
    (audioReturnPort audioServerPort audioTwoWayPort : Z)
    : M (Co PrepareStreamResponse) :=
  audioSSRC ← newSynchronisationSource env;
  (if negb hasLibFdk
   then log (name this +:+ ": Audio support disabled. A version of FFmpeg that is compiled with fdk_aac support is required to support audio.")
   else mret tt) ;;
  rtpSplitter ←
    (if hasLibFdk && twoWayAudio this
     then r ← newRtpSplitter (rq_addressVersion request) audioServerPort
                 audioReturnPort audioTwoWayPort;
          mret (Some r)
     else mret None);
  n ← reservePorts_call;
  mret (Suspended
          (prepareStream_from197 request hasLibFdk audioReturnPort audioServerPort
             audioTwoWayPort audioSSRC rtpSplitter n)).

(** Line 184 resumed: the talkback port, or the rejection. *)
Definition prepareStream_from184 (request : PrepareStreamRequest) (hasLibFdk : bool)
    (audioReturnPort audioServerPort : Z) (n : nat) : M (Co PrepareStreamResponse) :=
  audioTwoWayPort ← reservePorts_first n (Some 2%nat);
  prepareStream_line185 request hasLibFdk audioReturnPort audioServerPort audioTwoWayPort.

(** Line 184: the talkback port is asked for; without two-way audio there
    is no [await] and the code goes on. *)
Definition prepareStream_line184 (request : PrepareStreamRequest) (hasLibFdk : bool)
    (audioReturnPort audioServerPort : Z) : M (Co PrepareStreamResponse) :=
  if hasLibFdk && twoWayAudio this
  then n ← reservePorts_call;
       mret (Suspended
               (prepareStream_from184 request hasLibFdk audioReturnPort audioServerPort n))
  else prepareStream_line185 request hasLibFdk audioReturnPort audioServerPort (-1).

(** Line 183 resumed: the audio server port, or the rejection. *)
Definition prepareStream_from183 (request : PrepareStreamRequest) (hasLibFdk : bool)
    (audioReturnPort : Z) (n : nat) : M (Co PrepareStreamResponse) :=
  audioServerPort ← reservePorts_first n None;
  prepareStream_line184 request hasLibFdk audioReturnPort audioServerPort.

(** Line 183: the audio server port is asked for; without two-way audio the
    code goes on. *)
Definition prepareStream_line183 (request : PrepareStreamRequest) (hasLibFdk : bool)
    (audioReturnPort : Z) : M (Co PrepareStreamResponse) :=
  if hasLibFdk && twoWayAudio this
  then n ← reservePorts_call;
       mret (Suspended (prepareStream_from183 request hasLibFdk audioReturnPort n))
  else prepareStream_line184 request hasLibFdk audioReturnPort (-1).

(** Line 182 resumed: the audio return port, or the rejection. *)
Definition prepareStream_from182 (request : PrepareStreamRequest) (hasLibFdk : bool)
    (n : nat) : M (Co PrepareStreamResponse) :=
  audioReturnPort ← reservePorts_first n None;
  prepareStream_line183 request hasLibFdk audioReturnPort.

(** Line 179 resumed: the answer of the codec probe is bound and the audio
    return port is asked for. *)
Definition prepareStream_from179 (request : PrepareStreamRequest)
    : M (Co PrepareStreamResponse) :=
  let hasLibFdk := codecEnabled env (videoProcessor this) "libfdk_aac" in
  n ← reservePorts_call;
  mret (Suspended (prepareStream_from182 request hasLibFdk n)).

(** The call of [prepareStream]: it runs to the [await] of line 179. *)
Definition prepareStream_call (request : PrepareStreamRequest)
    : M (Co PrepareStreamResponse) :=
  emit (EvCodecProbe (videoProcessor this) "libfdk_aac") ;;
  mret (Suspended (prepareStream_from179 request)).

(** The delegate with its negotiations in flight, each with the session id
    of its request. *)
Record System := {
  sys_state : State;
  inflight : list (string * Co PrepareStreamResponse)
}.

(** What the event loop can run next: a call by HomeKit (or, for a stop,
    by an [FfmpegProcess] that exited), the shutdown handler, or the next
    segment of a negotiation in flight.  [startStream] has no [await] and
    [stopStream] is not async: each runs in one piece. *)
Inductive Action :=
  | CallPrepare (request : PrepareStreamRequest)
  | Resume (i : nat)
  | CallStart (request : StartStreamRequest)
  | CallStop (sessionId : string)
  | CallShutdown.

Definition act (a : Action) (sys : System) : System :=
  match a with
  | CallPrepare request =>
      match prepareStream_call request (sys_state sys) with
      | (Returned c, s') =>
          {| sys_state := s';
             inflight := (inflight sys ++ [(sessionID request, c)])%list |}
      | (Thrown _, s') => {| sys_state := s'; inflight := inflight sys |}
      end
  | Resume i =>
      match inflight sys !! i with
      | Some (id, Suspended resume) =>
          match resume (sys_state sys) with
          | (Returned c', s') =>
              {| sys_state := s'; inflight := <[i := (id, c')]> (inflight sys) |}
          | (Thrown _, s') =>
              {| sys_state := s'; inflight := delete i (inflight sys) |}
          end
      | _ => sys
      end
  | CallStart request =>
      {| sys_state := (startStream env this request (sys_state sys)).2;
         inflight := inflight sys |}
  | CallStop sessionId =>
      {| sys_state := (stopStream env this sessionId (sys_state sys)).2;
         inflight := inflight sys |}
  | CallShutdown =>
      {| sys_state := (shutdown env this (sys_state sys)).2;
         inflight := inflight sys |}
  end.

Fixpoint actAll (acts : list Action) (sys : System) : System :=
  match acts with
  | [] => sys
  | a :: rest => actAll rest (act a sys)
  end.

(** A step that does not store a pending entry under a session id that is
    ongoing: a resumption either leaves [pendingSessions] as it is or is
    made when the id of its negotiation is not in [ongoingSessions]. *)
Definition storesFreshly (a : Action) (sys : System) : Prop :=
  match a with
  | Resume i =>
      pendingSessions (sys_state (act a sys)) = pendingSessions (sys_state sys)
      ∨ ∃ id, fst <$> inflight sys !! i = Some id
              ∧ ongoingSessions (sys_state sys) !! id = None
  | _ => True
  end.

(** A run all of whose steps are such. *)
Fixpoint storesFresh (acts : list Action) (sys : System) : Prop :=
  match acts with
  | [] => True
  | a :: rest => storesFreshly a sys ∧ storesFresh rest (act a sys)
  end.

(** The states in which the negotiation at index [i] is resumed along a
    run. *)
Fixpoint resumedIn (i : nat) (acts : list Action) (sys : System) : list State :=
  match acts with
  | [] => []
  | a :: rest =>
      match a with
      | Resume j => if decide (i = j) then [sys_state sys] else []
      | _ => []
      end ++ resumedIn i rest (act a sys)
  end.

End Suspensions.

(** The delegate the constructor leaves: no session, nothing in flight. *)
Definition initialSystem : System := {| sys_state := initial; inflight := [] |}.

(** A task leaves [ongoingSessions] alone and writes [pendingSessions] at
    its own session id only, in every segment, whatever the state it is
    resumed in. *)
#[warnings="-register-all"]
Inductive registrySafe (id : string) : Co PrepareStreamResponse -> Prop :=
  | registrySafe_done response : registrySafe id (Done response)
  | registrySafe_suspended resume :
      (∀ s, ongoingSessions (resume s).2 = ongoingSessions s
            ∧ (pendingSessions (resume s).2 = pendingSessions s
               ∨ ∃ info, pendingSessions (resume s).2 = <[id := info]> (pendingSessions s))
            ∧ ∀ c', (resume s).1 = Returned c' → registrySafe id c') →
      registrySafe id (Suspended resume).

(** A segment that leaves [ongoingSessions] alone, writes
    [pendingSessions] at [id] only, and suspends into a safe task. *)
Definition segmentSafe (id : string) (m : M (Co PrepareStreamResponse)) : Prop :=
  ∀ s, ongoingSessions (m s).2 = ongoingSessions s
       ∧ (pendingSessions (m s).2 = pendingSessions s
          ∨ ∃ info, pendingSessions (m s).2 = <[id := info]> (pendingSessions s))
       ∧ ∀ c', (m s).1 = Returned c' → registrySafe id c'.

(** A step that leaves both registries as they are. *)
Definition keepsRegistries {A} (m : M A) : Prop :=
  ∀ s, pendingSessions (m s).2 = pendingSessions s
       ∧ ongoingSessions (m s).2 = ongoingSessions s.

(** The invariant of the interleaved runs. *)
Definition systemSafe (sys : System) : Prop :=
  registriesDisjoint (sys_state sys)
  ∧ Forall (λ task, registrySafe task.1 task.2) (inflight sys).

(** The response [response] and the pending entry of [request] in [sf]
    both carry the audio SSRC [a] and the video SSRC [v]. *)
Definition ssrcsAre (request : PrepareStreamRequest) (a v : Z)
    (response : PrepareStreamResponse) (sf : State) : Prop :=
  ssrc (rs_audio response) = a
  ∧ ssrc (rs_video response) = v
  ∧ (audioSSRC <$> pendingSessions sf !! sessionID request) = Some a
  ∧ (videoSSRC <$> pendingSessions sf !! sessionID request) = Some v.

(** The draws of a negotiation in flight whose current segment runs with
    the SSRC counter at [n]: either the audio SSRC is drawn in this segment
    and the video SSRC in the next one, or both are drawn in later,
    adjacent, segments. *)
Definition drawsLater (env : Env) (request : PrepareStreamRequest)
    (response : PrepareStreamResponse) (sf : State) (ss : list State) : Prop :=
  ∃ before sa sv s536 s221,
    ss = (before ++ [sa; sv; s536; s221])%list
    ∧ ssrcsAre request (generateSynchronisationSource env (ssrcCalls sa))
        (generateSynchronisationSource env (ssrcCalls sv)) response sf.

Definition drawsFrom (env : Env) (request : PrepareStreamRequest)
    (response : PrepareStreamResponse) (sf : State) (n : nat) (ss : list State) : Prop :=
  (∃ sv s536 s221,
     ss = [sv; s536; s221]
     ∧ ssrcsAre request (generateSynchronisationSource env n)
         (generateSynchronisationSource env (ssrcCalls sv)) response sf)
  ∨ drawsLater env request response sf ss.

(** ** Sample interleavings *)

Module Interleaved.

(** One viewing of the doorbell: the negotiation resumed seven times, the
    start, the stop. *)
Definition viewing : list Action :=
  [CallPrepare (Sample.prepare "ipv4");
   Resume 0; Resume 0; Resume 0; Resume 0; Resume 0; Resume 0; Resume 0;
   CallStart Sample.start; CallStop "s1"].

Definition other : PrepareStreamRequest :=
  {| sessionID := "s2"; targetAddress := "10.0.0.3"; rq_addressVersion := "ipv4";
     video := Sample.leg 52000; audio := Sample.leg 52002 |}.

(** Two negotiations of the doorbell, resumed in turn. *)
Definition alternating : list Action :=
  [CallPrepare (Sample.prepare "ipv4"); CallPrepare other;
   Resume 0; Resume 1; Resume 0; Resume 1; Resume 0; Resume 1; Resume 0; Resume 1;
   Resume 0; Resume 1; Resume 0; Resume 1; Resume 0; Resume 1].

(** A second negotiation of a session id, called while the id is pending
    and finished after the session has been started. *)
Definition overtaken : list Action :=
  [CallPrepare (Sample.prepare "ipv4");
   Resume 0; Resume 0; Resume 0; Resume 0; Resume 0; Resume 0; Resume 0;
   CallPrepare (Sample.prepare "ipv4");
   Resume 1; Resume 1; Resume 1; Resume 1; Resume 1; Resume 1;
   CallStart Sample.start;
   Resume 1].

(** The states in which the first of the two is resumed. *)
Definition resumed : list State :=
  resumedIn Sample.env Sample.doorbell 0 alternating initialSystem.

End Interleaved.

(** ** Properties *)

(** *** Strings and traces *)

Example join_three : Js.join " " ["a"; ""; "b"] = "a  b".
Proof. reflexivity. Qed.

Example num_neg : Js.num (-1) = "-1".
Proof. vm_compute. reflexivity. Qed.

Example base64_man : Js.base64 [77; 97; 110]%N = "TWFu".
Proof. vm_compute. reflexivity. Qed.

Example base64_ma : Js.base64 [77; 97]%N = "TWE=".
Proof. vm_compute. reflexivity. Qed.

Example base64_m : Js.base64 [77]%N = "TQ==".
Proof. vm_compute. reflexivity. Qed.

Lemma string_app_assoc (a b c : string) : (a +:+ b) +:+ c = a +:+ (b +:+ c).
Proof.
  induction a as [|ch a IH]; [reflexivity |].
  change (String ch ((a +:+ b) +:+ c) = String ch (a +:+ b +:+ c)).
  by rewrite IH.
Qed.

Lemma videomtu_text : Js.num videomtu = "564".
Proof. vm_compute. reflexivity. Qed.

Lemma audiomtu_text : Js.num audiomtu = "188".
Proof. vm_compute. reflexivity. Qed.

(** The RTP target is the last element joined into the video leg. *)
Lemma ffmpegVideoStream_ends (info : SessionInfo) :
  ∃ pre, ffmpegVideoStream info = pre +:+ "&pkt_size=564".
Proof.
  unfold ffmpegVideoStream. rewrite videomtu_text.
  cbn [Js.join]. eexists.
  repeat rewrite <- string_app_assoc. rewrite string_app_assoc. reflexivity.
Qed.

Lemma ffmpegAudioStream_ends (info : SessionInfo) :
  ∃ pre, ffmpegAudioStream info = pre +:+ "&pkt_size=188".
Proof.
  unfold ffmpegAudioStream. rewrite audiomtu_text.
  cbn [Js.join]. eexists.
  repeat rewrite <- string_app_assoc. rewrite string_app_assoc. reflexivity.
Qed.

(** C4.  Whatever the delegate, the start request and the negotiated
    session are, the command line [fcmd] handed to FFmpeg has the video leg
    ending in the literal [&pkt_size=564] (188 * 3), followed, when the audio
    leg is there, by an audio leg ending in the literal [&pkt_size=188]
    (188 * 1), followed only by the logging tail: the two sizes never depend
    on the request. *)
Theorem fcmd_packet_sizes (this : Delegate) (request : StartStreamRequest)
    (sessionInfo : SessionInfo) :
  videomtu = 564 ∧ audiomtu = 188 ∧
  ∃ v a, fcmd this request sessionInfo =
           v +:+ "&pkt_size=564"
             +:+ (if hasLibFdk sessionInfo then a +:+ "&pkt_size=188" else "")
             +:+ loglevel this.
Proof.
  split; [reflexivity | split; [reflexivity |]].
  destruct (ffmpegVideoStream_ends sessionInfo) as [v Hv].
  destruct (ffmpegAudioStream_ends sessionInfo) as [a Ha].
  exists (("-hide_banner -rtsp_transport tcp -i " +:+ cameraUrl this)
            +:+ ffmpegVideoArgs this request +:+ v).
  exists (ffmpegAudioArgs request +:+ a).
  unfold fcmd, fcmdVideo, fcmdAudio. rewrite Hv, Ha.
  destruct (hasLibFdk sessionInfo);
    repeat rewrite string_app_assoc; reflexivity.
Qed.

(** *** Running the methods *)

Ltac mrun :=
  unfold mbind, M_bind, m_bind, mret, M_ret, m_ret, log, log_error, emit,
    gets, modify, throw; cbn beta iota zeta.

(** Two states with the same six fields are the same state. *)
Lemma State_eq (s1 s2 : State) :
  pendingSessions s1 = pendingSessions s2 →
  ongoingSessions s1 = ongoingSessions s2 →
  trace s1 = trace s2 →
  nextId s1 = nextId s2 →
  portCalls s1 = portCalls s2 →
  ssrcCalls s1 = ssrcCalls s2 →
  s1 = s2.
Proof. destruct s1, s2. cbn. by intros -> -> -> -> -> ->. Qed.

Ltac state_fields :=
  cbn [pendingSessions ongoingSessions trace nextId portCalls ssrcCalls
       with_event with_events with_pending with_ongoing with_nextId
       with_portCall with_ssrcCall].

(** Without a pending entry, [startStream] logs the request and throws. *)
Lemma startStream_undefined_session (env : Env) (this : Delegate)
    (request : StartStreamRequest) (s : State) :
  pendingSessions s !! st_sessionID request = None →
  startStream env this request s =
    (Thrown (TypeError "Cannot read property 'videoSSRC' of undefined"),
     with_event (EvLog (startStreamLogLine this request)) s).
Proof.
  intros Hnone. unfold startStream. mrun. rewrite Hnone. reflexivity.
Qed.

(** C2.  [startStream] for a session id that has no entry in
    [pendingSessions] ends with an error (the [TypeError] of reading a
    property of [undefined]); all it has done by then is write the request
    log line: no [FfmpegProcess] was created, no port was reserved, and
    [pendingSessions] and [ongoingSessions] are as they were. *)
Theorem startStream_without_pending (env : Env) (this : Delegate)
    (request : StartStreamRequest) (s : State) :
  pendingSessions s !! st_sessionID request = None →
  ∃ s', startStream env this request s =
          (Thrown (TypeError "Cannot read property 'videoSSRC' of undefined"), s')
    ∧ pendingSessions s' = pendingSessions s
    ∧ ongoingSessions s' = ongoingSessions s
    ∧ nextId s' = nextId s
    ∧ portCalls s' = portCalls s
    ∧ trace s' = (trace s ++ [EvLog (startStreamLogLine this request)])%list.
Proof.
  intros Hnone. eexists.
  split; [exact (startStream_undefined_session env this request s Hnone) |].
  repeat split.
Qed.

Lemma startStream_without_pending_witness :
  ∃ s', startStream Sample.env Sample.doorbell Sample.start initial =
          (Thrown (TypeError "Cannot read property 'videoSSRC' of undefined"), s')
    ∧ pendingSessions s' = ∅
    ∧ ongoingSessions s' = ∅
    ∧ trace s' =
        [EvLog "Door: HomeKit video stream request received: 1280x720, 30 fps, 299 kbps."].
Proof.
  destruct (startStream_without_pending Sample.env Sample.doorbell Sample.start initial)
    as (s' & Hrun & Hp & Ho & _ & _ & Htrace); [reflexivity |].
  exists s'. split; [exact Hrun |]. split; [exact Hp |]. split; [exact Ho |].
  rewrite Htrace. vm_compute. reflexivity.
Defined.

(** [startStream] on a pending session, path by path. *)
Lemma startStream_with_pending (env : Env) (this : Delegate)
    (request : StartStreamRequest) (s : State) (sessionInfo : SessionInfo) :
  pendingSessions s !! st_sessionID request = Some sessionInfo →
  startStream env this request s =
    if ffmpegLaunchThrows env (nextId s) (fcmd this request sessionInfo)
    then (Thrown FfmpegLaunchError,
          with_event (EvLog (startStreamLogLine this request)) s)
    else if negb (hasLibFdk sessionInfo) || negb (twoWayAudio this)
    then (Returned tt, afterOutbound this request sessionInfo s)
    else if ffmpegLaunchThrows env (S (nextId s)) (ffmpegReturnAudioCmd this)
    then (Thrown FfmpegLaunchError, afterOutbound this request sessionInfo s)
    else (Returned tt, afterTalkback env this request sessionInfo s).
Proof.
  intros Hsome. unfold startStream, newFfmpegProcess. mrun. rewrite Hsome.
  cbn [nextId with_event with_events].
  destruct (ffmpegLaunchThrows env (nextId s) _) eqn:Hlaunch; [reflexivity |].
  mrun.
  destruct (negb (hasLibFdk sessionInfo) || negb (twoWayAudio this)) eqn:Htw;
    [reflexivity |].
  cbn [nextId with_event with_events with_pending with_ongoing with_nextId].
  destruct (ffmpegLaunchThrows env (S (nextId s)) _) eqn:Hlaunch2; [reflexivity |].
  mrun.
  cbn [ongoingSessions with_event with_events with_pending with_ongoing with_nextId].
  rewrite lookup_insert_eq. mrun.
  unfold afterTalkback, afterOutbound.
  destruct (ffmpegHasStdin env (S (nextId s)));
    f_equal; apply State_eq; state_fields; try reflexivity;
    by rewrite insert_insert_eq.
Qed.

(** *** Stopping *)

Lemma with_events_nil s : with_events [] s = s.
Proof. destruct s. unfold with_events. cbn. by rewrite app_nil_r. Qed.

Lemma with_events_app a b s : with_events b (with_events a s) = with_events (a ++ b) s.
Proof. unfold with_events. cbn. by rewrite app_assoc. Qed.

Lemma ffmpegStop_run (env : Env) (p : FfmpegProcess) (s : State) :
  ffmpegStop env p s =
    if ffmpegStopThrows env p then (Thrown FfmpegStopError, s)
    else (Returned tt, with_event (EvStop p) s).
Proof. unfold ffmpegStop. by destruct (ffmpegStopThrows env p). Qed.

Lemma for_of_ffmpegStop (env : Env) (l : list FfmpegProcess) (s : State) :
  for_of l (ffmpegStop env) s =
    (match (stopAll env l).2 with None => Returned tt | Some e => Thrown e end,
     with_events (stopAll env l).1 s).
Proof.
  revert s. induction l as [|p rest IH]; intros s.
  - cbn [for_of stopAll fst snd]. mrun. by rewrite with_events_nil.
  - cbn [for_of stopAll]. mrun. rewrite ffmpegStop_run.
    destruct (ffmpegStopThrows env p) eqn:Hp.
    + cbn [fst snd]. by rewrite with_events_nil.
    + rewrite IH. cbn [fst snd]. unfold with_event.
      rewrite with_events_app. reflexivity.
Qed.

(** The [try] block of [stopStream] in closed form. *)
Lemma stopStreamBody_teardown (env : Env) (this : Delegate) (sessionId : string)
    (s : State) :
  stopStreamBody env this sessionId s =
    match (teardown env (ongoingSessions s !! sessionId)).2 with
    | Some e =>
        (Thrown e, with_events (teardown env (ongoingSessions s !! sessionId)).1 s)
    | None =>
        (Returned tt,
         with_event (EvLog (name this +:+ ": Stopped video stream."))
           (with_ongoing (delete sessionId)
              (with_pending (delete sessionId)
                 (with_events (teardown env (ongoingSessions s !! sessionId)).1 s))))
    end.
Proof.
  unfold stopStreamBody. mrun.
  destruct (ongoingSessions s !! sessionId) as [o|] eqn:Ho.
  - rewrite for_of_ffmpegStop. cbn [teardown].
    destruct ((stopAll env (ffmpeg o)).2) as [e|] eqn:Hstop; [reflexivity |].
    cbn [ongoingSessions with_events]. rewrite Ho. cbn [mbind option_bind].
    destruct (og_rtpSplitter o) as [r|]; [| reflexivity].
    unfold splitterClose. mrun.
    destruct (splitterCloseThrows env r); [reflexivity |].
    cbn [fst snd]. unfold with_event. rewrite with_events_app. reflexivity.
  - cbn. rewrite Ho. cbn. by rewrite with_events_nil.
Qed.

Lemma stopStream_teardown (env : Env) (this : Delegate) (sessionId : string)
    (s : State) :
  stopStream env this sessionId s =
    (Returned tt,
     match (teardown env (ongoingSessions s !! sessionId)).2 with
     | Some e =>
         with_event (EvLogError (name this +:+ ": Error occurred terminating video process: "
                                   +:+ exn_text e))
           (with_events (teardown env (ongoingSessions s !! sessionId)).1 s)
     | None =>
         with_event (EvLog (name this +:+ ": Stopped video stream."))
           (with_ongoing (delete sessionId)
              (with_pending (delete sessionId)
                 (with_events (teardown env (ongoingSessions s !! sessionId)).1 s)))
     end).
Proof.
  unfold stopStream, try_catch. rewrite stopStreamBody_teardown.
  destruct ((teardown env (ongoingSessions s !! sessionId)).2); reflexivity.
Qed.



(** *** Shutdown *)

Lemma stopAll_quiet (env : Env) (l : list FfmpegProcess) :
  (∀ p, ffmpegStopThrows env p = false) →
  stopAll env l = (EvStop <$> l, None).
Proof.
  intros Hquiet. induction l as [|p rest IH]; [reflexivity |].
  cbn [stopAll]. rewrite Hquiet, IH. reflexivity.
Qed.

Lemma teardown_quiet (env : Env) (o : option OngoingSession) :
  (∀ p, ffmpegStopThrows env p = false) →
  (∀ r, splitterCloseThrows env r = false) →
  (teardown env o).2 = None
  ∧ (∀ o' p, o = Some o' → p ∈ ffmpeg o' → EvStop p ∈ (teardown env o).1)
  ∧ (∀ o' r, o = Some o' → og_rtpSplitter o' = Some r →
       EvSplitterClose r ∈ (teardown env o).1).
Proof.
  intros Hstop Hclose. destruct o as [o|]; [| by repeat split].
  cbn [teardown]. rewrite (stopAll_quiet env (ffmpeg o) Hstop). cbn [fst snd].
  destruct (og_rtpSplitter o) as [r|] eqn:Hr.
  - rewrite Hclose. cbn [fst snd]. split; [reflexivity |]. split.
    + intros o' p [= <-] Hp. apply elem_of_app. left. by apply list_elem_of_fmap_2.
    + intros o' r' [= <-] Hr'. rewrite Hr in Hr'. injection Hr' as <-.
      apply elem_of_app. right. by apply list_elem_of_singleton.
  - cbn [fst snd]. split; [reflexivity |]. split.
    + intros o' p [= <-] Hp. by apply list_elem_of_fmap_2.
    + intros o' r' [= <-] Hr'. rewrite Hr in Hr'. discriminate.
Qed.

(** Settles a goal made of tests [id = k], [id ∈ rest] and [id ∈ k :: rest]. *)
Ltac cons_cases :=
  repeat case_decide; try reflexivity; exfalso;
  repeat match goal with
    | H : _ ∈ _ :: _ |- _ => apply elem_of_cons in H as [? | ?]
    | H : _ ∉ _ :: _ |- _ => apply not_elem_of_cons in H as [? ?]
    end;
  subst; contradiction.

(** The loop of the shutdown handler over any list of session ids. *)
Lemma shutdown_loop (env : Env) (this : Delegate) (ids : list string) :
  (∀ p, ffmpegStopThrows env p = false) →
  (∀ r, splitterCloseThrows env r = false) →
  ∀ s, ∃ s' evs,
    for_of ids (stopStream env this) s = (Returned tt, s')
    ∧ trace s' = (trace s ++ evs)%list
    ∧ (∀ id, ongoingSessions s' !! id =
               if decide (id ∈ ids) then None else ongoingSessions s !! id)
    ∧ (∀ id, pendingSessions s' !! id =
               if decide (id ∈ ids) then None else pendingSessions s !! id)
    ∧ (∀ id o p, id ∈ ids → ongoingSessions s !! id = Some o → p ∈ ffmpeg o →
         EvStop p ∈ trace s')
    ∧ (∀ id o r, id ∈ ids → ongoingSessions s !! id = Some o →
         og_rtpSplitter o = Some r → EvSplitterClose r ∈ trace s').
Proof.
  intros Hstop Hclose. induction ids as [|k rest IH]; intros s.
  - exists s, []. cbn. rewrite app_nil_r.
    repeat split; try done; intros id o ? Hin; by apply elem_of_nil in Hin.
  - cbn [for_of]. mrun. rewrite stopStream_teardown.
    destruct (teardown_quiet env (ongoingSessions s !! k) Hstop Hclose)
      as (Hnone & Hstops & Hcloses).
    rewrite Hnone.
    set (s1 := with_event _ _).
    destruct (IH s1) as (s' & evs & Hrun & Htrace & Hon & Hpend & Hsig & Hrel).
    assert (Htrace1 : trace s1 =
              (trace s ++ (teardown env (ongoingSessions s !! k)).1
                 ++ [EvLog (name this +:+ ": Stopped video stream.")])%list).
    { subst s1. cbn. by rewrite <- app_assoc. }
    assert (Hon1 : ∀ id, ongoingSessions s1 !! id =
                     if decide (id = k) then None else ongoingSessions s !! id).
    { intros id. subst s1. cbn. case_decide as Hid.
      - subst id. apply lookup_delete_eq.
      - by apply lookup_delete_ne. }
    assert (Hpend1 : ∀ id, pendingSessions s1 !! id =
                       if decide (id = k) then None else pendingSessions s !! id).
    { intros id. subst s1. cbn. case_decide as Hid.
      - subst id. apply lookup_delete_eq.
      - by apply lookup_delete_ne. }
    exists s', ((teardown env (ongoingSessions s !! k)).1
                  ++ [EvLog (name this +:+ ": Stopped video stream.")] ++ evs)%list.
    split; [exact Hrun |]. split.
    { rewrite Htrace, Htrace1. by rewrite <- !app_assoc. }
    split.
    { intros id. rewrite Hon, Hon1. cons_cases. }
    split.
    { intros id. rewrite Hpend, Hpend1. cons_cases. }
    split.
    + intros id o p Hin Ho Hp.
      destruct (decide (id = k)) as [-> | Hne].
      * rewrite Htrace, Htrace1. apply elem_of_app. left.
        apply elem_of_app. right. apply elem_of_app. left.
        by apply (Hstops o p).
      * apply (Hsig id o p); [| | exact Hp].
        { apply elem_of_cons in Hin as [? | ?]; [contradiction | assumption]. }
        rewrite Hon1. by rewrite decide_False.
    + intros id o r Hin Ho Hr.
      destruct (decide (id = k)) as [-> | Hne].
      * rewrite Htrace, Htrace1. apply elem_of_app. left.
        apply elem_of_app. right. apply elem_of_app. left.
        by apply (Hcloses o r).
      * apply (Hrel id o r); [| | exact Hr].
        { apply elem_of_cons in Hin as [? | ?]; [contradiction | assumption]. }
        rewrite Hon1. by rewrite decide_False.
Qed.

(** C5, as the code has it.  When no [stop()] and no [close()] throws, the
    shutdown handler returns with [ongoingSessions] empty, with every
    process and every splitter of a previously ongoing session told to stop
    or close, and with the pending entries of the ids that were ongoing
    deleted; a pending entry whose id was not ongoing stays. *)
Theorem shutdown_drains_ongoing (env : Env) (this : Delegate) (s : State) :
  (∀ p, ffmpegStopThrows env p = false) →
  (∀ r, splitterCloseThrows env r = false) →
  ∃ s', shutdown env this s = (Returned tt, s')
    ∧ ongoingSessions s' = ∅
    ∧ (∀ id, pendingSessions s' !! id =
               match ongoingSessions s !! id with
               | Some _ => None
               | None => pendingSessions s !! id
               end)
    ∧ (∀ id o p, ongoingSessions s !! id = Some o → p ∈ ffmpeg o →
         EvStop p ∈ trace s')
    ∧ (∀ id o r, ongoingSessions s !! id = Some o → og_rtpSplitter o = Some r →
         EvSplitterClose r ∈ trace s').
Proof.
  intros Hstop Hclose. unfold shutdown. mrun.
  destruct (shutdown_loop env this (map_to_list (ongoingSessions s)).*1 Hstop Hclose s)
    as (s' & evs & Hrun & _ & Hon & Hpend & Hsig & Hrel).
  assert (Hkeys : ∀ id, id ∈ (map_to_list (ongoingSessions s)).*1
                        ↔ is_Some (ongoingSessions s !! id)).
  { intros id. rewrite list_elem_of_fmap. split.
    - intros ([k o] & -> & Hin). apply elem_of_map_to_list in Hin. by exists o.
    - intros [o Ho]. exists (id, o). split; [reflexivity |].
      by apply elem_of_map_to_list. }
  exists s'. split; [exact Hrun |]. split.
  { apply map_empty. intros id. rewrite Hon. case_decide as Hin; [reflexivity |].
    apply eq_None_not_Some. by rewrite <- Hkeys. }
  split.
  { intros id. rewrite Hpend. case_decide as Hin.
    - apply Hkeys in Hin as [o ->]. reflexivity.
    - rewrite Hkeys in Hin. apply eq_None_not_Some in Hin. by rewrite Hin. }
  split.
  - intros id o p Ho Hp.
    apply (Hsig id o p); [apply Hkeys; by exists o | exact Ho | exact Hp].
  - intros id o r Ho Hr.
    apply (Hrel id o r); [apply Hkeys; by exists o | exact Ho | exact Hr].
Qed.

Lemma shutdown_drains_ongoing_witness :
  ∃ s', shutdown Sample.env Sample.doorbell Sample.streaming = (Returned tt, s')
    ∧ ongoingSessions s' = ∅
    ∧ EvStop 1%nat ∈ trace s' ∧ EvStop 2%nat ∈ trace s'
    ∧ EvSplitterClose 0%nat ∈ trace s'.
Proof.
  destruct (shutdown_drains_ongoing Sample.env Sample.doorbell Sample.streaming)
    as (s' & Hrun & Hempty & _ & Hsig & Hrel); [reflexivity | reflexivity |].
  exists s'. split; [exact Hrun |]. split; [exact Hempty |].
  assert (Hs1 : ongoingSessions Sample.streaming !! "s1" =
                Some {| ffmpeg := [1%nat; 2%nat]; og_rtpSplitter := Some 0%nat |})
    by (vm_compute; reflexivity).
  split; [| split].
  - apply (Hsig "s1" _ 1%nat Hs1). cbn [ffmpeg]. repeat constructor.
  - apply (Hsig "s1" _ 2%nat Hs1). cbn [ffmpeg]. repeat constructor.
  - apply (Hrel "s1" _ 0%nat Hs1). reflexivity.
Defined.

(** C5 as stated fails: a session that was negotiated and never started is
    not ongoing, so the shutdown handler does not visit it and its pending
    entry is still there afterwards. *)
Lemma shutdown_keeps_unstarted_pending :
  (shutdown Sample.env Sample.doorbell Sample.negotiated).1 = Returned tt
  ∧ pendingSessions (shutdown Sample.env Sample.doorbell Sample.negotiated).2 ≠ ∅
  ∧ is_Some (pendingSessions
               (shutdown Sample.env Sample.doorbell Sample.negotiated).2 !! "s1").
Proof.
  assert (Hs1 : is_Some (pendingSessions
                   (shutdown Sample.env Sample.doorbell Sample.negotiated).2 !! "s1")).
  { vm_compute. eexists. reflexivity. }
  split; [vm_compute; reflexivity |]. split; [| exact Hs1].
  intros Hempty. rewrite Hempty, lookup_empty in Hs1. by destruct Hs1.
Qed.

(** *** Negotiation *)

Lemma reserveFirstPort_run (env : Env) (count : option nat) (s : State) :
  reserveFirstPort env count s =
    match reservePorts env (portCalls s) count with
    | Some p => (Returned p, with_event (EvReservePorts count p) (with_portCall s))
    | None => (Thrown ReservePortsRejected,
               with_event (EvReserveRejected count) (with_portCall s))
    end.
Proof.
  unfold reserveFirstPort. mrun.
  by destruct (reservePorts env (portCalls s) count).
Qed.

Lemma newSynchronisationSource_run (env : Env) (s : State) :
  newSynchronisationSource env s =
    (Returned (generateSynchronisationSource env (ssrcCalls s)),
     with_event (EvSsrc (generateSynchronisationSource env (ssrcCalls s)))
       (with_ssrcCall s)).
Proof. reflexivity. Qed.

Lemma newRtpSplitter_run (version : string) (a b c : Z) (s : State) :
  newRtpSplitter version a b c s =
    (Returned (nextId s),
     with_event (EvSplitterNew (nextId s) version a b c) (with_nextId s)).
Proof. reflexivity. Qed.

(** Runs [prepareStream] symbolically: one case per answer of the codec
    probe, the two-way audio flag and each port reservation made. *)
Ltac run_prepare :=
  unfold prepareStream; mrun;
  destruct (codecEnabled _ _ "libfdk_aac") eqn:Hlib;
  destruct (twoWayAudio _) eqn:Htw;
  cbn [andb negb]; mrun;
  repeat (first [ rewrite reserveFirstPort_run
                | rewrite newSynchronisationSource_run
                | rewrite newRtpSplitter_run ];
          state_fields;
          try match goal with
              | |- context [match reservePorts ?e ?n ?c with _ => _ end] =>
                  let H := fresh "Hport" in destruct (reservePorts e n c) eqn:H
              end;
          mrun).

(** *** Starting *)

Lemma afterOutbound_registries (this : Delegate) (request : StartStreamRequest)
    (sessionInfo : SessionInfo) (s : State) :
  pendingSessions (afterOutbound this request sessionInfo s) =
    delete (st_sessionID request) (pendingSessions s)
  ∧ ongoingSessions (afterOutbound this request sessionInfo s) =
      <[st_sessionID request := {| ffmpeg := [nextId s];
                                   og_rtpSplitter := rtpSplitter sessionInfo |}]>
        (ongoingSessions s).
Proof. split; reflexivity. Qed.

Lemma afterTalkback_registries (env : Env) (this : Delegate)
    (request : StartStreamRequest) (sessionInfo : SessionInfo) (s : State) :
  pendingSessions (afterTalkback env this request sessionInfo s) =
    delete (st_sessionID request) (pendingSessions s)
  ∧ ongoingSessions (afterTalkback env this request sessionInfo s) =
      <[st_sessionID request := {| ffmpeg := [nextId s; S (nextId s)];
                                   og_rtpSplitter := rtpSplitter sessionInfo |}]>
        (ongoingSessions s).
Proof.
  unfold afterTalkback, afterOutbound. cbn zeta.
  destruct (ffmpegHasStdin env (S (nextId s))); state_fields;
    rewrite insert_insert_eq; split; reflexivity.
Qed.

(** C8.  When the pending session was negotiated without AAC
    ([hasLibFdk] false), the FFmpeg command line is the input, the video
    arguments, the video RTP leg and the logging tail, with nothing of the
    audio leg in it; and unless launching that very process throws,
    [startStream] returns normally, having launched exactly that one process
    (with the video return port) and registered the session as ongoing. *)
Theorem startStream_video_only (env : Env) (this : Delegate)
    (request : StartStreamRequest) (s : State) (sessionInfo : SessionInfo) :
  pendingSessions s !! st_sessionID request = Some sessionInfo →
  hasLibFdk sessionInfo = false →
  ffmpegLaunchThrows env (nextId s) (fcmd this request sessionInfo) = false →
  fcmd this request sessionInfo =
    ("-hide_banner -rtsp_transport tcp -i " +:+ cameraUrl this)
      +:+ ffmpegVideoArgs this request +:+ ffmpegVideoStream sessionInfo
      +:+ loglevel this
  ∧ ∃ s', startStream env this request s = (Returned tt, s')
      ∧ trace s' =
          (trace s ++
             [ EvLog (startStreamLogLine this request);
               EvSpawn (nextId s) (st_sessionID request) (fcmd this request sessionInfo)
                 (Some (addressVersion sessionInfo, videoReturnPort sessionInfo))
                 true ])%list
      ∧ ongoingSessions s' !! st_sessionID request =
          Some {| ffmpeg := [nextId s]; og_rtpSplitter := rtpSplitter sessionInfo |}
      ∧ pendingSessions s' !! st_sessionID request = None.
Proof.
  intros Hsome Hlib Hlaunch. split.
  - unfold fcmd, fcmdVideo, fcmdAudio. rewrite Hlib.
    cbn [String.append]. by rewrite !string_app_assoc.
  - exists (afterOutbound this request sessionInfo s).
    rewrite (startStream_with_pending env this request s sessionInfo Hsome).
    rewrite Hlaunch, Hlib. cbn [negb orb].
    split; [reflexivity |].
    destruct (afterOutbound_registries this request sessionInfo s) as [-> ->].
    split; [| split].
    + unfold afterOutbound. state_fields. rewrite Hlib. cbn [andb].
      by rewrite <- app_assoc.
    + apply lookup_insert_eq.
    + apply lookup_delete_eq.
Qed.

Lemma startStream_video_only_witness :
  pendingSessions Sample.negotiated_noaac !! "s1" = Some Sample.session_noaac
  ∧ fcmd Sample.doorbell Sample.start Sample.session_noaac =
      "-hide_banner -rtsp_transport tcp -i rtsp://10.0.0.1:7447/abc -map 0:v -vcodec copy -f rawvideo -pix_fmt yuvj420p -r 30  -b:v 299k -bufsize 598k -maxrate 299k -payload_type 99 -ssrc 1001 -f rtp -srtp_out_suite AES_CM_128_HMAC_SHA1_80 -srtp_out_params AQIDBAU= srtp://10.0.0.2:51000?rtcpport=51000&localrtcpport=51000&pkt_size=564"
  ∧ ∃ s', startStream Sample.env_noaac Sample.doorbell Sample.start
            Sample.negotiated_noaac = (Returned tt, s')
      ∧ ongoingSessions s' !! "s1" = Some {| ffmpeg := [0%nat]; og_rtpSplitter := None |}.
Proof.
  assert (Hsome : pendingSessions Sample.negotiated_noaac !! "s1"
                  = Some Sample.session_noaac) by (vm_compute; reflexivity).
  destruct (startStream_video_only Sample.env_noaac Sample.doorbell Sample.start
              Sample.negotiated_noaac Sample.session_noaac Hsome eq_refl eq_refl)
    as (Hcmd & s' & Hrun & _ & Hongoing & _).
  split; [exact Hsome |]. split.
  - vm_compute. reflexivity.
  - exists s'. split; [exact Hrun | exact Hongoing].
Defined.

(** *** The two registries along a run *)

(** Whatever way [startStream] ends, it either leaves both registries alone
    or has moved its session id from pending to ongoing. *)
Lemma startStream_registries (env : Env) (this : Delegate)
    (request : StartStreamRequest) (s : State) :
  (pendingSessions (startStream env this request s).2 = pendingSessions s
   ∧ ongoingSessions (startStream env this request s).2 = ongoingSessions s)
  ∨ (pendingSessions (startStream env this request s).2 =
       delete (st_sessionID request) (pendingSessions s)
     ∧ ∃ o, ongoingSessions (startStream env this request s).2 =
              <[st_sessionID request := o]> (ongoingSessions s)).
Proof.
  destruct (pendingSessions s !! st_sessionID request) as [sessionInfo|] eqn:Hp.
  - rewrite (startStream_with_pending env this request s sessionInfo Hp).
    destruct (afterOutbound_registries this request sessionInfo s) as [Ho1 Ho2].
    destruct (afterTalkback_registries env this request sessionInfo s) as [Ht1 Ht2].
    repeat match goal with
           | |- context [if ?b then _ else _] => destruct b
           end; cbn [fst snd];
      first [ left; split; reflexivity
            | right; split; [assumption | eexists; eassumption] ].
  - rewrite (startStream_undefined_session env this request s Hp).
    left. split; reflexivity.
Qed.

(** [stopStream] either leaves both registries alone or deletes its session
    id from both. *)
Lemma stopStream_registries (env : Env) (this : Delegate) (sessionId : string)
    (s : State) :
  (pendingSessions (stopStream env this sessionId s).2 = pendingSessions s
   ∧ ongoingSessions (stopStream env this sessionId s).2 = ongoingSessions s)
  ∨ (pendingSessions (stopStream env this sessionId s).2 =
       delete sessionId (pendingSessions s)
     ∧ ongoingSessions (stopStream env this sessionId s).2 =
         delete sessionId (ongoingSessions s)).
Proof.
  rewrite stopStream_teardown. cbn [snd].
  destruct ((teardown env (ongoingSessions s !! sessionId)).2);
    [left | right]; split; reflexivity.
Qed.

Lemma disjoint_after_delete (s s' : State) (id : string) :
  registriesDisjoint s →
  pendingSessions s' = delete id (pendingSessions s) →
  (ongoingSessions s' = delete id (ongoingSessions s)
   ∨ ∃ o, ongoingSessions s' = <[id := o]> (ongoingSessions s)) →
  registriesDisjoint s'.
Proof.
  intros Hdis Hp Ho k. rewrite Hp.
  destruct (decide (k = id)) as [-> | Hne]; [left; apply lookup_delete_eq |].
  rewrite lookup_delete_ne by done.
  destruct Ho as [-> | [o ->]].
  - rewrite lookup_delete_ne by done. apply Hdis.
  - rewrite lookup_insert_ne by done. apply Hdis.
Qed.

Lemma disjoint_unchanged (s s' : State) :
  registriesDisjoint s →
  pendingSessions s' = pendingSessions s →
  ongoingSessions s' = ongoingSessions s →
  registriesDisjoint s'.
Proof. intros Hdis Hp Ho k. rewrite Hp, Ho. apply Hdis. Qed.

Lemma stopStream_disjoint (env : Env) (this : Delegate) (sessionId : string)
    (s : State) :
  registriesDisjoint s → registriesDisjoint (stopStream env this sessionId s).2.
Proof.
  intros Hdis.
  destruct (stopStream_registries env this sessionId s) as [[Hp Ho] | [Hp Ho]].
  - by apply (disjoint_unchanged s).
  - apply (disjoint_after_delete s _ sessionId); [done | done | by left].
Qed.

Lemma shutdown_disjoint (env : Env) (this : Delegate) (ids : list string) (s : State) :
  registriesDisjoint s →
  registriesDisjoint (for_of ids (stopStream env this) s).2.
Proof.
  revert s. induction ids as [|k rest IH]; intros s Hdis; [exact Hdis |].
  cbn [for_of]. mrun.
  pose proof (stopStream_disjoint env this k s Hdis) as Hstep.
  pose proof (stopStream_teardown env this k s) as Hret.
  destruct (stopStream env this k s) as [out s1].
  injection Hret as -> _. cbn [snd] in Hstep. by apply IH.
Qed.

(** C3 as stated fails: nothing in [prepareStream] looks at
    [ongoingSessions], so a second negotiation for a session id that is
    streaming puts the id in [pendingSessions] while it is in
    [ongoingSessions]. *)
Lemma renegotiated_id_in_both_registries :
  (startStream Sample.env Sample.doorbell Sample.start Sample.negotiated).1 = Returned tt
  ∧ is_Some (pendingSessions Sample.renegotiated !! "s1")
  ∧ is_Some (ongoingSessions Sample.renegotiated !! "s1")
  ∧ ¬ registriesDisjoint Sample.renegotiated.
Proof.
  assert (Hp : is_Some (pendingSessions Sample.renegotiated !! "s1"))
    by (vm_compute; eexists; reflexivity).
  assert (Ho : is_Some (ongoingSessions Sample.renegotiated !! "s1"))
    by (vm_compute; eexists; reflexivity).
  split; [vm_compute; reflexivity |]. split; [exact Hp |]. split; [exact Ho |].
  intros Hdis. destruct (Hdis "s1") as [Hnone | Hnone].
  - rewrite Hnone in Hp. destruct Hp as [x Hx]. discriminate Hx.
  - rewrite Hnone in Ho. destruct Ho as [x Hx]. discriminate Hx.
Qed.

(** *** The talkback session description *)

(** The key and salt of the audio leg reach the [a=crypto] line as
    negotiated: the last line of the message is the base64 text of
    [audioSRTP], which [prepareStream] stored as key followed by salt. *)
Lemma sdp_crypto_line (this : Delegate) (sessionInfo : SessionInfo) :
  last (sdpReturnAudioLines this sessionInfo) =
    Some ("a=crypto:1 AES_CM_128_HMAC_SHA1_80 inline:"
            +:+ Js.base64 (audioSRTP sessionInfo)).
Proof. reflexivity. Qed.

(** Over IPv4 the originator line is the one of the format. *)
Lemma sdp_originator_ipv4 (this : Delegate) (sessionInfo : SessionInfo) :
  addressVersion sessionInfo = "ipv4" →
  sdpReturnAudioLines this sessionInfo !! 1%nat = Some "o=- 0 0 IN IP4 127.0.0.1".
Proof. intros Hv. unfold sdpReturnAudioLines, sdpIpVersion. by rewrite Hv. Qed.

(** C6 at a two-way audio session negotiated over IPv6: the message written
    to the talkback process has two spaces after [IP6] in its [o=] and [c=]
    lines, because [sdpIpVersion] is ["IP6 "] with a trailing space, so it is
    not the message of the format; its [a=crypto] line is the negotiated
    one. *)
Theorem sdp_ipv6_originator_doubled_space :
  EvStdinWrite 2%nat Sample.sdp_v6_written ∈ trace Sample.streaming_v6
  ∧ Sample.sdp_v6_written ≠ Sample.sdp_v6_expected
  ∧ sdpReturnAudioLines Sample.doorbell
      {| address := "10.0.0.2"; addressVersion := "ipv6";
         videoPort := 51000; videoReturnPort := 50030;
         videoCryptoSuite := AES_CM_128_HMAC_SHA1_80;
         videoSRTP := [1; 2; 3; 4; 5]%N; videoSSRC := 1001;
         hasLibFdk := true;
         audioPort := 51002; audioReturnPort := 50000; audioTwoWayPort := 50020;
         rtpSplitter := Some 0%nat;
         audioCryptoSuite := AES_CM_128_HMAC_SHA1_80;
         audioSRTP := [1; 2; 3; 4; 5]%N; audioSSRC := 1000 |} !! 1%nat
    = Some "o=- 0 0 IN IP6  127.0.0.1".
Proof.
  split; [| split].
  - apply (list_elem_of_lookup_2 _ 11%nat). vm_compute. reflexivity.
  - vm_compute. discriminate.
  - vm_compute. reflexivity.
Qed.

(** *** The response of a negotiation *)

Lemma find_no_match {A} (f : A → bool) (l : list A) :
  (∀ x, x ∈ l → f x = false) → List.find f l = None.
Proof.
  induction l as [|x rest IH]; intros Hall; [reflexivity |].
  cbn [List.find]. rewrite (Hall x) by constructor.
  apply IH. intros y Hy. apply Hall. by constructor.
Qed.

(** Without an address of the wanted family, [getDefaultIpAddress] falls
    back on the first non-internal address, and on [null] without one. *)
Lemma getDefaultIpAddress_fallback (env : Env) (version : string) :
  (∀ l info, externalInfo env = Some l → info ∈ l →
     family info ≠ (if String.eqb version "ipv6" then "IPv6" else "IPv4")) →
  getDefaultIpAddress env version = ni_address <$> (externalInfo env ≫= head).
Proof.
  intros Hnone. unfold getDefaultIpAddress, externalInfo in *.
  destruct (networkInterfaces env !! networkInterfaceDefault env) as [l|];
    [| reflexivity].
  cbn [fmap option_fmap option_map mbind option_bind].
  rewrite find_no_match.
  - by destruct (head _).
  - intros info Hin. apply String.eqb_neq. by apply (Hnone _ info eq_refl).
Qed.

(** Takes [Hrun : prepareStream ... = (Returned response, s')] through
    every path of [prepareStream] that can return. *)
Ltac prepare_cases Hrun :=
  revert Hrun; run_prepare; intros Hrun; try discriminate Hrun;
  injection Hrun as <- <-.

(** [prepareStream] returns when its port reservations resolve. *)
Lemma prepareStream_returns (env : Env) (this : Delegate)
    (request : PrepareStreamRequest) (s : State) :
  (∀ n count, is_Some (reservePorts env n count)) →
  ∃ response s', prepareStream env this request s = (Returned response, s').
Proof.
  intros Hports.
  destruct (prepareStream env this request s) as [[response | e] s'] eqn:Hrun;
    [by eexists _, _ |].
  exfalso. revert Hrun. run_prepare; intros Hrun; try discriminate Hrun;
    match goal with
    | H : reservePorts ?e ?n ?c = None |- _ =>
        destruct (Hports n c) as [p Hp]; rewrite Hp in H; discriminate H
    end.
Qed.

(** C7, as the code has it.  When the default interface has no non-internal
    address of the family asked for, negotiation does not fail on that
    account: with the port reservations resolved, [prepareStream] returns
    its response, whose address is the first non-internal address of the
    default interface whatever its family, or [null] when there is none,
    and the pending entry of the session is stored. *)
Theorem prepareStream_address_fallback (env : Env) (this : Delegate)
    (request : PrepareStreamRequest) (s : State) :
  (∀ l info, externalInfo env = Some l → info ∈ l →
     family info ≠ (if String.eqb (rq_addressVersion request) "ipv6"
                    then "IPv6" else "IPv4")) →
  (∀ n count, is_Some (reservePorts env n count)) →
  ∃ response s' sessionInfo,
    prepareStream env this request s = (Returned response, s')
    ∧ rs_address response = ni_address <$> (externalInfo env ≫= head)
    ∧ pendingSessions s' = <[sessionID request := sessionInfo]> (pendingSessions s)
    ∧ address sessionInfo = targetAddress request.
Proof.
  intros Hnone Hports.
  destruct (prepareStream_returns env this request s Hports)
    as (response & s' & Hrun).
  pose proof (getDefaultIpAddress_fallback env (rq_addressVersion request) Hnone)
    as Haddr.
  exists response, s'. rewrite Hrun.
  prepare_cases Hrun; state_fields; cbn [rs_address];
    eexists; (split; [reflexivity |]); (split; [exact Haddr |]);
    split; reflexivity.
Qed.

Lemma prepareStream_address_fallback_witness :
  ∃ response s' sessionInfo,
    prepareStream Sample.env Sample.doorbell (Sample.prepare "ipv4") initial
      = (Returned response, s')
    ∧ rs_address response = Some "fe80::1"
    ∧ pendingSessions s' = {[ "s1" := sessionInfo ]}.
Proof.
  destruct (prepareStream_address_fallback Sample.env Sample.doorbell
              (Sample.prepare "ipv4") initial)
    as (response & s' & sessionInfo & Hrun & Haddr & Hpending & _).
  - intros l info [= <-] Hin. apply list_elem_of_singleton in Hin as ->.
    discriminate.
  - intros n count. by eexists.
  - exists response, s', sessionInfo.
    split; [exact Hrun |]. split; [exact Haddr | exact Hpending].
Defined.

(** C7 as stated fails: on a host whose interface table has no entry for
    the default interface, the negotiation returns its response (with a
    [null] address) and stores the pending entry. *)
Lemma prepareStream_succeeds_without_address :
  (∃ response,
     (prepareStream Sample.env_offline Sample.doorbell (Sample.prepare "ipv4") initial).1
       = Returned response
     ∧ rs_address response = None)
  ∧ is_Some (pendingSessions
               (prepareStream Sample.env_offline Sample.doorbell
                  (Sample.prepare "ipv4") initial).2 !! "s1").
Proof.
  split.
  - eexists. split; vm_compute; reflexivity.
  - vm_compute. eexists. reflexivity.
Qed.

(** *** Ports and synchronisation sources *)

Lemma reservations_app (a b : list Event) :
  reservations (a ++ b) = (reservations a ++ reservations b)%list.
Proof. apply omap_app. Qed.

Lemma reservations_one (e : Event) :
  reservations [e] =
    match e with
    | EvReservePorts count first => [(count, first)]
    | _ => []
    end.
Proof. by destruct e. Qed.

(** C9, as the code has it.  A negotiation that returns has made one
    reservation call for the audio return port and one for the video return
    port, whatever the camera can do; only when FFmpeg has AAC and the
    camera has two-way audio it has made two more, for the audio server port
    and (asking for two ports) for the talkback port.  The ports the client
    is sent to are the reserved ones; the ports FFmpeg sends to
    ([videoPort], [audioPort]) are the client's own and are not reserved. *)
Theorem prepareStream_reservations (env : Env) (this : Delegate)
    (request : PrepareStreamRequest) (s : State)
    (response : PrepareStreamResponse) (s' : State) :
  prepareStream env this request s = (Returned response, s') →
  ∃ sessionInfo,
    pendingSessions s' !! sessionID request = Some sessionInfo
    ∧ videoPort sessionInfo = port (video request)
    ∧ audioPort sessionInfo = port (audio request)
    ∧ rs_port (rs_video response) = videoReturnPort sessionInfo
    ∧ if codecEnabled env (videoProcessor this) "libfdk_aac" && twoWayAudio this
      then reservations (trace s') =
             (reservations (trace s) ++
                [ (None, audioReturnPort sessionInfo);
                  (None, rs_port (rs_audio response));
                  (Some 2%nat, audioTwoWayPort sessionInfo);
                  (None, videoReturnPort sessionInfo) ])%list
      else reservations (trace s') =
             (reservations (trace s) ++
                [ (None, audioReturnPort sessionInfo);
                  (None, videoReturnPort sessionInfo) ])%list
           ∧ rs_port (rs_audio response) = audioReturnPort sessionInfo
           ∧ audioTwoWayPort sessionInfo = -1
           ∧ rtpSplitter sessionInfo = None.
Proof.
  intros Hrun. prepare_cases Hrun; state_fields; rewrite lookup_insert_eq;
    eexists; (split; [reflexivity |]);
    cbn [videoPort audioPort videoReturnPort audioReturnPort audioTwoWayPort
         rtpSplitter rs_port rs_video rs_audio andb];
    repeat split;
    rewrite !reservations_app, !reservations_one, <- !app_assoc; reflexivity.
Qed.

Lemma prepareStream_reservations_witness :
  ∃ sessionInfo,
    pendingSessions Sample.negotiated_noaac !! "s1" = Some sessionInfo
    ∧ reservations (trace Sample.negotiated_noaac) =
        [ (None, audioReturnPort sessionInfo); (None, videoReturnPort sessionInfo) ].
Proof.
  assert (Hrun : ∃ response,
            prepareStream Sample.env_noaac Sample.doorbell (Sample.prepare "ipv4") initial
            = (Returned response, Sample.negotiated_noaac)).
  { eexists. vm_compute. reflexivity. }
  destruct Hrun as [response Hrun].
  destruct (prepareStream_reservations _ _ _ _ _ _ Hrun)
    as (sessionInfo & Hsome & _ & _ & _ & Hres).
  cbn [Sample.env_noaac codecEnabled andb] in Hres.
  destruct Hres as (Hres & _).
  exists sessionInfo. split; [exact Hsome | exact Hres].
Defined.

(** C9 as stated fails: a camera without two-way audio still gets an audio
    port reserved (the audio return port, the first reservation made), and
    only one port is reserved for video. *)
Lemma prepareStream_reserves_audio_without_two_way :
  twoWayAudio Sample.camera = false
  ∧ reservations
      (trace (prepareStream Sample.env Sample.camera (Sample.prepare "ipv4") initial).2)
    = [(None, 50000); (None, 50010)]
  ∧ (audioReturnPort <$>
       pendingSessions
         (prepareStream Sample.env Sample.camera (Sample.prepare "ipv4") initial).2
         !! "s1") = Some 50000
  ∧ (videoReturnPort <$>
       pendingSessions
         (prepareStream Sample.env Sample.camera (Sample.prepare "ipv4") initial).2
         !! "s1") = Some 50010.
Proof. repeat split; vm_compute; reflexivity. Qed.

(** C10 as stated fails: nothing compares the two draws, so when the
    generator draws the same number twice the response carries the same SSRC
    for video and for audio. *)
Lemma prepareStream_equal_ssrcs :
  ∃ response,
    (prepareStream Sample.env_same_ssrc Sample.doorbell (Sample.prepare "ipv4") initial).1
      = Returned response
    ∧ ssrc (rs_video response) = ssrc (rs_audio response).
Proof. eexists. split; vm_compute; reflexivity. Qed.

(** ** Further properties of the delegate *)

(** *** The outbound address *)

(** [getDefaultIpAddress] answers [null] exactly when the default interface
    is not in the interface table or all its addresses are internal; any
    address it answers is a non-internal address of the default interface. *)
Theorem getDefaultIpAddress_external (env : Env) (version : string) :
  (getDefaultIpAddress env version = None ↔
     ∀ l info, networkInterfaces env !! networkInterfaceDefault env = Some l →
               info ∈ l → internal info = true)
  ∧ ∀ a, getDefaultIpAddress env version = Some a →
         ∃ l info, networkInterfaces env !! networkInterfaceDefault env = Some l
                   ∧ info ∈ l ∧ internal info = false ∧ ni_address info = a.
Proof.
  unfold getDefaultIpAddress.
  destruct (networkInterfaces env !! networkInterfaceDefault env) as [l|];
    cbn [fmap option_fmap option_map].
  - set (ext := List.filter (λ info, negb (internal info)) l).
    set (fam := if String.eqb version "ipv6" then "IPv6" else "IPv4").
    assert (Hext : ∀ info, In info ext ↔ In info l ∧ internal info = false).
    { intros info. subst ext. rewrite filter_In.
      by destruct (internal info); cbn; intuition. }
    split.
    + split.
      * intros Hnone l' info [= <-] Hin.
        destruct (internal info) eqn:Hint; [reflexivity | exfalso].
        apply list_elem_of_In in Hin.
        assert (Hin' : In info ext) by (by apply Hext).
        destruct (List.find _ ext) as [found|] eqn:Hfind; [discriminate |].
        destruct ext as [|x rest]; [destruct Hin' | discriminate].
      * intros Hall.
        destruct ext as [|x rest]; [reflexivity | exfalso].
        assert (Hin : In x (x :: rest)) by (by left).
        apply Hext in Hin as [Hin Hint].
        apply list_elem_of_In in Hin.
        rewrite (Hall l x eq_refl Hin) in Hint. discriminate.
    + intros a Ha.
      assert (Hinfo : ∃ info, In info ext ∧ ni_address info = a).
      { destruct (List.find _ ext) as [found|] eqn:Hfind.
        - apply find_some in Hfind as [Hin _]. exists found.
          split; [exact Hin | congruence].
        - destruct ext as [|x rest]; [discriminate |].
          exists x. split; [by left | cbn in Ha; congruence]. }
      destruct Hinfo as (info & Hin & Haddr).
      apply Hext in Hin as [Hin Hint]. exists l, info.
      split; [reflexivity |]. split; [by apply list_elem_of_In |]. by split.
  - split.
    + split; [intros _ l info Hl; discriminate Hl | reflexivity].
    + intros a Ha. discriminate Ha.
Qed.

(** When the default interface has a non-internal address of the family
    asked for, [getDefaultIpAddress] answers a non-internal address of that
    family: the fallback on another family is never taken. *)
Theorem getDefaultIpAddress_prefers_family (env : Env) (version : string)
    (l : list NetworkInterfaceInfo) (info : NetworkInterfaceInfo) :
  networkInterfaces env !! networkInterfaceDefault env = Some l →
  info ∈ l →
  internal info = false →
  family info = (if String.eqb version "ipv6" then "IPv6" else "IPv4") →
  ∃ chosen, chosen ∈ l
    ∧ internal chosen = false
    ∧ family chosen = (if String.eqb version "ipv6" then "IPv6" else "IPv4")
    ∧ getDefaultIpAddress env version = Some (ni_address chosen).
Proof.
  intros Hl Hin Hint Hfam. unfold getDefaultIpAddress. rewrite Hl.
  cbn [fmap option_fmap option_map].
  set (fam := if String.eqb version "ipv6" then "IPv6" else "IPv4") in *.
  destruct (List.find (λ i, String.eqb (family i) fam)
              (List.filter (λ i, negb (internal i)) l)) as [chosen|] eqn:Hfind.
  - apply find_some in Hfind as [Hchosen Heq].
    apply filter_In in Hchosen as [Hchosen Hext].
    exists chosen. split; [by apply list_elem_of_In |].
    split; [by destruct (internal chosen) |].
    split; [by apply String.eqb_eq | reflexivity].
  - exfalso.
    assert (Hinfo : In info (List.filter (λ i, negb (internal i)) l)).
    { apply filter_In. split; [by apply list_elem_of_In | by rewrite Hint]. }
    pose proof (find_none _ _ Hfind info Hinfo) as Hno. cbn in Hno.
    apply String.eqb_neq in Hno. contradiction.
Qed.

Lemma getDefaultIpAddress_prefers_family_witness :
  getDefaultIpAddress Sample.env "ipv6" = Some "fe80::1".
Proof.
  destruct (getDefaultIpAddress_prefers_family Sample.env "ipv6"
              [Sample.eth0_v6] Sample.eth0_v6)
    as (chosen & Hin & _ & _ & Hget);
    [reflexivity | constructor | reflexivity | reflexivity |].
  apply list_elem_of_singleton in Hin as ->. exact Hget.
Defined.

(** *** What a negotiation stores *)

Ltac trace_view :=
  unfold reservations, spawned, stopped, splittersMade, splittersClosed;
  rewrite ?omap_app; cbn [omap list_omap]; rewrite <- ?app_assoc;
  rewrite ?app_nil_r; cbn [app].

(** The pending entry and the response of a negotiation that returns. *)
Lemma prepareStream_entry (env : Env) (this : Delegate)
    (request : PrepareStreamRequest) (s : State)
    (response : PrepareStreamResponse) (s' : State) :
  prepareStream env this request s = (Returned response, s') →
  ∃ info,
    pendingSessions s' = <[sessionID request := info]> (pendingSessions s)
    ∧ ongoingSessions s' = ongoingSessions s
    ∧ address info = targetAddress request
    ∧ addressVersion info = rq_addressVersion request
    ∧ videoPort info = port (video request)
    ∧ audioPort info = port (audio request)
    ∧ videoSRTP info = (srtp_key (video request) ++ srtp_salt (video request))%list
    ∧ audioSRTP info = (srtp_key (audio request) ++ srtp_salt (audio request))%list
    ∧ hasLibFdk info = codecEnabled env (videoProcessor this) "libfdk_aac"
    ∧ videoSSRC info = ssrc (rs_video response)
    ∧ audioSSRC info = ssrc (rs_audio response)
    ∧ videoReturnPort info = rs_port (rs_video response)
    ∧ rs_srtp_key (rs_video response) = srtp_key (video request)
    ∧ rs_srtp_salt (rs_video response) = srtp_salt (video request)
    ∧ rs_srtp_key (rs_audio response) = srtp_key (audio request)
    ∧ rs_srtp_salt (rs_audio response) = srtp_salt (audio request)
    ∧ rtpSplitter info =
        (if codecEnabled env (videoProcessor this) "libfdk_aac" && twoWayAudio this
         then Some (nextId s) else None)
    ∧ nextId s' =
        (if codecEnabled env (videoProcessor this) "libfdk_aac" && twoWayAudio this
         then S (nextId s) else nextId s).
Proof.
  intros Hrun. prepare_cases Hrun; state_fields; eexists;
    (split; [reflexivity |]);
    cbn [address addressVersion videoPort audioPort videoSRTP audioSRTP hasLibFdk
         videoSSRC audioSSRC videoReturnPort rtpSplitter ssrc rs_port
         rs_srtp_key rs_srtp_salt rs_video rs_audio andb
         Js.Buffer_concat mjoin list_join];
    rewrite ?app_nil_r; repeat split.
Qed.



(** In a two-way audio negotiation the splitter is constructed before the
    video return port is reserved: when that last reservation rejects, the
    negotiation fails with a splitter constructed, never closed and held by no
    registry entry. *)
Theorem prepareStream_rejected_after_splitter (env : Env) (this : Delegate)
    (request : PrepareStreamRequest) (s : State) (p0 p1 p2 : Z) :
  codecEnabled env (videoProcessor this) "libfdk_aac" = true →
  twoWayAudio this = true →
  reservePorts env (portCalls s) None = Some p0 →
  reservePorts env (S (portCalls s)) None = Some p1 →
  reservePorts env (S (S (portCalls s))) (Some 2%nat) = Some p2 →
  reservePorts env (S (S (S (portCalls s)))) None = None →
  ∃ s', prepareStream env this request s = (Thrown ReservePortsRejected, s')
    ∧ pendingSessions s' = pendingSessions s
    ∧ ongoingSessions s' = ongoingSessions s
    ∧ splittersMade (trace s') = (splittersMade (trace s) ++ [nextId s])%list
    ∧ splittersClosed (trace s') = splittersClosed (trace s)
    ∧ trace s' =
        (trace s ++
           [ EvCodecProbe (videoProcessor this) "libfdk_aac";
             EvReservePorts None p0; EvReservePorts None p1;
             EvReservePorts (Some 2%nat) p2;
             EvSsrc (generateSynchronisationSource env (ssrcCalls s));
             EvSplitterNew (nextId s) (rq_addressVersion request) p1 p0 p2;
             EvReserveRejected None ])%list.
Proof.
  intros HA HT H0 H1 H2 H3.
  destruct (prepareStream env this request s) as [out s'] eqn:Hrun.
  revert Hrun. unfold prepareStream. mrun. rewrite HA, HT. cbn [andb negb]. mrun.
  rewrite reserveFirstPort_run. state_fields. rewrite H0. mrun.
  rewrite reserveFirstPort_run. state_fields. rewrite H1. mrun.
  rewrite reserveFirstPort_run. state_fields. rewrite H2. mrun.
  rewrite newSynchronisationSource_run. mrun.
  rewrite newRtpSplitter_run. mrun.
  rewrite reserveFirstPort_run. state_fields. rewrite H3. mrun.
  intros [= <- <-]. eexists. split; [reflexivity |]. state_fields.
  rewrite <- !app_assoc. cbn [app].
  repeat split; trace_view; reflexivity.
Qed.

Lemma prepareStream_rejected_after_splitter_witness :
  ∃ s', prepareStream Sample2.env_threeports Sample.doorbell (Sample.prepare "ipv4")
          initial = (Thrown ReservePortsRejected, s')
    ∧ pendingSessions s' = ∅
    ∧ splittersMade (trace s') = [0%nat]
    ∧ splittersClosed (trace s') = [].
Proof.
  destruct (prepareStream_rejected_after_splitter Sample2.env_threeports
              Sample.doorbell (Sample.prepare "ipv4") initial 50000 50010 50020)
    as (s' & Hrun & Hp & _ & Hmade & Hclosed & _); try reflexivity.
  exists s'. repeat split; assumption.
Defined.

(** Whatever its outcome, a negotiation launches no process, stops none and
    closes no splitter. *)
Lemma prepareStream_quiet (env : Env) (this : Delegate)
    (request : PrepareStreamRequest) (s : State) :
  spawned (trace (prepareStream env this request s).2) = spawned (trace s)
  ∧ stopped (trace (prepareStream env this request s).2) = stopped (trace s)
  ∧ splittersClosed (trace (prepareStream env this request s).2)
    = splittersClosed (trace s).
Proof.
  run_prepare; cbn [snd]; state_fields; repeat split; trace_view; reflexivity.
Qed.

(** Negotiating a session id again replaces its pending entry by the one of
    the later negotiation and touches no other id; the splitter of the
    earlier negotiation is not closed. *)
Theorem prepareStream_replaces_stale (env : Env) (this : Delegate)
    (first second : PrepareStreamRequest) (s s1 s2 : State)
    (r1 r2 : PrepareStreamResponse) :
  prepareStream env this first s = (Returned r1, s1) →
  prepareStream env this second s1 = (Returned r2, s2) →
  sessionID second = sessionID first →
  ∃ info,
    pendingSessions s2 = <[sessionID first := info]> (pendingSessions s)
    ∧ address info = targetAddress second
    ∧ videoPort info = port (video second)
    ∧ videoSSRC info = ssrc (rs_video r2)
    ∧ audioSSRC info = ssrc (rs_audio r2)
    ∧ splittersClosed (trace s2) = splittersClosed (trace s).
Proof.
  intros H1 H2 Hid.
  destruct (prepareStream_entry _ _ _ _ _ _ H1) as (i1 & Hp1 & _).
  destruct (prepareStream_entry _ _ _ _ _ _ H2)
    as (i2 & Hp2 & _ & Haddr & _ & Hport & _ & _ & _ & _ & Hv & Ha & _).
  exists i2. rewrite Hp2, Hp1, Hid, insert_insert_eq.
  repeat split; try assumption.
  pose proof (prepareStream_quiet env this second s1) as (_ & _ & Hc2).
  pose proof (prepareStream_quiet env this first s) as (_ & _ & Hc1).
  rewrite H2 in Hc2. rewrite H1 in Hc1. cbn [snd] in Hc1, Hc2. congruence.
Qed.

Lemma prepareStream_replaces_stale_witness :
  (address <$>
     pendingSessions
       (prepareStream Sample.env Sample.doorbell Sample2.prepare_again
          Sample.negotiated).2 !! "s1") = Some "10.0.0.3".
Proof.
  assert (H1 : ∃ r1, prepareStream Sample.env Sample.doorbell (Sample.prepare "ipv4")
                       initial = (Returned r1, Sample.negotiated)).
  { eexists. vm_compute. reflexivity. }
  destruct H1 as [r1 H1].
  destruct (prepareStream Sample.env Sample.doorbell Sample2.prepare_again
              Sample.negotiated) as [[r2 | e] s2] eqn:H2;
    [| vm_compute in H2; discriminate H2].
  destruct (prepareStream_replaces_stale _ _ _ _ _ _ _ _ _ H1 H2 eq_refl)
    as (info & Hp & Haddr & _).
  cbn [snd]. rewrite Hp.
  change (sessionID (Sample.prepare "ipv4")) with "s1".
  rewrite lookup_insert_eq. cbn [fmap option_fmap option_map]. by rewrite Haddr.
Defined.

(** The SRTP material goes through a negotiation untouched: the response
    echoes, field by field, the key and the salt of each leg of the
    request, and the pending entry holds, for each leg, the key followed by
    the salt, so that splitting the stored buffer at the key's length gives
    both back. *)
Theorem prepareStream_srtp_roundtrip (env : Env) (this : Delegate)
    (request : PrepareStreamRequest) (s : State)
    (response : PrepareStreamResponse) (s' : State) :
  prepareStream env this request s = (Returned response, s') →
  rs_srtp_key (rs_video response) = srtp_key (video request)
  ∧ rs_srtp_salt (rs_video response) = srtp_salt (video request)
  ∧ rs_srtp_key (rs_audio response) = srtp_key (audio request)
  ∧ rs_srtp_salt (rs_audio response) = srtp_salt (audio request)
  ∧ ∃ info,
      pendingSessions s' !! sessionID request = Some info
      ∧ videoSRTP info
        = (srtp_key (video request) ++ srtp_salt (video request))%list
      ∧ audioSRTP info
        = (srtp_key (audio request) ++ srtp_salt (audio request))%list
      ∧ take (length (srtp_key (video request))) (videoSRTP info)
        = rs_srtp_key (rs_video response)
      ∧ drop (length (srtp_key (video request))) (videoSRTP info)
        = rs_srtp_salt (rs_video response)
      ∧ take (length (srtp_key (audio request))) (audioSRTP info)
        = rs_srtp_key (rs_audio response)
      ∧ drop (length (srtp_key (audio request))) (audioSRTP info)
        = rs_srtp_salt (rs_audio response).
Proof.
  intros Hrun.
  destruct (prepareStream_entry _ _ _ _ _ _ Hrun)
    as (info & Hp & _ & _ & _ & _ & _ & Hv & Ha & _ & _ & _ & _
        & Hvk & Hvs & Hak & Has & _).
  do 4 (split; [done |]).
  exists info. rewrite Hp, lookup_insert_eq, Hv, Ha, Hvk, Hvs, Hak, Has.
  split; [reflexivity |].
  rewrite !take_app_length, !drop_app_length. repeat split.
Qed.

Lemma prepareStream_srtp_roundtrip_witness :
  ∃ response,
    prepareStream Sample.env Sample.doorbell (Sample.prepare "ipv4") initial
      = (Returned response, Sample.negotiated)
    ∧ rs_srtp_key (rs_video response) = [1; 2; 3]%N
    ∧ rs_srtp_salt (rs_video response) = [4; 5]%N
    ∧ rs_srtp_key (rs_audio response) = [1; 2; 3]%N
    ∧ rs_srtp_salt (rs_audio response) = [4; 5]%N
    ∧ (audioSRTP <$> pendingSessions Sample.negotiated !! "s1") = Some [1; 2; 3; 4; 5]%N.
Proof.
  assert (H1 : ∃ r1, prepareStream Sample.env Sample.doorbell (Sample.prepare "ipv4")
                       initial = (Returned r1, Sample.negotiated)).
  { eexists. vm_compute. reflexivity. }
  destruct H1 as [r1 H1]. exists r1. split; [exact H1 |].
  destruct (prepareStream_srtp_roundtrip _ _ _ _ _ _ H1)
    as (Hvk & Hvs & Hak & Has & info & Hp & _ & Ha & _).
  do 4 (split; [assumption |]).
  change (sessionID (Sample.prepare "ipv4")) with "s1" in Hp. rewrite Hp.
  cbn [fmap option_fmap option_map]. by rewrite Ha.
Defined.

(** *** Starting, path by path *)

(** A two-way audio start launches two processes, the outbound one first
    (without a return port, with the HAP callback) and the talkback one
    second (without callback), registers both in that order with the
    splitter of the negotiation, and then writes the session description to
    the talkback process and ends its input, if it has one. *)
Theorem startStream_two_way (env : Env) (this : Delegate)
    (request : StartStreamRequest) (s : State) (sessionInfo : SessionInfo) :
  pendingSessions s !! st_sessionID request = Some sessionInfo →
  hasLibFdk sessionInfo = true →
  twoWayAudio this = true →
  ffmpegLaunchThrows env (nextId s) (fcmd this request sessionInfo) = false →
  ffmpegLaunchThrows env (S (nextId s)) (ffmpegReturnAudioCmd this) = false →
  ∃ s', startStream env this request s = (Returned tt, s')
    ∧ trace s' =
        (trace s ++
           [ EvLog (startStreamLogLine this request);
             EvSpawn (nextId s) (st_sessionID request)
               (fcmd this request sessionInfo) None true;
             EvSpawn (S (nextId s)) (st_sessionID request)
               (ffmpegReturnAudioCmd this) None false ] ++
           (if ffmpegHasStdin env (S (nextId s))
            then [ EvStdinWrite (S (nextId s)) (sdpReturnAudio this sessionInfo);
                   EvStdinEnd (S (nextId s)) ]
            else []))%list
    ∧ ongoingSessions s' !! st_sessionID request =
        Some {| ffmpeg := [nextId s; S (nextId s)];
                og_rtpSplitter := rtpSplitter sessionInfo |}
    ∧ pendingSessions s' !! st_sessionID request = None
    ∧ nextId s' = S (S (nextId s)).
Proof.
  intros Hsome Hlib Htw Hl1 Hl2.
  exists (afterTalkback env this request sessionInfo s).
  rewrite (startStream_with_pending env this request s sessionInfo Hsome).
  rewrite Hl1, Hlib, Htw, Hl2. cbn [negb orb].
  split; [reflexivity |].
  destruct (afterTalkback_registries env this request sessionInfo s) as [-> ->].
  rewrite lookup_insert_eq, lookup_delete_eq.
  unfold afterTalkback, afterOutbound. cbn zeta. rewrite Hlib, Htw. cbn [andb].
  destruct (ffmpegHasStdin env (S (nextId s))); state_fields;
    rewrite <- !app_assoc; repeat split.
Qed.

Lemma startStream_two_way_witness :
  ∃ s', startStream Sample.env Sample.doorbell Sample.start Sample.negotiated
          = (Returned tt, s')
    ∧ spawned (trace s') = [1%nat; 2%nat]
    ∧ ongoingSessions s' !! "s1" =
        Some {| ffmpeg := [1%nat; 2%nat]; og_rtpSplitter := Some 0%nat |}.
Proof.
  assert (Hsome : pendingSessions Sample.negotiated !! st_sessionID Sample.start
                  = Some Sample.session) by (vm_compute; reflexivity).
  destruct (startStream_two_way Sample.env Sample.doorbell Sample.start
              Sample.negotiated Sample.session Hsome)
    as (s' & Hrun & Htrace & Hongoing & _); try reflexivity.
  exists s'. split; [exact Hrun |]. split; [| exact Hongoing].
  rewrite Htrace. vm_compute. reflexivity.
Defined.

(** When the launch of the outbound process throws, [startStream] ends with
    that error before its housekeeping: the pending entry is still there (a
    later start of the same id finds it), nothing is registered as ongoing
    and no process exists. *)
Theorem startStream_launch_failure (env : Env) (this : Delegate)
    (request : StartStreamRequest) (s : State) (sessionInfo : SessionInfo) :
  pendingSessions s !! st_sessionID request = Some sessionInfo →
  ffmpegLaunchThrows env (nextId s) (fcmd this request sessionInfo) = true →
  ∃ s', startStream env this request s = (Thrown FfmpegLaunchError, s')
    ∧ pendingSessions s' !! st_sessionID request = Some sessionInfo
    ∧ pendingSessions s' = pendingSessions s
    ∧ ongoingSessions s' = ongoingSessions s
    ∧ nextId s' = nextId s
    ∧ spawned (trace s') = spawned (trace s).
Proof.
  intros Hsome Hl1. eexists.
  rewrite (startStream_with_pending env this request s sessionInfo Hsome), Hl1.
  split; [reflexivity |]. state_fields. rewrite Hsome.
  repeat split. trace_view. reflexivity.
Qed.

Lemma startStream_launch_failure_witness :
  ∃ s', startStream Sample2.env_nolaunch Sample.doorbell Sample.start
          Sample.negotiated = (Thrown FfmpegLaunchError, s')
    ∧ pendingSessions s' !! "s1" = Some Sample.session
    ∧ ongoingSessions s' = ∅.
Proof.
  assert (Hsome : pendingSessions Sample.negotiated !! st_sessionID Sample.start
                  = Some Sample.session) by (vm_compute; reflexivity).
  destruct (startStream_launch_failure Sample2.env_nolaunch Sample.doorbell
              Sample.start Sample.negotiated Sample.session Hsome eq_refl)
    as (s' & Hrun & Hp & _ & Ho & _).
  exists s'. split; [exact Hrun |]. split; [exact Hp |].
  rewrite Ho. vm_compute. reflexivity.
Defined.

(** When the launch of the talkback process throws, [startStream] ends with
    that error after its housekeeping: the session is ongoing with the
    outbound process alone and the splitter, its pending entry is gone, and
    nothing was written to any process.  A [stopStream] of the id then stops
    that process, closes the splitter and removes the entry. *)
Theorem startStream_talkback_failure (env : Env) (this : Delegate)
    (request : StartStreamRequest) (s : State) (sessionInfo : SessionInfo) :
  pendingSessions s !! st_sessionID request = Some sessionInfo →
  hasLibFdk sessionInfo = true →
  twoWayAudio this = true →
  ffmpegLaunchThrows env (nextId s) (fcmd this request sessionInfo) = false →
  ffmpegLaunchThrows env (S (nextId s)) (ffmpegReturnAudioCmd this) = true →
  ffmpegStopThrows env (nextId s) = false →
  (∀ r, rtpSplitter sessionInfo = Some r → splitterCloseThrows env r = false) →
  ∃ s', startStream env this request s = (Thrown FfmpegLaunchError, s')
    ∧ pendingSessions s' !! st_sessionID request = None
    ∧ ongoingSessions s' !! st_sessionID request =
        Some {| ffmpeg := [nextId s]; og_rtpSplitter := rtpSplitter sessionInfo |}
    ∧ spawned (trace s') = (spawned (trace s) ++ [nextId s])%list
    ∧ ∃ s'', stopStream env this (st_sessionID request) s' = (Returned tt, s'')
        ∧ ongoingSessions s'' !! st_sessionID request = None
        ∧ stopped (trace s'') = (stopped (trace s) ++ [nextId s])%list
        ∧ splittersClosed (trace s'') =
            (splittersClosed (trace s) ++
               match rtpSplitter sessionInfo with Some r => [r] | None => [] end)%list.
Proof.
  intros Hsome Hlib Htw Hl1 Hl2 Hstop Hclose.
  exists (afterOutbound this request sessionInfo s).
  rewrite (startStream_with_pending env this request s sessionInfo Hsome).
  rewrite Hl1, Hlib, Htw, Hl2. cbn [negb orb].
  split; [reflexivity |].
  destruct (afterOutbound_registries this request sessionInfo s) as [Hp Ho].
  rewrite Hp, Ho, lookup_insert_eq, lookup_delete_eq.
  split; [reflexivity |]. split; [reflexivity |].
  assert (Htrace : trace (afterOutbound this request sessionInfo s) =
            (trace s ++
               [ EvLog (startStreamLogLine this request);
                 EvSpawn (nextId s) (st_sessionID request)
                   (fcmd this request sessionInfo) None true ])%list).
  { unfold afterOutbound. state_fields. rewrite Hlib, Htw. cbn [andb].
    by rewrite <- app_assoc. }
  split; [rewrite Htrace; trace_view; reflexivity |].
  eexists. rewrite stopStream_teardown. split; [reflexivity |].
  rewrite Ho, lookup_insert_eq. cbn [teardown stopAll ffmpeg og_rtpSplitter].
  rewrite Hstop. cbn [fst snd].
  destruct (rtpSplitter sessionInfo) as [r|] eqn:Hr.
  - rewrite (Hclose r eq_refl). cbn [fst snd]. state_fields.
    rewrite Ho, Htrace, lookup_delete_eq.
    repeat split; trace_view; reflexivity.
  - cbn [fst snd]. state_fields. rewrite Ho, Htrace, lookup_delete_eq.
    repeat split; trace_view; reflexivity.
Qed.

Lemma startStream_talkback_failure_witness :
  ∃ s', startStream Sample2.env_notalkback Sample.doorbell Sample.start
          Sample.negotiated = (Thrown FfmpegLaunchError, s')
    ∧ ongoingSessions s' !! "s1" =
        Some {| ffmpeg := [1%nat]; og_rtpSplitter := Some 0%nat |}
    ∧ ∃ s'', stopStream Sample2.env_notalkback Sample.doorbell "s1" s'
               = (Returned tt, s'')
        ∧ ongoingSessions s'' !! "s1" = None.
Proof.
  assert (Hsome : pendingSessions Sample.negotiated !! st_sessionID Sample.start
                  = Some Sample.session) by (vm_compute; reflexivity).
  destruct (startStream_talkback_failure Sample2.env_notalkback Sample.doorbell
              Sample.start Sample.negotiated Sample.session Hsome)
    as (s' & Hrun & _ & Hongoing & _ & s'' & Hstop & Hgone & _); try reflexivity.
  exists s'. split; [exact Hrun |]. split; [exact Hongoing |].
  exists s''. split; [exact Hstop | exact Hgone].
Defined.

(** *** Stopping, in detail *)

(** [stopStream] touches only its own session id: every other id keeps its
    pending and ongoing entries; no process is launched, no port reserved,
    and no object identity is consumed. *)
Theorem stopStream_frame (env : Env) (this : Delegate) (sessionId : string)
    (s : State) :
  (∀ k, k ≠ sessionId →
     pendingSessions (stopStream env this sessionId s).2 !! k = pendingSessions s !! k
     ∧ ongoingSessions (stopStream env this sessionId s).2 !! k = ongoingSessions s !! k)
  ∧ nextId (stopStream env this sessionId s).2 = nextId s
  ∧ portCalls (stopStream env this sessionId s).2 = portCalls s
  ∧ spawned (trace (stopStream env this sessionId s).2) = spawned (trace s)
  ∧ reservations (trace (stopStream env this sessionId s).2) = reservations (trace s).
Proof.
  rewrite stopStream_teardown. cbn [snd].
  assert (Hquiet : ∀ o, spawned (teardown env o).1 = []
                        ∧ reservations (teardown env o).1 = []).
  { intros [o|]; [| by split]. cbn [teardown].
    assert (Hall : spawned (stopAll env (ffmpeg o)).1 = []
                   ∧ reservations (stopAll env (ffmpeg o)).1 = []).
    { induction (ffmpeg o) as [|p rest IH]; [by split |].
      cbn [stopAll]. destruct (ffmpegStopThrows env p); [by split |].
      cbn [fst]. exact IH. }
    destruct ((stopAll env (ffmpeg o)).2); [exact Hall |].
    destruct (og_rtpSplitter o) as [r|]; [| exact Hall].
    destruct (splitterCloseThrows env r); [exact Hall |].
    cbn [fst]. unfold spawned, reservations in *. rewrite !omap_app.
    destruct Hall as [-> ->]. by split. }
  destruct (Hquiet (ongoingSessions s !! sessionId)) as [Hsp Hre].
  destruct ((teardown env (ongoingSessions s !! sessionId)).2);
    state_fields; (split; [| repeat split]);
    try (intros k Hk; rewrite ?lookup_delete_ne by done; by split);
    unfold spawned, reservations in *; rewrite !omap_app, ?Hsp, ?Hre;
    cbn [omap list_omap]; by rewrite !app_nil_r.
Qed.

Lemma stopAll_prefix (env : Env) (before after : list FfmpegProcess)
    (p : FfmpegProcess) :
  (∀ q, q ∈ before → ffmpegStopThrows env q = false) →
  ffmpegStopThrows env p = true →
  stopAll env (before ++ p :: after) = (EvStop <$> before, Some FfmpegStopError).
Proof.
  intros Hbefore Hp. induction before as [|q rest IH].
  - cbn [app stopAll]. by rewrite Hp.
  - cbn [app stopAll]. rewrite (Hbefore q) by constructor.
    rewrite IH; [reflexivity |]. intros q' Hq'. apply Hbefore. by constructor.
Qed.

Lemma stopped_stops (l : list FfmpegProcess) : stopped (EvStop <$> l) = l.
Proof.
  induction l as [|p rest IH]; [reflexivity |].
  change (stopped (EvStop <$> p :: rest)) with (p :: stopped (EvStop <$> rest)).
  by rewrite IH.
Qed.

Lemma splittersClosed_stops (l : list FfmpegProcess) :
  splittersClosed (EvStop <$> l) = [].
Proof. induction l as [|p rest IH]; [reflexivity | exact IH]. Qed.

(** The processes of a session are stopped in the order of its list, and
    the first [stop()] that throws ends the teardown: the processes after it
    are not stopped, the splitter is not closed, both entries of the id stay,
    and the error is logged. *)
Theorem stopStream_cut_short (env : Env) (this : Delegate) (sessionId : string)
    (s : State) (o : OngoingSession) (before after : list FfmpegProcess)
    (p : FfmpegProcess) :
  ongoingSessions s !! sessionId = Some o →
  ffmpeg o = (before ++ p :: after)%list →
  (∀ q, q ∈ before → ffmpegStopThrows env q = false) →
  ffmpegStopThrows env p = true →
  ∃ s', stopStream env this sessionId s = (Returned tt, s')
    ∧ stopped (trace s') = (stopped (trace s) ++ before)%list
    ∧ splittersClosed (trace s') = splittersClosed (trace s)
    ∧ ongoingSessions s' = ongoingSessions s
    ∧ pendingSessions s' = pendingSessions s
    ∧ last (trace s') =
        Some (EvLogError (name this +:+ ": Error occurred terminating video process: "
                            +:+ exn_text FfmpegStopError)).
Proof.
  intros Ho Hlist Hbefore Hp. eexists.
  rewrite stopStream_teardown. split; [reflexivity |].
  rewrite Ho. cbn [teardown]. rewrite Hlist.
  rewrite (stopAll_prefix env before after p Hbefore Hp). cbn [fst snd].
  state_fields. rewrite last_snoc.
  unfold stopped, splittersClosed. rewrite !omap_app.
  fold (stopped (EvStop <$> before)). fold (splittersClosed (EvStop <$> before)).
  rewrite stopped_stops, splittersClosed_stops. cbn [omap list_omap].
  rewrite !app_nil_r. repeat split.
Qed.

Lemma stopStream_cut_short_witness :
  ∃ s', stopStream Sample2.env_stubborn Sample.doorbell "s1" Sample.streaming
          = (Returned tt, s')
    ∧ stopped (trace s') = [1%nat]
    ∧ splittersClosed (trace s') = []
    ∧ is_Some (ongoingSessions s' !! "s1").
Proof.
  assert (Hs1 : ongoingSessions Sample.streaming !! "s1" =
                Some {| ffmpeg := [1%nat; 2%nat]; og_rtpSplitter := Some 0%nat |})
    by (vm_compute; reflexivity).
  destruct (stopStream_cut_short Sample2.env_stubborn Sample.doorbell "s1"
              Sample.streaming _ [1%nat] [] 2%nat Hs1 eq_refl)
    as (s' & Hrun & Hstopped & Hclosed & Hongoing & _).
  - intros q Hq. apply list_elem_of_singleton in Hq as ->. reflexivity.
  - reflexivity.
  - exists s'. split; [exact Hrun |]. rewrite Hstopped, Hclosed, Hongoing, Hs1.
    split; [vm_compute; reflexivity |]. split; [vm_compute; reflexivity |].
    by eexists.
Defined.

(** When nothing throws, [stopStream] stops the processes of the session in
    the order of its list (the outbound one before the talkback one), then
    closes the splitter if there is one, then deletes both entries and logs. *)
Theorem stopStream_order (env : Env) (this : Delegate) (sessionId : string)
    (s : State) (o : OngoingSession) :
  ongoingSessions s !! sessionId = Some o →
  (∀ p, p ∈ ffmpeg o → ffmpegStopThrows env p = false) →
  (∀ r, og_rtpSplitter o = Some r → splitterCloseThrows env r = false) →
  ∃ s', stopStream env this sessionId s = (Returned tt, s')
    ∧ trace s' =
        (trace s ++ (EvStop <$> ffmpeg o) ++
           match og_rtpSplitter o with Some r => [EvSplitterClose r] | None => [] end ++
           [EvLog (name this +:+ ": Stopped video stream.")])%list
    ∧ pendingSessions s' = delete sessionId (pendingSessions s)
    ∧ ongoingSessions s' = delete sessionId (ongoingSessions s).
Proof.
  intros Ho Hstop Hclose. eexists.
  rewrite stopStream_teardown. split; [reflexivity |].
  rewrite Ho. cbn [teardown].
  assert (Hall : stopAll env (ffmpeg o) = (EvStop <$> ffmpeg o, None)).
  { revert Hstop. induction (ffmpeg o) as [|p rest IH]; intros Hstop; [reflexivity |].
    cbn [stopAll]. rewrite (Hstop p) by constructor.
    rewrite IH; [reflexivity |]. intros q Hq. apply Hstop. by constructor. }
  rewrite Hall. cbn [fst snd].
  destruct (og_rtpSplitter o) as [r|].
  - rewrite (Hclose r eq_refl). cbn [fst snd]. state_fields.
    rewrite <- !app_assoc. repeat split.
  - cbn [fst snd]. state_fields. rewrite <- !app_assoc. repeat split.
Qed.

Lemma stopStream_order_witness :
  ∃ s', stopStream Sample.env Sample.doorbell "s1" Sample.streaming = (Returned tt, s')
    ∧ stopped (trace s') = [1%nat; 2%nat]
    ∧ splittersClosed (trace s') = [0%nat].
Proof.
  assert (Hs1 : ongoingSessions Sample.streaming !! "s1" =
                Some {| ffmpeg := [1%nat; 2%nat]; og_rtpSplitter := Some 0%nat |})
    by (vm_compute; reflexivity).
  destruct (stopStream_order Sample.env Sample.doorbell "s1" Sample.streaming _ Hs1)
    as (s' & Hrun & Htrace & _); try reflexivity.
  exists s'. split; [exact Hrun |]. rewrite Htrace.
  split; vm_compute; reflexivity.
Defined.

(** Stopping a session that was negotiated and never started deletes its
    pending entry and does nothing else but log: the splitter the
    negotiation constructed for it is not closed. *)
Theorem stopStream_pending_only (env : Env) (this : Delegate) (sessionId : string)
    (s : State) (sessionInfo : SessionInfo) :
  pendingSessions s !! sessionId = Some sessionInfo →
  ongoingSessions s !! sessionId = None →
  ∃ s', stopStream env this sessionId s = (Returned tt, s')
    ∧ pendingSessions s' = delete sessionId (pendingSessions s)
    ∧ ongoingSessions s' = ongoingSessions s
    ∧ trace s' = (trace s ++ [EvLog (name this +:+ ": Stopped video stream.")])%list
    ∧ splittersClosed (trace s') = splittersClosed (trace s).
Proof.
  intros Hp Ho. eexists. rewrite stopStream_teardown. split; [reflexivity |].
  rewrite Ho. cbn [teardown fst snd]. state_fields. rewrite app_nil_r.
  rewrite (delete_id _ _ Ho). repeat split. trace_view. reflexivity.
Qed.

Lemma stopStream_pending_only_witness :
  rtpSplitter Sample.session = Some 0%nat
  ∧ ∃ s', stopStream Sample.env Sample.doorbell "s1" Sample.negotiated
            = (Returned tt, s')
      ∧ pendingSessions s' !! "s1" = None
      ∧ splittersClosed (trace s') = [].
Proof.
  assert (Hsome : pendingSessions Sample.negotiated !! "s1" = Some Sample.session)
    by (vm_compute; reflexivity).
  destruct (stopStream_pending_only Sample.env Sample.doorbell "s1"
              Sample.negotiated Sample.session Hsome eq_refl)
    as (s' & Hrun & Hp & _ & _ & Hclosed).
  split; [reflexivity |]. exists s'. split; [exact Hrun |]. split.
  - rewrite Hp. apply lookup_delete_eq.
  - rewrite Hclosed. vm_compute. reflexivity.
Defined.

(** *** Shutdown, whatever the collaborators do *)

Lemma stopStream_step (env : Env) (this : Delegate) (k : string) (s : State) :
  ∃ s1, stopStream env this k s = (Returned tt, s1)
    ∧ (∀ id, ongoingSessions s1 !! id =
         if decide (id = k)
         then ongoingSessions s !! k ≫= λ o, if teardownThrows env o then Some o else None
         else ongoingSessions s !! id)
    ∧ (∀ id, pendingSessions s1 !! id =
         if decide (id = k)
         then match ongoingSessions s !! k with
              | Some o => if teardownThrows env o then pendingSessions s !! k else None
              | None => None
              end
         else pendingSessions s !! id).
Proof.
  eexists. rewrite stopStream_teardown. split; [reflexivity |].
  unfold teardownThrows.
  destruct (ongoingSessions s !! k) as [o|] eqn:Ho.
  - destruct ((teardown env (Some o)).2) as [e|] eqn:Ht; state_fields;
      split; intros id; case_decide as Hid; subst;
      rewrite ?lookup_delete_eq, ?lookup_delete_ne by done;
      rewrite ?Ho; cbn [mbind option_bind]; rewrite ?Ht; reflexivity.
  - cbn [teardown snd]. state_fields.
    split; intros id; case_decide as Hid; subst;
      rewrite ?lookup_delete_eq, ?lookup_delete_ne by done;
      rewrite ?Ho; cbn [mbind option_bind]; reflexivity.
Qed.

Lemma shutdown_loop_any (env : Env) (this : Delegate) (ids : list string) :
  ∀ s, ∃ s',
    for_of ids (stopStream env this) s = (Returned tt, s')
    ∧ (∀ id, ongoingSessions s' !! id =
         if decide (id ∈ ids)
         then ongoingSessions s !! id ≫= λ o, if teardownThrows env o then Some o else None
         else ongoingSessions s !! id)
    ∧ (∀ id, pendingSessions s' !! id =
         if decide (id ∈ ids)
         then match ongoingSessions s !! id with
              | Some o => if teardownThrows env o then pendingSessions s !! id else None
              | None => None
              end
         else pendingSessions s !! id).
Proof.
  induction ids as [|k rest IH]; intros s.
  - exists s. repeat split.
  - cbn [for_of]. mrun.
    destruct (stopStream_step env this k s) as (s1 & -> & Ho1 & Hp1).
    destruct (IH s1) as (s' & Hrun & Ho & Hp).
    exists s'. split; [exact Hrun |].
    split; intros id; rewrite ?Ho, ?Hp, !Ho1, ?Hp1.
    + destruct (decide (id = k)) as [-> | Hne].
      * rewrite (decide_True (P := k ∈ k :: rest)) by constructor.
        destruct (ongoingSessions s !! k) as [o|]; cbn [mbind option_bind];
          [destruct (teardownThrows env o) eqn:Ht; cbn [mbind option_bind];
           rewrite ?Ht |]; by case_decide.
      * destruct (decide (id ∈ rest)) as [Hin | Hnin].
        -- rewrite (decide_True (P := id ∈ k :: rest)) by (by constructor).
           reflexivity.
        -- rewrite (decide_False (P := id ∈ k :: rest)); [reflexivity |].
           intros Hin. apply elem_of_cons in Hin as [? | ?]; contradiction.
    + destruct (decide (id = k)) as [-> | Hne].
      * rewrite (decide_True (P := k ∈ k :: rest)) by constructor.
        destruct (ongoingSessions s !! k) as [o|]; cbn [mbind option_bind];
          [destruct (teardownThrows env o) eqn:Ht; cbn [mbind option_bind];
           rewrite ?Ht |]; by case_decide.
      * destruct (decide (id ∈ rest)) as [Hin | Hnin].
        -- rewrite (decide_True (P := id ∈ k :: rest)) by (by constructor).
           reflexivity.
        -- rewrite (decide_False (P := id ∈ k :: rest)); [reflexivity |].
           intros Hin. apply elem_of_cons in Hin as [? | ?]; contradiction.
Qed.

(** The shutdown handler always returns, whatever throws inside the
    teardowns.  Afterwards the ongoing registry holds exactly the sessions
    whose teardown ran into a throwing [stop()] or [close()], unchanged; the
    pending entry of an id is deleted exactly when the id was ongoing and
    its teardown went through. *)
Theorem shutdown_keeps_failed_teardowns (env : Env) (this : Delegate) (s : State) :
  ∃ s', shutdown env this s = (Returned tt, s')
    ∧ (∀ id, ongoingSessions s' !! id =
         ongoingSessions s !! id ≫= λ o, if teardownThrows env o then Some o else None)
    ∧ (∀ id, pendingSessions s' !! id =
         match ongoingSessions s !! id with
         | Some o => if teardownThrows env o then pendingSessions s !! id else None
         | None => pendingSessions s !! id
         end).
Proof.
  unfold shutdown. mrun.
  destruct (shutdown_loop_any env this (map_to_list (ongoingSessions s)).*1 s)
    as (s' & Hrun & Ho & Hp).
  assert (Hkeys : ∀ id, id ∈ (map_to_list (ongoingSessions s)).*1
                        ↔ is_Some (ongoingSessions s !! id)).
  { intros id. rewrite list_elem_of_fmap. split.
    - intros ([k o] & -> & Hin). apply elem_of_map_to_list in Hin. by exists o.
    - intros [o Hid]. exists (id, o). split; [reflexivity |].
      by apply elem_of_map_to_list. }
  exists s'. split; [exact Hrun |].
  split; intros id; rewrite ?Ho, ?Hp; case_decide as Hin.
  - reflexivity.
  - rewrite Hkeys in Hin. apply eq_None_not_Some in Hin. by rewrite Hin.
  - apply Hkeys in Hin as [o Hid]. by rewrite Hid.
  - rewrite Hkeys in Hin. apply eq_None_not_Some in Hin. by rewrite Hin.
Qed.

(** *** From negotiation to teardown *)

Lemma prepareStream_splittersMade (env : Env) (this : Delegate)
    (request : PrepareStreamRequest) (s : State)
    (response : PrepareStreamResponse) (s' : State) :
  prepareStream env this request s = (Returned response, s') →
  splittersMade (trace s') =
    (splittersMade (trace s) ++
       if codecEnabled env (videoProcessor this) "libfdk_aac" && twoWayAudio this
       then [nextId s] else [])%list.
Proof.
  intros Hrun. prepare_cases Hrun; state_fields; cbn [andb]; trace_view;
    reflexivity.
Qed.

Lemma teardown_quiet_form (env : Env) (o : OngoingSession) :
  (∀ p, ffmpegStopThrows env p = false) →
  (∀ r, splitterCloseThrows env r = false) →
  teardown env (Some o) =
    ((EvStop <$> ffmpeg o) ++
       match og_rtpSplitter o with Some r => [EvSplitterClose r] | None => [] end,
     None)%list.
Proof.
  intros Hstop Hclose. cbn [teardown].
  rewrite (stopAll_quiet env (ffmpeg o) Hstop). cbn [fst snd].
  destruct (og_rtpSplitter o) as [r|]; [by rewrite Hclose | by rewrite app_nil_r].
Qed.

(** A whole viewing, when ports are available and nothing throws: the
    negotiation, the start and the stop of one session id all return; the
    two registries end as they began, less the entries of that id; and every
    process launched and every splitter constructed on the way has been
    stopped or closed, in the order of construction. *)
Theorem viewing_lifecycle (env : Env) (this : Delegate)
    (prepare : PrepareStreamRequest) (start : StartStreamRequest) (s : State) :
  st_sessionID start = sessionID prepare →
  (∀ n count, is_Some (reservePorts env n count)) →
  (∀ id command, ffmpegLaunchThrows env id command = false) →
  (∀ p, ffmpegStopThrows env p = false) →
  (∀ r, splitterCloseThrows env r = false) →
  ∃ response s1 s2 s3 procs splitters,
    prepareStream env this prepare s = (Returned response, s1)
    ∧ startStream env this start s1 = (Returned tt, s2)
    ∧ stopStream env this (sessionID prepare) s2 = (Returned tt, s3)
    ∧ pendingSessions s3 = delete (sessionID prepare) (pendingSessions s)
    ∧ ongoingSessions s3 = delete (sessionID prepare) (ongoingSessions s)
    ∧ procs ≠ []
    ∧ spawned (trace s3) = (spawned (trace s) ++ procs)%list
    ∧ stopped (trace s3) = (stopped (trace s) ++ procs)%list
    ∧ splittersMade (trace s3) = (splittersMade (trace s) ++ splitters)%list
    ∧ splittersClosed (trace s3) = (splittersClosed (trace s) ++ splitters)%list.
Proof.
  intros Hid Hports Hlaunch Hstop Hclose.
  destruct (prepareStream_returns env this prepare s Hports)
    as (response & s1 & Hrun).
  destruct (prepareStream_entry _ _ _ _ _ _ Hrun)
    as (info & Hp1 & Ho1 & _ & _ & _ & _ & _ & _ & Hlib & _ & _ & _ & _ & _ & _ & _
        & Hsplit & _).
  pose proof (prepareStream_quiet env this prepare s) as (Hsp1 & Hst1 & Hcl1).
  rewrite Hrun in Hsp1, Hst1, Hcl1. cbn [snd] in Hsp1, Hst1, Hcl1.
  pose proof (prepareStream_splittersMade _ _ _ _ _ _ Hrun) as Hmade1.
  assert (Hsome : pendingSessions s1 !! st_sessionID start = Some info)
    by (rewrite Hid, Hp1; apply lookup_insert_eq).
  exists response, s1. rewrite Hrun.
  rewrite (startStream_with_pending env this start s1 info Hsome).
  rewrite !Hlaunch.
  destruct (afterOutbound_registries this start info s1) as [Hpa Hoa].
  destruct (afterTalkback_registries env this start info s1) as [Hpt Hot].
  rewrite Hid in Hpa, Hoa, Hpt, Hot.
  destruct (codecEnabled env (videoProcessor this) "libfdk_aac") eqn:Hcodec;
    destruct (twoWayAudio this) eqn:Htw; rewrite Hlib; cbn [negb orb andb] in *.
  1: { (* two-way audio: two processes and the splitter *)
    exists (afterTalkback env this start info s1).
    eexists. exists [nextId s1; S (nextId s1)], [nextId s].
    split; [reflexivity |]. split; [reflexivity |].
    rewrite stopStream_teardown, Hot, lookup_insert_eq.
    rewrite (teardown_quiet_form env _ Hstop Hclose). cbn [fst snd ffmpeg og_rtpSplitter].
    split; [reflexivity |]. state_fields.
    rewrite Hpt, Hot, Hp1, Ho1, Hsplit.
    rewrite delete_delete_eq, !delete_insert_eq.
    split; [reflexivity |]. split; [reflexivity |]. split; [discriminate |].
    unfold afterTalkback, afterOutbound. cbn zeta.
    destruct (ffmpegHasStdin env (S (nextId s1))); state_fields;
      repeat split; trace_view; fold (spawned (trace s1)); fold (stopped (trace s1));
      fold (splittersMade (trace s1)); fold (splittersClosed (trace s1));
      rewrite ?Hsp1, ?Hst1, ?Hcl1, ?Hmade1, <- ?app_assoc; reflexivity. }
  (* video only, or audio without talkback: one process, no splitter *)
  all: exists (afterOutbound this start info s1);
    eexists; exists [nextId s1], [];
    (split; [reflexivity |]); (split; [reflexivity |]);
    rewrite stopStream_teardown, Hoa, lookup_insert_eq;
    rewrite (teardown_quiet_form env _ Hstop Hclose);
    cbn [fst snd ffmpeg og_rtpSplitter];
    (split; [reflexivity |]); state_fields;
    rewrite Hpa, Hoa, Hp1, Ho1, Hsplit;
    rewrite delete_delete_eq, !delete_insert_eq;
    (split; [reflexivity |]); (split; [reflexivity |]); (split; [discriminate |]);
    unfold afterOutbound; state_fields;
    repeat split; trace_view; fold (spawned (trace s1)); fold (stopped (trace s1));
      fold (splittersMade (trace s1)); fold (splittersClosed (trace s1));
      rewrite ?Hsp1, ?Hst1, ?Hcl1, ?Hmade1, ?app_nil_r; reflexivity.
Qed.

Lemma viewing_lifecycle_witness :
  ∃ s2 s3,
    startStream Sample.env Sample.doorbell Sample.start Sample.negotiated
      = (Returned tt, s2)
    ∧ stopStream Sample.env Sample.doorbell "s1" s2 = (Returned tt, s3)
    ∧ pendingSessions s3 = ∅ ∧ ongoingSessions s3 = ∅
    ∧ spawned (trace s3) = stopped (trace s3)
    ∧ splittersMade (trace s3) = splittersClosed (trace s3).
Proof.
  destruct (viewing_lifecycle Sample.env Sample.doorbell (Sample.prepare "ipv4")
              Sample.start initial)
    as (response & s1 & s2 & s3 & procs & splitters & Hprep & Hstart & Hstop
        & Hp & Ho & _ & Hsp & Hst & Hmade & Hclosed);
    [reflexivity | by eexists | reflexivity | reflexivity | reflexivity |].
  assert (Hs1 : s1 = Sample.negotiated).
  { unfold Sample.negotiated. by rewrite Hprep. }
  subst s1. exists s2, s3.
  split; [exact Hstart |]. split; [exact Hstop |].
  split; [rewrite Hp; apply delete_empty |].
  split; [rewrite Ho; apply delete_empty |].
  rewrite Hsp, Hst, Hmade, Hclosed. split; reflexivity.
Defined.

(** What the client negotiated is what FFmpeg is launched with: after a
    negotiation that returned, a start of the same session id whose first
    launch does not throw launches a process with exactly this command
    line: the camera's RTSP input, the video encoder arguments, a video leg
    that carries the SSRC of the response, the base64 text of the request's
    video key followed by its salt and the client's own address and video
    port, then, only on a host with [libfdk_aac], the audio encoder
    arguments and an audio leg built the same way from the audio side, then
    the logging tail. *)
Theorem negotiated_parameters_reach_ffmpeg (env : Env) (this : Delegate)
    (prepare : PrepareStreamRequest) (start : StartStreamRequest)
    (s s1 : State) (response : PrepareStreamResponse) :
  prepareStream env this prepare s = (Returned response, s1) →
  st_sessionID start = sessionID prepare →
  (∀ command, ffmpegLaunchThrows env (nextId s1) command = false) →
  let videoLeg :=
    Js.join " " [
      "";
      "-ssrc " +:+ Js.num (ssrc (rs_video response));
      "-f rtp";
      "-srtp_out_suite AES_CM_128_HMAC_SHA1_80";
      "-srtp_out_params "
        +:+ Js.base64 (srtp_key (video prepare) ++ srtp_salt (video prepare))%list;
      "srtp://" +:+ targetAddress prepare +:+ ":" +:+ Js.num (port (video prepare))
        +:+ "?rtcpport=" +:+ Js.num (port (video prepare))
        +:+ "&localrtcpport=" +:+ Js.num (port (video prepare))
        +:+ "&pkt_size=" +:+ Js.num videomtu ] in
  let audioLeg :=
    Js.join " " [
      "";
      "-ssrc " +:+ Js.num (ssrc (rs_audio response));
      "-f rtp";
      "-srtp_out_suite AES_CM_128_HMAC_SHA1_80";
      "-srtp_out_params "
        +:+ Js.base64 (srtp_key (audio prepare) ++ srtp_salt (audio prepare))%list;
      "srtp://" +:+ targetAddress prepare +:+ ":" +:+ Js.num (port (audio prepare))
        +:+ "?rtcpport=" +:+ Js.num (port (audio prepare))
        +:+ "&localrtcpport=" +:+ Js.num (port (audio prepare))
        +:+ "&pkt_size=" +:+ Js.num audiomtu ] in
  let command :=
    (("-hide_banner -rtsp_transport tcp -i " +:+ cameraUrl this)
       +:+ ffmpegVideoArgs this start +:+ videoLeg)
    +:+ (if codecEnabled env (videoProcessor this) "libfdk_aac"
         then ffmpegAudioArgs start +:+ audioLeg
         else "")
    +:+ loglevel this in
  ∃ returnPort,
    EvSpawn (nextId s1) (sessionID prepare) command returnPort true
      ∈ trace (startStream env this start s1).2.
Proof.
  intros Hrun Hid Hlaunch. cbn zeta.
  destruct (prepareStream_entry _ _ _ _ _ _ Hrun)
    as (info & Hp1 & _ & Haddr & _ & Hvp & Hap & Hvs & Has & Hlib & Hv & Ha & _).
  assert (Hsome : pendingSessions s1 !! st_sessionID start = Some info)
    by (rewrite Hid, Hp1; apply lookup_insert_eq).
  assert (Hcmd : fcmd this start info = _) by
    (unfold fcmd, fcmdVideo, fcmdAudio, ffmpegVideoStream, ffmpegAudioStream;
     rewrite Haddr, Hvp, Hap, Hvs, Has, Hv, Ha, Hlib; reflexivity).
  rewrite <- Hcmd. eexists.
  rewrite (startStream_with_pending env this start s1 info Hsome).
  rewrite Hlaunch, <- Hid.
  assert (Hin : ∀ rp, EvSpawn (nextId s1) (st_sessionID start) (fcmd this start info)
                        rp true
                      ∈ trace (afterOutbound this start info s1) →
                      EvSpawn (nextId s1) (st_sessionID start) (fcmd this start info)
                        rp true
                      ∈ trace (afterTalkback env this start info s1)).
  { intros rp Hin. unfold afterTalkback. cbn zeta.
    destruct (ffmpegHasStdin env (S (nextId s1))); state_fields;
      rewrite !elem_of_app; tauto. }
  assert (Hout : EvSpawn (nextId s1) (st_sessionID start) (fcmd this start info)
                   (if hasLibFdk info && twoWayAudio this then None
                    else Some (addressVersion info, videoReturnPort info)) true
                 ∈ trace (afterOutbound this start info s1)).
  { unfold afterOutbound. state_fields. apply elem_of_app. right. constructor. }
  repeat match goal with
         | |- context [if ?b then (_, _) else _] => destruct b
         end; cbn [snd]; first [exact Hout | exact (Hin _ Hout)].
Qed.

Lemma negotiated_parameters_reach_ffmpeg_witness :
  ∃ command returnPort,
    EvSpawn 1%nat "s1" command returnPort true ∈ trace Sample.streaming.
Proof.
  assert (H1 : ∃ r1, prepareStream Sample.env Sample.doorbell (Sample.prepare "ipv4")
                       initial = (Returned r1, Sample.negotiated)).
  { eexists. vm_compute. reflexivity. }
  destruct H1 as [r1 H1].
  pose proof (negotiated_parameters_reach_ffmpeg Sample.env Sample.doorbell
                (Sample.prepare "ipv4") Sample.start initial Sample.negotiated r1
                H1 eq_refl (λ _, eq_refl)) as Hspawn.
  cbn zeta in Hspawn. destruct Hspawn as (returnPort & Hin).
  eexists _, returnPort. exact Hin.
Defined.

(** *** The request dispatcher and the snapshot handler *)

(** [handleStreamRequest] always returns.  A stop request is answered once,
    with success, whatever happened in the teardown; a reconfigure request
    is answered once, with success, and changes nothing but the log; a start
    request is not answered by the handler itself, also when [startStream]
    ends with an error. *)
Theorem handleStreamRequest_answers (env : Env) (this : Delegate)
    (request : StreamingRequest) (s : State) :
  ∃ calls s',
    handleStreamRequest env this request s = (Returned calls, s')
    ∧ match request with
      | START r => calls = [] ∧ s' = (startStream env this r s).2
      | RECONFIGURE _ video =>
          calls = [CallbackOk]
          ∧ s' = with_event (EvLog (reconfigureLogLine this video)) s
      | STOP sessionId =>
          calls = [CallbackOk] ∧ s' = (stopStream env this sessionId s).2
      end.
Proof.
  destruct request as [r | id video | id]; unfold handleStreamRequest; mrun.
  - unfold try_catch. destruct (startStream env this r s) as [[[] | e] s1];
      by eexists _, _.
  - by eexists _, _.
  - rewrite stopStream_teardown. by eexists _, _.
Qed.

(** A start request for a session id that was never negotiated gets no
    answer: the handler does not call the callback, no process is launched
    that could call it later, and the registries are as they were. *)
Theorem handleStreamRequest_start_unknown (env : Env) (this : Delegate)
    (request : StartStreamRequest) (s : State) :
  pendingSessions s !! st_sessionID request = None →
  ∃ s', handleStreamRequest env this (START request) s = (Returned [], s')
    ∧ spawned (trace s') = spawned (trace s)
    ∧ pendingSessions s' = pendingSessions s
    ∧ ongoingSessions s' = ongoingSessions s.
Proof.
  intros Hnone. unfold handleStreamRequest, try_catch. mrun.
  rewrite (startStream_undefined_session env this request s Hnone). mrun.
  eexists. split; [reflexivity |]. state_fields.
  repeat split. trace_view. reflexivity.
Qed.

Lemma handleStreamRequest_start_unknown_witness :
  ∃ s', handleStreamRequest Sample.env Sample.doorbell (START Sample.start) initial
          = (Returned [], s')
    ∧ spawned (trace s') = [].
Proof.
  destruct (handleStreamRequest_start_unknown Sample.env Sample.doorbell
              Sample.start initial) as (s' & Hrun & Hsp & _); [reflexivity |].
  exists s'. split; [exact Hrun | exact Hsp].
Defined.

(** [handleSnapshotRequest] calls its callback exactly once on every path
    and leaves the registries alone.  It asks the controller for the
    snapshot URL with [force=true] and the requested size.  When the
    controller answers with [ok] and the body can be read, the one call
    carries the image and nothing is logged.  When the controller answers
    with [ok] and reading the body fails, the one call carries the error
    caught, which is also logged as an error.  Otherwise (no response, or a
    response that is not [ok]) the one call carries the error "Unable to
    retrieve snapshot" prefixed with the camera's name, which is also
    logged.  The call is never a plain success. *)
Theorem handleSnapshotRequest_answers_once (this : Delegate)
    (fetch : string → option FetchResponse) (snapshotUrl : string) (w h : Z)
    (s : State) :
  let unable := name this +:+ ": Unable to retrieve snapshot." in
  let refused call s' :=
    call = CallbackError unable ∧ trace s' = (trace s ++ [EvLog unable])%list in
  ∃ call s',
    handleSnapshotRequest this fetch snapshotUrl w h s = (Returned [call], s')
    ∧ pendingSessions s' = pendingSessions s
    ∧ ongoingSessions s' = ongoingSessions s
    ∧ call ≠ CallbackOk
    ∧ (∀ b, call = CallbackData b ↔
            ∃ r, fetch (snapshotUrl +:+ "?force=true&width=" +:+ Js.num w
                          +:+ "&height=" +:+ Js.num h) = Some r
                 ∧ ok r = true ∧ buffer r = Some b)
    ∧ match fetch (snapshotUrl +:+ "?force=true&width=" +:+ Js.num w
                     +:+ "&height=" +:+ Js.num h) with
      | Some r =>
          if ok r
          then match buffer r with
               | Some b => call = CallbackData b ∧ trace s' = trace s
               | None =>
                   ∃ error,
                     call = CallbackError error
                     ∧ trace s' =
                         (trace s ++
                          [EvLogError
                             (name this
                                +:+ ": An error occurred while making a snapshot request: "
                                +:+ error +:+ ".")])%list
               end
          else refused call s'
      | None => refused call s'
      end.
Proof.
  unfold handleSnapshotRequest, snapshotParams. cbn zeta.
  assert (Hurl : snapshotUrl +:+ "?" +:+ "force=true&width=" +:+ Js.num w
                   +:+ "&height=" +:+ Js.num h
                 = snapshotUrl +:+ "?force=true&width=" +:+ Js.num w
                   +:+ "&height=" +:+ Js.num h) by reflexivity.
  rewrite Hurl.
  destruct (fetch _) as [[isOk body]|] eqn:Hfetch;
    cbn [fmap option_fmap option_map default ok buffer mbind option_bind negb].
  - destruct isOk; cbn [negb].
    + destruct body as [b|]; mrun.
      * eexists _, _. split; [reflexivity |]. do 3 (split; [done |]). split; [| done].
        intros b'. split.
        -- intros [= <-]. eexists. by repeat split.
        -- intros (r & [= <-] & _ & [= ->]). reflexivity.
      * eexists _, _. split; [reflexivity |]. do 3 (split; [done |]). split.
        -- intros b'. split; [discriminate |].
           intros (r & [= <-] & _ & Hb). discriminate Hb.
        -- by eexists.
    + mrun. eexists _, _. split; [reflexivity |]. do 3 (split; [done |]).
      split; [| done]. intros b'. split; [discriminate |].
      intros (r & [= <-] & Hok & _). discriminate Hok.
  - mrun. eexists _, _. split; [reflexivity |]. do 3 (split; [done |]).
    split; [| done]. intros b'. split; [discriminate |].
    intros (r & Hr & _). discriminate Hr.
Qed.

(** The video processor the constructor settles on is never the empty
    string: an empty configured path falls through to the bundled FFmpeg,
    and an empty or missing bundled path to ["ffmpeg"]; a non-empty
    configured path always wins. *)
Theorem chooseVideoProcessor_nonempty (configured pathToFfmpeg : option string) :
  chooseVideoProcessor configured pathToFfmpeg ≠ ""
  ∧ (∀ p, configured = Some p → p ≠ "" →
          chooseVideoProcessor configured pathToFfmpeg = p)
  ∧ (truthy configured = false → truthy pathToFfmpeg = false →
     chooseVideoProcessor configured pathToFfmpeg = "ffmpeg").
Proof.
  unfold chooseVideoProcessor.
  destruct configured as [[|c cs]|], pathToFfmpeg as [[|p ps]|];
    cbn; repeat split; try discriminate; try reflexivity;
    intros q [= <-] Hq; try reflexivity; by destruct Hq.
Qed.

(** ** Properties of the camera accessory *)

(** Two-way audio is on exactly for a G3 Micro or a G4 Doorbell whose
    [TwoWayAudio] option is enabled; every other camera type, and a missing
    camera, has it off whatever the option says. *)
Theorem configureTwoWayAudio_capable (nvr : Camera.Nvr)
    (camera : option Camera.ProtectCameraConfig) :
  Camera.configureTwoWayAudio nvr camera = true ↔
    ∃ c, camera = Some c
         ∧ (Camera.cam_type c = "UVC G3 Micro" ∨ Camera.cam_type c = "UVC G4 Doorbell")
         ∧ Camera.optionEnabled nvr c "TwoWayAudio" None = true.
Proof.
  unfold Camera.configureTwoWayAudio. destruct camera as [c|].
  - destruct (String.eqb_spec (Camera.cam_type c) "UVC G3 Micro") as [H3 | H3];
      destruct (String.eqb_spec (Camera.cam_type c) "UVC G4 Doorbell") as [H4 | H4];
      cbn [orb]; split;
      try (intros Hopt; exists c; by auto);
      try (intros (c' & [= <-] & _ & Hopt); exact Hopt);
      try discriminate.
    intros (c' & [= <-] & [Ht | Ht] & _); contradiction.
  - split; [discriminate | intros (c & Hc & _); discriminate Hc].
Qed.

(** A camera of another type never gets a splitter: with [twoWayAudio] as
    [configureTwoWayAudio] sets it, a negotiation for a camera that is
    neither a G3 Micro nor a G4 Doorbell constructs no [RtpSplitter] and
    stores none. *)
Theorem no_splitter_for_one_way_camera (nvr : Camera.Nvr)
    (camera : Camera.ProtectCameraConfig) (env : Env) (this : Delegate)
    (request : PrepareStreamRequest) (s : State)
    (response : PrepareStreamResponse) (s' : State) :
  twoWayAudio this = Camera.configureTwoWayAudio nvr (Some camera) →
  Camera.cam_type camera ≠ "UVC G3 Micro" →
  Camera.cam_type camera ≠ "UVC G4 Doorbell" →
  prepareStream env this request s = (Returned response, s') →
  splittersMade (trace s') = splittersMade (trace s)
  ∧ (rtpSplitter <$> pendingSessions s' !! sessionID request) = Some None.
Proof.
  intros Htw H3 H4 Hrun.
  assert (Hoff : twoWayAudio this = false).
  { rewrite Htw. cbn [Camera.configureTwoWayAudio].
    apply String.eqb_neq in H3, H4. by rewrite H3, H4. }
  pose proof (prepareStream_splittersMade _ _ _ _ _ _ Hrun) as Hmade.
  destruct (prepareStream_entry _ _ _ _ _ _ Hrun)
    as (info & Hp & _ & _ & _ & _ & _ & _ & _ & _ & _ & _ & _ & _ & _ & _ & _
        & Hsplit & _).
  rewrite Hoff, andb_false_r in Hmade, Hsplit.
  rewrite app_nil_r in Hmade. split; [exact Hmade |].
  rewrite Hp, lookup_insert_eq. cbn [fmap option_fmap option_map]. by rewrite Hsplit.
Qed.

Lemma no_splitter_for_one_way_camera_witness :
  splittersMade
    (trace (prepareStream Sample.env Sample.camera (Sample.prepare "ipv4") initial).2)
  = [].
Proof.
  destruct (prepareStream Sample.env Sample.camera (Sample.prepare "ipv4") initial)
    as [[response | e] s'] eqn:Hrun; [| vm_compute in Hrun; discriminate Hrun].
  destruct (no_splitter_for_one_way_camera Camera.nvr0 Camera.g3flex Sample.env
              Sample.camera (Sample.prepare "ipv4") initial response s')
    as [Hmade _]; [reflexivity | discriminate | discriminate | exact Hrun |].
  exact Hmade.
Defined.

(** *** The choice of the RTSP channel *)

Lemma firstByPriority_sound (nvr : Camera.Nvr) (camera : Camera.ProtectCameraConfig)
    (chans : list Camera.Channel) (priority : list string) (ch : Camera.Channel) :
  Camera.firstByPriority nvr camera chans priority = Some ch →
  In ch chans
  ∧ Camera.isRtspEnabled ch = true
  ∧ In (Camera.ch_name ch) priority
  ∧ Camera.optionEnabled nvr camera ("Stream." +:+ Camera.ch_name ch) None = true.
Proof.
  induction priority as [|q rest IH]; [discriminate |].
  cbn [Camera.firstByPriority].
  destruct (List.find _ chans) as [found|] eqn:Hfind.
  - intros [= <-]. apply find_some in Hfind as [Hin Hok].
    unfold Camera.preferredChannel in Hok.
    apply andb_prop in Hok as [Hok Hname]. apply andb_prop in Hok as [Hrtsp Hopt].
    apply String.eqb_eq in Hname. rewrite Hname.
    repeat split; try assumption. by left.
  - intros Hrest. destruct (IH Hrest) as (Hin & Hrtsp & Hname & Hopt).
    repeat split; try assumption. by right.
Qed.

Lemma forceQuality_values (nvr : Camera.Nvr) (camera : Camera.ProtectCameraConfig) :
  In (Camera.forceQuality nvr camera) [""; "Low"; "Medium"; "High"].
Proof.
  unfold Camera.forceQuality.
  repeat match goal with
         | |- context [if ?b then _ else _] => destruct b
         end; cbn; tauto.
Qed.

Lemma channelPriority_values (camera : Camera.ProtectCameraConfig) (q : string) :
  In q (Camera.channelPriority camera) → In q ["Low"; "Medium"; "High"].
Proof.
  unfold Camera.channelPriority.
  destruct (_ || _); cbn; tauto.
Qed.

(** The channel chosen is one of the camera's channels, RTSP-enabled, named
    Low, Medium or High; under a [StreamOnly] option it has the forced
    quality, otherwise a quality whose [Stream] option is enabled. *)
Lemma foundChannel_sound (nvr : Camera.Nvr) (camera : Camera.ProtectCameraConfig)
    (chans : list Camera.Channel) (ch : Camera.Channel) :
  Camera.foundChannel nvr camera chans = Some ch →
  In ch chans
  ∧ Camera.isRtspEnabled ch = true
  ∧ In (Camera.ch_name ch) ["Low"; "Medium"; "High"]
  ∧ (Camera.forceQuality nvr camera ≠ "" →
     Camera.ch_name ch = Camera.forceQuality nvr camera)
  ∧ (Camera.forceQuality nvr camera = "" →
     Camera.optionEnabled nvr camera ("Stream." +:+ Camera.ch_name ch) None = true).
Proof.
  unfold Camera.foundChannel.
  pose proof (forceQuality_values nvr camera) as Hforce.
  destruct (Camera.forceQuality nvr camera) as [|c q] eqn:Hq; cbn [truthy].
  - intros Hfound.
    destruct (firstByPriority_sound _ _ _ _ _ Hfound) as (Hin & Hrtsp & Hname & Hopt).
    apply channelPriority_values in Hname. repeat split; try assumption; done.
  - intros Hfind. apply find_some in Hfind as [Hin Hok].
    unfold Camera.forcedChannel in Hok. apply andb_prop in Hok as [Hrtsp Hname].
    apply String.eqb_eq in Hname. rewrite Hname.
    repeat split; try assumption; try done.
    cbn in Hforce. cbn. destruct Hforce as [H | [H | [H | [H | []]]]];
      try discriminate H; rewrite <- H; tauto.
Qed.

(** [configureVideoStream] returns [true] only with a stream URL that is
    either empty or [rtsp://host:port/alias] for the non-empty alias of an
    RTSP-enabled channel of the camera named Low, Medium or High; it then
    has set the snapshot URL of that camera and marked the video as
    configured. *)
Theorem configureVideoStream_url (nvr : Camera.Nvr) (displayName : string)
    (context : option Camera.ProtectCameraConfig) (this this' : Camera.ProtectCamera) :
  Camera.configureVideoStream nvr displayName context this = (Returned true, this') →
  ∃ c camera chans,
    context = Some c
    ∧ camera = default c (Camera.enableRtsp nvr c)
    ∧ Camera.channels camera = Some chans
    ∧ Camera.isVideoConfigured this' = true
    ∧ Camera.snapshotUrl this' =
        Some (Camera.camerasUrl nvr +:+ "/" +:+ Camera.cam_id camera +:+ "/snapshot")
    ∧ (Camera.cameraUrl this' = Some ""
       ∨ ∃ ch, ch ∈ chans
           ∧ Camera.isRtspEnabled ch = true
           ∧ Camera.rtspAlias ch ≠ ""
           ∧ In (Camera.ch_name ch) ["Low"; "Medium"; "High"]
           ∧ Camera.cameraUrl this' =
               Some ("rtsp://" +:+ Camera.nvrHost nvr +:+ ":"
                       +:+ Js.num (Camera.rtspPort nvr) +:+ "/" +:+ Camera.rtspAlias ch)).
Proof.
  unfold Camera.configureVideoStream.
  destruct context as [c|]; [| discriminate].
  destruct (Camera.channels c) as [own|]; [| discriminate].
  cbn zeta.
  destruct (Camera.channels (default c (Camera.enableRtsp nvr c))) as [chans|] eqn:Hch;
    [| discriminate].
  intros [= <-]. exists c, (default c (Camera.enableRtsp nvr c)), chans.
  cbn [Camera.isVideoConfigured Camera.snapshotUrl Camera.cameraUrl].
  split; [reflexivity |]. split; [reflexivity |]. split; [exact Hch |].
  split; [reflexivity |]. split; [reflexivity |].
  destruct (Camera.foundChannel nvr _ chans) as [ch|] eqn:Hfound;
    cbn [fmap option_fmap option_map default];
    [| cbn [truthy negb snd]; left; reflexivity].
  destruct (foundChannel_sound _ _ _ _ Hfound) as (Hin & Hrtsp & Hname & _).
  destruct (Camera.rtspAlias ch) as [|a alias] eqn:Halias; cbn [truthy negb snd];
    [left; reflexivity | right].
  exists ch. rewrite Halias.
  split; [by apply list_elem_of_In |]. repeat split; try assumption. discriminate.
Qed.

Lemma configureVideoStream_url_witness :
  ∃ this',
    Camera.configureVideoStream Camera.nvr0 "Front" (Some Camera.g3flex) Camera.fresh
      = (Returned true, this')
    ∧ Camera.cameraUrl this' = Some "rtsp://10.0.0.1:7447/aaaa".
Proof.
  eexists. split; [vm_compute; reflexivity |].
  destruct (configureVideoStream_url Camera.nvr0 "Front" (Some Camera.g3flex)
              Camera.fresh _ eq_refl) as (c & camera & chans & _).
  vm_compute. reflexivity.
Defined.

(** A [StreamOnly] option is not a preference but a filter: when the
    forced quality has no RTSP-enabled channel on the camera the method
    works with (the one [enableRtsp] answered with, or the accessory's own
    when it answered with none), the camera ends with an empty stream URL,
    whatever other channels are enabled, and the first configuration logs
    that no stream is configured. *)
Theorem streamOnly_has_no_fallback (nvr : Camera.Nvr) (displayName : string)
    (c : Camera.ProtectCameraConfig) (own chans : list Camera.Channel)
    (this : Camera.ProtectCamera) :
  let camera := default c (Camera.enableRtsp nvr c) in
  Camera.channels c = Some own →
  Camera.channels camera = Some chans →
  Camera.forceQuality nvr camera ≠ "" →
  (∀ ch, ch ∈ chans → Camera.isRtspEnabled ch = true →
         Camera.ch_name ch ≠ Camera.forceQuality nvr camera) →
  ∃ this',
    Camera.configureVideoStream nvr displayName (Some c) this = (Returned true, this')
    ∧ Camera.cameraUrl this' = Some ""
    ∧ (Camera.isVideoConfigured this = false →
       Camera.logged this'
       = (Camera.logged this ++ [Camera.noStreamLine nvr displayName camera])%list).
Proof.
  intros camera Hown Hch Hforce Hnone. subst camera.
  unfold Camera.configureVideoStream. rewrite Hown. cbn zeta. rewrite Hch.
  unfold Camera.foundChannel.
  destruct (Camera.forceQuality nvr _) as [|a q] eqn:Hq; [done |]. cbn [truthy].
  rewrite find_no_match.
  - cbn [fmap option_fmap option_map default truthy negb fst snd].
    eexists. split; [reflexivity |].
    cbn [Camera.cameraUrl Camera.logged]. split; [reflexivity |].
    intros ->. reflexivity.
  - intros ch Hin. unfold Camera.forcedChannel.
    destruct (Camera.isRtspEnabled ch) eqn:Hen; [| reflexivity].
    cbn [andb]. apply String.eqb_neq. by apply Hnone.
Qed.

Lemma streamOnly_has_no_fallback_witness :
  ∃ this',
    Camera.configureVideoStream Camera.nvr_low_updating "Front"
      (Some Camera.g3flex_stale) Camera.fresh
      = (Returned true, this')
    ∧ Camera.cameraUrl this' = Some ""
    ∧ length (Camera.logged this') = 1%nat.
Proof.
  destruct (streamOnly_has_no_fallback Camera.nvr_low_updating "Front"
              Camera.g3flex_stale
              [{| Camera.ch_name := "High"; Camera.isRtspEnabled := false;
                  Camera.rtspAlias := "" |}]
              [Camera.high; Camera.medium; Camera.low] Camera.fresh)
    as (this' & Hrun & Hurl & Hlog); [reflexivity | reflexivity | discriminate | |].
  - intros ch Hin Hen.
    apply list_elem_of_In in Hin.
    destruct Hin as [<- | [<- | [<- | []]]]; discriminate.
  - exists this'. split; [exact Hrun |]. split; [exact Hurl |].
    by rewrite (Hlog eq_refl).
Defined.

(** Without a [StreamOnly] option, a G4 Pro or G4 Bullet gets its Medium
    channel when it has an RTSP-enabled one and [Stream.Medium] is enabled,
    even if a High channel is enabled too, and any other camera gets its High
    channel under the same conditions on High. *)
Theorem channel_priority (nvr : Camera.Nvr) (camera : Camera.ProtectCameraConfig)
    (chans : list Camera.Channel) (ch : Camera.Channel) :
  Camera.forceQuality nvr camera = "" →
  let preferred :=
    if String.eqb (Camera.cam_type camera) "UVC G4 Pro"
       || String.eqb (Camera.cam_type camera) "UVC G4 Bullet"
    then "Medium" else "High" in
  Camera.optionEnabled nvr camera ("Stream." +:+ preferred) None = true →
  ch ∈ chans →
  Camera.isRtspEnabled ch = true →
  Camera.ch_name ch = preferred →
  ∃ chosen, Camera.foundChannel nvr camera chans = Some chosen
    ∧ Camera.ch_name chosen = preferred
    ∧ Camera.isRtspEnabled chosen = true.
Proof.
  intros Hforce preferred Hopt Hin Hen Hname.
  unfold Camera.foundChannel. rewrite Hforce. cbn [truthy].
  assert (Hfirst : ∃ rest, Camera.channelPriority camera = preferred :: rest).
  { unfold Camera.channelPriority. subst preferred.
    destruct (_ || _); by eexists. }
  destruct Hfirst as [rest ->]. cbn [Camera.firstByPriority].
  destruct (List.find (Camera.preferredChannel nvr camera preferred) chans)
    as [chosen|] eqn:Hfind.
  - exists chosen. split; [reflexivity |].
    apply find_some in Hfind as [_ Hok]. unfold Camera.preferredChannel in Hok.
    apply andb_prop in Hok as [Hok Hn]. apply andb_prop in Hok as [Hr _].
    split; [by apply String.eqb_eq | exact Hr].
  - exfalso. apply list_elem_of_In in Hin.
    pose proof (find_none _ _ Hfind ch Hin) as Hno.
    unfold Camera.preferredChannel in Hno.
    rewrite Hen, Hopt, Hname, String.eqb_refl in Hno. discriminate Hno.
Qed.

Lemma channel_priority_witness :
  Camera.foundChannel Camera.nvr0 Camera.g4pro [Camera.high; Camera.medium; Camera.low]
    = Some Camera.medium
  ∧ Camera.foundChannel Camera.nvr0 Camera.g3flex [Camera.high; Camera.medium; Camera.low]
    = Some Camera.high.
Proof.
  assert (Hmedium : Camera.medium ∈ [Camera.high; Camera.medium; Camera.low])
    by (apply list_elem_of_In; cbn; tauto).
  assert (Hhigh : Camera.high ∈ [Camera.high; Camera.medium; Camera.low])
    by (apply list_elem_of_In; cbn; tauto).
  split.
  - pose proof (channel_priority Camera.nvr0 Camera.g4pro
                  [Camera.high; Camera.medium; Camera.low] Camera.medium eq_refl) as H.
    cbn zeta in H.
    destruct (H eq_refl Hmedium eq_refl eq_refl) as (chosen & Hfound & _).
    vm_compute. reflexivity.
  - pose proof (channel_priority Camera.nvr0 Camera.g3flex
                  [Camera.high; Camera.medium; Camera.low] Camera.high eq_refl) as H.
    cbn zeta in H.
    destruct (H eq_refl Hhigh eq_refl eq_refl) as (chosen & Hfound & _).
    vm_compute. reflexivity.
Defined.

(** A camera has one streaming delegate at most: [configureVideoStream]
    constructs one the first time it returns [true] and never again, and a
    call that returns [false] or throws changes nothing. *)
Theorem configureVideoStream_one_delegate (nvr : Camera.Nvr) (displayName : string)
    (context context' : option Camera.ProtectCameraConfig)
    (this : Camera.ProtectCamera) :
  let first := Camera.configureVideoStream nvr displayName context this in
  let second := Camera.configureVideoStream nvr displayName context' first.2 in
  (first.1 ≠ Returned true → first.2 = this)
  ∧ (first.1 = Returned true →
     Camera.isVideoConfigured first.2 = true
     ∧ Camera.delegates first.2 =
         (if Camera.isVideoConfigured this then Camera.delegates this
          else S (Camera.delegates this))
     ∧ Camera.delegates second.2 = Camera.delegates first.2).
Proof.
  cbn zeta. split.
  - unfold Camera.configureVideoStream.
    repeat match goal with
           | |- context [match ?x with _ => _ end] =>
               match type of x with
               | option _ => destruct x
               end
           end; cbn [fst snd]; try reflexivity; intros H; by destruct H.
  - intros Hfirst.
    assert (Hconf : Camera.isVideoConfigured
                      (Camera.configureVideoStream nvr displayName context this).2 = true
                    ∧ Camera.delegates
                        (Camera.configureVideoStream nvr displayName context this).2 =
                      (if Camera.isVideoConfigured this then Camera.delegates this
                       else S (Camera.delegates this))).
    { revert Hfirst. unfold Camera.configureVideoStream.
      destruct context as [c|]; [| discriminate].
      destruct (Camera.channels c); [| discriminate]. cbn zeta.
      destruct (Camera.channels (default c (Camera.enableRtsp nvr c)));
        [| discriminate].
      intros _. split; reflexivity. }
    destruct Hconf as [Hconf Hdel]. split; [exact Hconf |]. split; [exact Hdel |].
    set (t1 := (Camera.configureVideoStream nvr displayName context this).2) in *.
    unfold Camera.configureVideoStream.
    destruct context' as [c'|]; [| reflexivity].
    destruct (Camera.channels c'); [| reflexivity]. cbn zeta.
    destruct (Camera.channels (default c' (Camera.enableRtsp nvr c')));
      [| reflexivity].
    cbn [snd Camera.delegates]. by rewrite Hconf.
Qed.

Lemma configureVideoStream_one_delegate_witness :
  Camera.delegates
    (Camera.configureVideoStream Camera.nvr0 "Front" (Some Camera.g4pro)
       (Camera.configureVideoStream Camera.nvr0 "Front" (Some Camera.g3flex)
          Camera.fresh).2).2 = 1%nat.
Proof.
  pose proof (configureVideoStream_one_delegate Camera.nvr0 "Front"
                (Some Camera.g3flex) (Some Camera.g4pro) Camera.fresh) as [_ H].
  cbn zeta in H. destruct H as (_ & Hfirst & Hsecond); [vm_compute; reflexivity |].
  rewrite Hsecond, Hfirst. reflexivity.
Defined.

(** *** The motion switch *)

(** What the motion switch is set to is what it reads back as a boolean:
    after [SET value], [GET] yields [value === true].  Setting the boolean it
    already holds logs nothing; a value that is not a boolean turns the
    detection off and is logged every time. *)
Theorem motionSwitch_roundtrip (displayName : string)
    (value : Camera.CharacteristicValue) (this : Camera.ProtectCamera) :
  Camera.motionSwitchGet (Camera.motionSwitchSet displayName value this)
    = Some (Camera.isTrue value)
  ∧ (∀ b, value = Camera.CvBool b →
       Camera.logged (Camera.motionSwitchSet displayName value
                        (Camera.motionSwitchSet displayName value this))
       = Camera.logged (Camera.motionSwitchSet displayName value this))
  ∧ ((∀ b, value ≠ Camera.CvBool b) →
       Camera.motionSwitchGet (Camera.motionSwitchSet displayName value this)
         = Some false
       ∧ Camera.logged (Camera.motionSwitchSet displayName value this)
         = (Camera.logged this ++ [displayName +:+ ": Motion detection disabled."])%list).
Proof.
  split; [reflexivity |]. split.
  - intros b ->. cbn [Camera.motionSwitchSet Camera.logged Camera.detectMotion
                      Camera.differs Camera.isTrue].
    destruct b; cbn [Bool.eqb negb]; by rewrite app_nil_r.
  - intros Hnot. destruct value as [b | z | t]; [by destruct (Hnot b) | |];
      split; try reflexivity;
      cbn [Camera.motionSwitchSet Camera.logged Camera.differs Camera.isTrue];
      by destruct (Camera.detectMotion this).
Qed.

Lemma motionSwitch_roundtrip_witness :
  Camera.motionSwitchGet
    (Camera.motionSwitchSet "Front" (Camera.CvNumber 1) Camera.fresh) = Some false
  ∧ Camera.logged
      (Camera.motionSwitchSet "Front" (Camera.CvBool true)
         (Camera.motionSwitchSet "Front" (Camera.CvBool true) Camera.fresh))
    = ["Front: Motion detection enabled."].
Proof.
  split.
  - destruct (motionSwitch_roundtrip "Front" (Camera.CvNumber 1) Camera.fresh)
      as (_ & _ & Hnot). destruct Hnot as [Hget _]; [discriminate | exact Hget].
  - destruct (motionSwitch_roundtrip "Front" (Camera.CvBool true) Camera.fresh)
      as (_ & Hsame & _). rewrite (Hsame true eq_refl). reflexivity.
Defined.

(** *** Sample runs of the statements above *)

Lemma getDefaultIpAddress_external_witness :
  getDefaultIpAddress Sample.env_offline "ipv4" = None
  ∧ ∃ l info, networkInterfaces Sample.env !! "eth0" = Some l
              ∧ info ∈ l ∧ internal info = false ∧ ni_address info = "fe80::1".
Proof.
  split.
  - apply (getDefaultIpAddress_external Sample.env_offline "ipv4").
    intros l info Hl. discriminate Hl.
  - apply (getDefaultIpAddress_external Sample.env "ipv4"). reflexivity.
Defined.

Lemma stopStream_frame_witness :
  pendingSessions (stopStream Sample.env Sample.doorbell "s2" Sample.negotiated).2 !! "s1"
  = pendingSessions Sample.negotiated !! "s1".
Proof.
  destruct (stopStream_frame Sample.env Sample.doorbell "s2" Sample.negotiated)
    as [Hframe _].
  destruct (Hframe "s1") as [Hp _]; [discriminate | exact Hp].
Defined.

Lemma chooseVideoProcessor_nonempty_witness :
  chooseVideoProcessor (Some "/opt/ffmpeg") None = "/opt/ffmpeg"
  ∧ chooseVideoProcessor (Some "") None = "ffmpeg".
Proof.
  split.
  - destruct (chooseVideoProcessor_nonempty (Some "/opt/ffmpeg") None) as (_ & H & _).
    apply H; [reflexivity | discriminate].
  - destruct (chooseVideoProcessor_nonempty (Some "") None) as (_ & _ & H).
    apply H; reflexivity.
Defined.
(** ** Negotiations in flight *)

Lemma reservePorts_call_run (s : State) :
  reservePorts_call s = (Returned (portCalls s), with_portCall s).
Proof. reflexivity. Qed.

Lemma reservePorts_first_run (env : Env) (n : nat) (count : option nat) (s : State) :
  reservePorts_first env n count s =
    match reservePorts env n count with
    | Some p => (Returned p, with_event (EvReservePorts count p) s)
    | None => (Thrown ReservePortsRejected, with_event (EvReserveRejected count) s)
    end.
Proof. unfold reservePorts_first. by destruct (reservePorts env n count). Qed.

Lemma prepareStream_call_run (env : Env) (this : Delegate)
    (request : PrepareStreamRequest) (s : State) :
  prepareStream_call env this request s =
    (Returned (Suspended (prepareStream_from179 env this request)),
     with_event (EvCodecProbe (videoProcessor this) "libfdk_aac") s).
Proof. reflexivity. Qed.

Ltac run_segments :=
  repeat (first [ rewrite reservePorts_call_run
                | rewrite reservePorts_first_run
                | rewrite reserveFirstPort_run
                | rewrite newSynchronisationSource_run
                | rewrite newRtpSplitter_run ];
          state_fields;
          try match goal with
              | |- context [match reservePorts ?e ?n ?c with _ => _ end] =>
                  let H := fresh "Hport" in destruct (reservePorts e n c) eqn:H
              end;
          mrun; cbn [uninterrupted]).

(** Run to its end with nothing in between, the task of a negotiation does
    what the method [prepareStream] does in one piece. *)
Lemma prepareStream_uninterrupted (env : Env) (this : Delegate)
    (request : PrepareStreamRequest) (s : State) :
  match prepareStream_call env this request s with
  | (Returned c, s') => uninterrupted c s'
  | (Thrown e, s') => (Thrown e, s')
  end = prepareStream env this request s.
Proof.
  unfold prepareStream, prepareStream_call. mrun. cbn [uninterrupted].
  unfold prepareStream_from179. mrun.
  destruct (codecEnabled _ _ "libfdk_aac") eqn:Hlib;
  destruct (twoWayAudio _) eqn:Htw.
  all: unfold prepareStream_from182, prepareStream_line183, prepareStream_from183,
    prepareStream_line184, prepareStream_from184, prepareStream_line185,
    prepareStream_from197, prepareStream_line198, prepareStream_from536,
    prepareStream_from221.
  all: rewrite ?Hlib, ?Htw; cbn [andb negb]; mrun; cbn [uninterrupted].
  all: run_segments.
  all: simplify_eq; reflexivity.
Qed.

(** *** What a negotiation in flight does to the registries *)

Lemma segmentSafe_suspended (id : string) (resume : M (Co PrepareStreamResponse)) :
  segmentSafe id resume → registrySafe id (Suspended resume).
Proof. intros H. by constructor. Qed.

Lemma registrySafe_resume (id : string) (resume : M (Co PrepareStreamResponse)) :
  registrySafe id (Suspended resume) → segmentSafe id resume.
Proof. intros H. inversion H as [| ? Hs]. exact Hs. Qed.

Lemma segmentSafe_ret (id : string) (c : Co PrepareStreamResponse) :
  registrySafe id c → segmentSafe id (mret c).
Proof. intros H s. split; [done |]. split; [by left |]. by intros c' [= <-]. Qed.

Lemma segmentSafe_bind {A} (id : string) (m : M A)
    (k : A → M (Co PrepareStreamResponse)) :
  keepsRegistries m → (∀ a, segmentSafe id (k a)) → segmentSafe id (m ≫= k).
Proof.
  intros Hm Hk s. unfold mbind, M_bind, m_bind.
  destruct (Hm s) as [Hp Ho]. destruct (m s) as [[a | e] s1]; cbn [fst snd] in *.
  - destruct (Hk a s1) as (Ho1 & Hp1 & Hc). rewrite Ho1, Ho. split; [done |].
    rewrite <- Hp. split; [exact Hp1 | exact Hc].
  - split; [done |]. split; [by left | discriminate].
Qed.

Lemma keeps_reservePorts_call : keepsRegistries reservePorts_call.
Proof. by intros s. Qed.

Lemma keeps_reservePorts_first (env : Env) (n : nat) (count : option nat) :
  keepsRegistries (reservePorts_first env n count).
Proof.
  intros s. rewrite reservePorts_first_run. by destruct (reservePorts env n count).
Qed.

Lemma keeps_newSynchronisationSource (env : Env) :
  keepsRegistries (newSynchronisationSource env).
Proof. by intros s. Qed.

Lemma keeps_emit (e : Event) : keepsRegistries (emit e).
Proof. by intros s. Qed.

Lemma keeps_ret {A} (a : A) : keepsRegistries (mret a : M A).
Proof. by intros s. Qed.

Lemma keeps_newRtpSplitter_some (version : string) (a b c : Z) :
  keepsRegistries (r ← newRtpSplitter version a b c; mret (Some r)).
Proof. by intros s. Qed.

Section SegmentsSafe.

Context (env : Env) (this : Delegate) (request : PrepareStreamRequest).

Lemma prepareStream_from221_safe hasLibFdk arp asp atp assrc splitter vrp vssrc addr :
  segmentSafe (sessionID request) (prepareStream_from221 this request hasLibFdk arp asp atp assrc
                    splitter vrp vssrc addr).
Proof.
  intros s. unfold prepareStream_from221. mrun. state_fields.
  split; [done |]. split; [right; by eexists |]. intros c' [= <-]. constructor.
Qed.

Lemma prepareStream_from536_safe hasLibFdk arp asp atp assrc splitter vrp vssrc :
  segmentSafe (sessionID request) (prepareStream_from536 env this request hasLibFdk arp asp atp assrc
                    splitter vrp vssrc).
Proof.
  apply segmentSafe_ret, segmentSafe_suspended, prepareStream_from221_safe.
Qed.

Lemma prepareStream_line198_safe hasLibFdk arp asp atp assrc splitter vrp :
  segmentSafe (sessionID request) (prepareStream_line198 env this request hasLibFdk arp asp atp assrc
                    splitter vrp).
Proof.
  apply segmentSafe_bind; [apply keeps_newSynchronisationSource |]. intros vssrc.
  apply segmentSafe_ret, segmentSafe_suspended, prepareStream_from536_safe.
Qed.

Lemma prepareStream_from197_safe hasLibFdk arp asp atp assrc splitter n :
  segmentSafe (sessionID request) (prepareStream_from197 env this request hasLibFdk arp asp atp assrc
                    splitter n).
Proof.
  apply segmentSafe_bind; [apply keeps_reservePorts_first |]. intros vrp.
  apply prepareStream_line198_safe.
Qed.

Lemma prepareStream_line185_safe hasLibFdk arp asp atp :
  segmentSafe (sessionID request) (prepareStream_line185 env this request hasLibFdk arp asp atp).
Proof.
  apply segmentSafe_bind; [apply keeps_newSynchronisationSource |]. intros assrc.
  apply segmentSafe_bind;
    [destruct (negb hasLibFdk); [apply keeps_emit | apply keeps_ret] |]. intros _.
  apply segmentSafe_bind;
    [destruct (hasLibFdk && twoWayAudio this);
       [apply keeps_newRtpSplitter_some | apply keeps_ret] |]. intros splitter.
  apply segmentSafe_bind; [apply keeps_reservePorts_call |]. intros n.
  apply segmentSafe_ret, segmentSafe_suspended, prepareStream_from197_safe.
Qed.

Lemma prepareStream_from184_safe hasLibFdk arp asp n :
  segmentSafe (sessionID request) (prepareStream_from184 env this request hasLibFdk arp asp n).
Proof.
  apply segmentSafe_bind; [apply keeps_reservePorts_first |]. intros atp.
  apply prepareStream_line185_safe.
Qed.

Lemma prepareStream_line184_safe hasLibFdk arp asp :
  segmentSafe (sessionID request) (prepareStream_line184 env this request hasLibFdk arp asp).
Proof.
  unfold prepareStream_line184. destruct (hasLibFdk && twoWayAudio this).
  - apply segmentSafe_bind; [apply keeps_reservePorts_call |]. intros n.
    apply segmentSafe_ret, segmentSafe_suspended, prepareStream_from184_safe.
  - apply prepareStream_line185_safe.
Qed.

Lemma prepareStream_from183_safe hasLibFdk arp n :
  segmentSafe (sessionID request) (prepareStream_from183 env this request hasLibFdk arp n).
Proof.
  apply segmentSafe_bind; [apply keeps_reservePorts_first |]. intros asp.
  apply prepareStream_line184_safe.
Qed.

Lemma prepareStream_line183_safe hasLibFdk arp :
  segmentSafe (sessionID request) (prepareStream_line183 env this request hasLibFdk arp).
Proof.
  unfold prepareStream_line183. destruct (hasLibFdk && twoWayAudio this).
  - apply segmentSafe_bind; [apply keeps_reservePorts_call |]. intros n.
    apply segmentSafe_ret, segmentSafe_suspended, prepareStream_from183_safe.
  - apply prepareStream_line184_safe.
Qed.

Lemma prepareStream_from182_safe hasLibFdk n :
  segmentSafe (sessionID request) (prepareStream_from182 env this request hasLibFdk n).
Proof.
  apply segmentSafe_bind; [apply keeps_reservePorts_first |]. intros arp.
  apply prepareStream_line183_safe.
Qed.

Lemma prepareStream_from179_safe :
  segmentSafe (sessionID request) (prepareStream_from179 env this request).
Proof.
  apply segmentSafe_bind; [apply keeps_reservePorts_call |]. intros n.
  apply segmentSafe_ret, segmentSafe_suspended, prepareStream_from182_safe.
Qed.

End SegmentsSafe.

Lemma disjoint_after_insert (s s' : State) (id : string) (info : SessionInfo) :
  registriesDisjoint s →
  ongoingSessions s !! id = None →
  pendingSessions s' = <[id := info]> (pendingSessions s) →
  ongoingSessions s' = ongoingSessions s →
  registriesDisjoint s'.
Proof.
  intros Hdis Hfresh Hp Ho k. rewrite Hp, Ho.
  destruct (decide (k = id)) as [-> | Hne]; [by right |].
  rewrite lookup_insert_ne by done. apply Hdis.
Qed.

Lemma startStream_disjoint (env : Env) (this : Delegate)
    (request : StartStreamRequest) (s : State) :
  registriesDisjoint s → registriesDisjoint (startStream env this request s).2.
Proof.
  intros Hdis.
  destruct (startStream_registries env this request s) as [[Hp Ho] | [Hp Ho]].
  - by apply (disjoint_unchanged s).
  - apply (disjoint_after_delete s _ (st_sessionID request)); [done | done | by right].
Qed.

(** One step of the event loop keeps the invariant, provided a resumption
    that stores a pending entry is made while its id is not ongoing. *)
Lemma act_safe (env : Env) (this : Delegate) (a : Action) (sys : System) :
  systemSafe sys →
  storesFreshly env this a sys →
  systemSafe (act env this a sys).
Proof.
  intros [Hdis Hall] Hfresh.
  destruct a as [request | i | request | sessionId |]; cbn [act].
  - rewrite prepareStream_call_run. split; cbn [sys_state inflight].
    + by apply (disjoint_unchanged (sys_state sys)).
    + apply Forall_app. split; [done |]. apply Forall_singleton. cbn [fst snd].
      apply segmentSafe_suspended, prepareStream_from179_safe.
  - destruct (inflight sys !! i) as [[id [response | resume]] |] eqn:Hi; [done | | done].
    pose proof (Forall_lookup_1 _ _ _ _ Hall Hi) as Hsafe. cbn [fst snd] in Hsafe.
    destruct (registrySafe_resume id resume Hsafe (sys_state sys)) as (Ho & Hp & Hc).
    assert (Hdis' : registriesDisjoint (resume (sys_state sys)).2).
    { destruct Hp as [Hp | [info Hp]]; [by apply (disjoint_unchanged (sys_state sys)) |].
      unfold storesFreshly in Hfresh. cbn [act] in Hfresh. rewrite Hi in Hfresh.
      destruct Hfresh as [Hsame | (id' & [= <-] & Hnot)].
      - destruct (resume (sys_state sys)) as [[c' | e] s'];
          by apply (disjoint_unchanged (sys_state sys)).
      - by apply (disjoint_after_insert (sys_state sys) _ id info). }
    destruct (resume (sys_state sys)) as [[c' | e] s']; cbn [fst snd] in *;
      split; cbn [sys_state inflight]; try done.
    + apply Forall_insert; [done |]. by apply Hc.
    + by apply Forall_delete.
  - split; cbn [sys_state inflight]; [by apply startStream_disjoint | done].
  - split; cbn [sys_state inflight]; [by apply stopStream_disjoint | done].
  - split; cbn [sys_state inflight]; [| done].
    unfold shutdown. mrun. by apply shutdown_disjoint.
Qed.

Lemma actAll_safe (env : Env) (this : Delegate) (acts : list Action) (sys : System) :
  systemSafe sys →
  storesFresh env this acts sys →
  systemSafe (actAll env this acts sys).
Proof.
  revert sys. induction acts as [| a rest IH]; intros sys Hsafe Hfresh; [exact Hsafe |].
  cbn [actAll]. destruct Hfresh as [Ha Hrest].
  apply IH; [| exact Hrest]. by apply act_safe.
Qed.

Lemma initialSystem_safe : systemSafe initialSystem.
Proof. split; [| constructor]. intros k. left. apply lookup_empty. Qed.

(** C3, as the code has it.  After [startStream] has returned for a session
    id that was pending, the id has no pending entry and one ongoing entry,
    which holds the splitter of the pending entry.  Whatever its outcome,
    [startStream] keeps disjoint registries disjoint.  A negotiation stores
    its pending entry at line 249, after its awaits and without looking at
    [ongoingSessions]: along every interleaving of calls, resumed
    negotiations and shutdowns from the initial state in which no
    negotiation makes that store while its id is ongoing, no id is in both
    registries. *)
Theorem startStream_moves_session (env : Env) (this : Delegate) :
  (∀ request s sessionInfo s',
     pendingSessions s !! st_sessionID request = Some sessionInfo →
     startStream env this request s = (Returned tt, s') →
     pendingSessions s' = delete (st_sessionID request) (pendingSessions s)
     ∧ pendingSessions s' !! st_sessionID request = None
     ∧ ∃ o, ongoingSessions s' = <[st_sessionID request := o]> (ongoingSessions s)
            ∧ ongoingSessions s' !! st_sessionID request = Some o
            ∧ og_rtpSplitter o = rtpSplitter sessionInfo)
  ∧ (∀ request s,
       registriesDisjoint s →
       registriesDisjoint (startStream env this request s).2)
  ∧ (∀ acts,
       storesFresh env this acts initialSystem →
       registriesDisjoint (sys_state (actAll env this acts initialSystem))).
Proof.
  split; [| split].
  - intros request s sessionInfo s' Hsome Hrun.
    rewrite (startStream_with_pending env this request s sessionInfo Hsome) in Hrun.
    destruct (afterOutbound_registries this request sessionInfo s) as [Ho1 Ho2].
    destruct (afterTalkback_registries env this request sessionInfo s) as [Ht1 Ht2].
    repeat match type of Hrun with
           | context [if ?b then _ else _] => destruct b
           end; try discriminate; injection Hrun as <-.
    + rewrite Ho1, Ho2. split; [reflexivity |]. split; [apply lookup_delete_eq |].
      eexists. split; [reflexivity |]. split; [apply lookup_insert_eq | reflexivity].
    + rewrite Ht1, Ht2. split; [reflexivity |]. split; [apply lookup_delete_eq |].
      eexists. split; [reflexivity |]. split; [apply lookup_insert_eq | reflexivity].
  - intros request s. apply startStream_disjoint.
  - intros acts Hfresh.
    apply (actAll_safe env this acts initialSystem initialSystem_safe Hfresh).
Qed.

Lemma startStream_moves_session_witness :
  pendingSessions Sample.streaming !! "s1" = None
  ∧ is_Some (ongoingSessions Sample.streaming !! "s1")
  ∧ registriesDisjoint
      (startStream Sample.env Sample.doorbell Sample.start Sample.negotiated).2
  ∧ registriesDisjoint
      (sys_state (actAll Sample.env Sample.doorbell Interleaved.viewing initialSystem)).
Proof.
  destruct (startStream_moves_session Sample.env Sample.doorbell)
    as (Hstart & Hkeeps & Hrun).
  assert (Hsome : pendingSessions Sample.negotiated !! st_sessionID Sample.start
                  = Some Sample.session) by (vm_compute; reflexivity).
  assert (Hret : startStream Sample.env Sample.doorbell Sample.start Sample.negotiated
                 = (Returned tt, Sample.streaming)) by (vm_compute; reflexivity).
  assert (Hdis : registriesDisjoint Sample.negotiated).
  { assert (Ho : ongoingSessions Sample.negotiated = ∅) by (vm_compute; reflexivity).
    intros k. right. rewrite Ho. apply lookup_empty. }
  destruct (Hstart Sample.start Sample.negotiated Sample.session Sample.streaming
              Hsome Hret) as (_ & Hgone & o & _ & Hthere & _).
  split; [exact Hgone |]. split; [by exists o |]. split.
  - exact (Hkeeps Sample.start Sample.negotiated Hdis).
  - apply Hrun. unfold Interleaved.viewing. cbn [storesFresh].
    repeat split;
      first [ left; vm_compute; reflexivity
            | right; exists "s1"; split; vm_compute; reflexivity ].
Defined.

(** A second negotiation of a session id that is called while the id is
    only pending, and whose last segment runs after the session has been
    started, leaves the id in both registries. *)
Example overtaken_negotiation_id_in_both_registries :
  let called :=
    actAll Sample.env Sample.doorbell (take 8 Interleaved.overtaken) initialSystem in
  let final :=
    actAll Sample.env Sample.doorbell Interleaved.overtaken initialSystem in
  ongoingSessions (sys_state called) !! "s1" = None
  ∧ is_Some (pendingSessions (sys_state final) !! "s1")
  ∧ is_Some (ongoingSessions (sys_state final) !! "s1")
  ∧ ¬ storesFresh Sample.env Sample.doorbell Interleaved.overtaken initialSystem.
Proof.
  cbn zeta. split; [vm_compute; reflexivity |].
  split; [vm_compute; by eexists |]. split; [vm_compute; by eexists |].
  unfold Interleaved.overtaken. cbn [storesFresh].
  intros H. do 16 (destruct H as [_ H]). destruct H as [[Hsame | (id & Hid & Hnot)] _].
  - vm_compute in Hsame. discriminate Hsame.
  - vm_compute in Hid. injection Hid as <-. vm_compute in Hnot. discriminate Hnot.
Qed.

(** *** Where a negotiation in flight draws its SSRCs *)

Section Draws.

Context (env : Env) (this : Delegate) (request : PrepareStreamRequest).
Context (response : PrepareStreamResponse) (sf : State).

(** Resuming a task: its first segment runs in the first state. *)
Lemma resumptions_inv {A} (resume : M (Co A)) (ss : list State) (a : A) (s' : State) :
  resumptions (Suspended resume) ss a s' →
  ∃ s rest c s1, ss = s :: rest ∧ resume s = (Returned c, s1)
    ∧ ((c = Done a ∧ rest = [] ∧ s1 = s') ∨ resumptions c rest a s').
Proof.
  intros H. inversion H as [r s b s1 Hr | r s c s1 rest b sf' Hr Hrest]; subst.
  - exists s, [], (Done a), s'. by repeat split; [| left].
  - exists s, rest, c, s1. by repeat split; [| right].
Qed.

Lemma resumptions_done {A} (b : A) (ss : list State) (a : A) (s' : State) :
  ¬ resumptions (Done b) ss a s'.
Proof. intros H. inversion H. Qed.

Lemma draws_from221 hasLibFdk arp asp atp a splitter vrp v addr ss :
  resumptions (Suspended (prepareStream_from221 this request hasLibFdk arp asp atp a
                            splitter vrp v addr)) ss response sf →
  ∃ s221, ss = [s221] ∧ ssrcsAre request a v response sf.
Proof.
  intros H. apply resumptions_inv in H as (s & rest & c & s1 & -> & Hr & Hc).
  unfold prepareStream_from221 in Hr. revert Hr. mrun. intros [= <- <-].
  destruct Hc as [([= <-] & -> & <-) | Hc]; [| by apply resumptions_done in Hc].
  exists s. split; [done |]. unfold ssrcsAre. state_fields.
  rewrite lookup_insert_eq. by repeat split.
Qed.

Lemma draws_from536 hasLibFdk arp asp atp a splitter vrp v ss :
  resumptions (Suspended (prepareStream_from536 env this request hasLibFdk arp asp atp a
                            splitter vrp v)) ss response sf →
  ∃ s536 s221, ss = [s536; s221] ∧ ssrcsAre request a v response sf.
Proof.
  intros H. apply resumptions_inv in H as (s & rest & c & s1 & -> & Hr & Hc).
  unfold prepareStream_from536 in Hr. revert Hr. mrun. intros [= <- <-].
  destruct Hc as [([=] & _) | Hc].
  apply draws_from221 in Hc as (s221 & -> & Hssrc). by exists s, s221.
Qed.

Lemma draws_line198 hasLibFdk arp asp atp a splitter vrp s c s1 ss :
  prepareStream_line198 env this request hasLibFdk arp asp atp a splitter vrp s
    = (Returned c, s1) →
  resumptions c ss response sf →
  ∃ s536 s221, ss = [s536; s221] ∧ ssrcsAre request a (generateSynchronisationSource env (ssrcCalls s)) response sf.
Proof.
  unfold prepareStream_line198. mrun. rewrite newSynchronisationSource_run.
  intros [= <- <-] Hc. by apply draws_from536 in Hc.
Qed.

Lemma draws_from197 hasLibFdk arp asp atp a splitter n ss :
  resumptions (Suspended (prepareStream_from197 env this request hasLibFdk arp asp atp a
                            splitter n)) ss response sf →
  ∃ sv s536 s221, ss = [sv; s536; s221]
    ∧ ssrcsAre request a (generateSynchronisationSource env (ssrcCalls sv)) response sf.
Proof.
  intros H. apply resumptions_inv in H as (s & rest & c & s1 & -> & Hr & Hc).
  unfold prepareStream_from197 in Hr. revert Hr. mrun. rewrite reservePorts_first_run.
  destruct (reservePorts env n None) as [vrp |]; [| discriminate]. intros Hr.
  destruct Hc as [(-> & _) | Hc].
  - revert Hr. unfold prepareStream_line198. mrun.
    rewrite newSynchronisationSource_run. discriminate.
  - destruct (draws_line198 _ _ _ _ _ _ _ _ _ _ _ Hr Hc) as (s536 & s221 & -> & Hssrc).
    by exists s, s536, s221.
Qed.

Lemma draws_line185 hasLibFdk arp asp atp s c s1 ss :
  prepareStream_line185 env this request hasLibFdk arp asp atp s = (Returned c, s1) →
  resumptions c ss response sf →
  ∃ sv s536 s221, ss = [sv; s536; s221]
    ∧ ssrcsAre request (generateSynchronisationSource env (ssrcCalls s)) (generateSynchronisationSource env (ssrcCalls sv)) response sf.
Proof.
  unfold prepareStream_line185. mrun. rewrite newSynchronisationSource_run.
  destruct hasLibFdk, (twoWayAudio this); cbn [andb negb]; mrun;
    rewrite ?newRtpSplitter_run, ?reservePorts_call_run;
    intros [= <- <-] Hc; by apply draws_from197 in Hc.
Qed.

Lemma drawsFrom_later (s : State) (ss : list State) :
  drawsFrom env request response sf (ssrcCalls s) ss →
  drawsLater env request response sf (s :: ss).
Proof.
  intros [(sv & s536 & s221 & -> & H) | (before & sa & sv & s536 & s221 & -> & H)].
  - by exists [], s, sv, s536, s221.
  - by exists (s :: before), sa, sv, s536, s221.
Qed.

Lemma draws_from184 hasLibFdk arp asp n ss :
  resumptions (Suspended (prepareStream_from184 env this request hasLibFdk arp asp n))
    ss response sf →
  drawsLater env request response sf ss.
Proof.
  intros H. apply resumptions_inv in H as (s & rest & c & s1 & -> & Hr & Hc).
  unfold prepareStream_from184 in Hr. revert Hr. mrun. rewrite reservePorts_first_run.
  destruct (reservePorts env n (Some 2%nat)) as [atp |]; [| discriminate]. intros Hr.
  apply drawsFrom_later. left.
  destruct Hc as [(-> & _) | Hc].
  - revert Hr. unfold prepareStream_line185. mrun.
    rewrite newSynchronisationSource_run.
    destruct hasLibFdk, (twoWayAudio this); cbn [andb negb]; mrun;
      rewrite ?newRtpSplitter_run, ?reservePorts_call_run; discriminate.
  - exact (draws_line185 _ _ _ _ _ _ _ _ Hr Hc).
Qed.

Lemma draws_line184 hasLibFdk arp asp s c s1 ss :
  prepareStream_line184 env this request hasLibFdk arp asp s = (Returned c, s1) →
  resumptions c ss response sf →
  drawsFrom env request response sf (ssrcCalls s) ss.
Proof.
  unfold prepareStream_line184. destruct (hasLibFdk && twoWayAudio this).
  - mrun. rewrite reservePorts_call_run. intros [= <- <-] Hc.
    right. by apply draws_from184 in Hc.
  - intros Hr Hc. left. exact (draws_line185 _ _ _ _ _ _ _ _ Hr Hc).
Qed.

Lemma line184_suspends hasLibFdk arp asp s a s1 :
  prepareStream_line184 env this request hasLibFdk arp asp s ≠ (Returned (Done a), s1).
Proof.
  unfold prepareStream_line184, prepareStream_line185.
  destruct hasLibFdk, (twoWayAudio this); cbn [andb negb]; mrun;
    rewrite ?newSynchronisationSource_run, ?newRtpSplitter_run,
      ?reservePorts_call_run; discriminate.
Qed.

Lemma draws_from183 hasLibFdk arp n ss :
  resumptions (Suspended (prepareStream_from183 env this request hasLibFdk arp n))
    ss response sf →
  drawsLater env request response sf ss.
Proof.
  intros H. apply resumptions_inv in H as (s & rest & c & s1 & -> & Hr & Hc).
  unfold prepareStream_from183 in Hr. revert Hr. mrun. rewrite reservePorts_first_run.
  destruct (reservePorts env n None) as [asp |]; [| discriminate]. intros Hr.
  apply drawsFrom_later.
  destruct Hc as [(-> & _) | Hc]; [by apply line184_suspends in Hr |].
  exact (draws_line184 _ _ _ _ _ _ _ Hr Hc).
Qed.

Lemma draws_line183 hasLibFdk arp s c s1 ss :
  prepareStream_line183 env this request hasLibFdk arp s = (Returned c, s1) →
  resumptions c ss response sf →
  drawsFrom env request response sf (ssrcCalls s) ss.
Proof.
  unfold prepareStream_line183. destruct (hasLibFdk && twoWayAudio this).
  - mrun. rewrite reservePorts_call_run. intros [= <- <-] Hc.
    right. by apply draws_from183 in Hc.
  - intros Hr Hc. exact (draws_line184 _ _ _ _ _ _ _ Hr Hc).
Qed.

Lemma line183_suspends hasLibFdk arp s a s1 :
  prepareStream_line183 env this request hasLibFdk arp s ≠ (Returned (Done a), s1).
Proof.
  unfold prepareStream_line183. destruct (hasLibFdk && twoWayAudio this).
  - mrun. rewrite reservePorts_call_run. discriminate.
  - apply line184_suspends.
Qed.

Lemma draws_from182 hasLibFdk n ss :
  resumptions (Suspended (prepareStream_from182 env this request hasLibFdk n))
    ss response sf →
  drawsLater env request response sf ss.
Proof.
  intros H. apply resumptions_inv in H as (s & rest & c & s1 & -> & Hr & Hc).
  unfold prepareStream_from182 in Hr. revert Hr. mrun. rewrite reservePorts_first_run.
  destruct (reservePorts env n None) as [arp |]; [| discriminate]. intros Hr.
  apply drawsFrom_later.
  destruct Hc as [(-> & _) | Hc]; [by apply line183_suspends in Hr |].
  exact (draws_line183 _ _ _ _ _ _ Hr Hc).
Qed.

Lemma draws_from179 ss :
  resumptions (Suspended (prepareStream_from179 env this request)) ss response sf →
  ∃ before sa sv s536 s221, ss = (before ++ [sa; sv; s536; s221])%list
    ∧ ssrcsAre request (generateSynchronisationSource env (ssrcCalls sa)) (generateSynchronisationSource env (ssrcCalls sv)) response sf.
Proof.
  intros H. apply resumptions_inv in H as (s & rest & c & s1 & -> & Hr & Hc).
  unfold prepareStream_from179 in Hr. revert Hr. mrun. rewrite reservePorts_call_run.
  intros [= <- <-]. destruct Hc as [([=] & _) | Hc].
  apply draws_from182 in Hc as (before & sa & sv & s536 & s221 & -> & H).
  by exists (s :: before), sa, sv, s536, s221.
Qed.

End Draws.

(** C10, as the code has it.  The two SSRCs of a response are two separate
    draws of the generator: the audio one is drawn at line 185 and the
    video one at line 198, in the next segment of the negotiation, after
    the [await] of line 197.  Whatever runs in between, each is the draw
    the generator makes in the state its segment is resumed in; both are
    stored unchanged in the pending entry, and they differ exactly when the
    two draws differ. *)
Theorem prepareStream_ssrc_draws (env : Env) (this : Delegate)
    (request : PrepareStreamRequest) (s0 : State)
    (c : Co PrepareStreamResponse) (s1 : State) (ss : list State)
    (response : PrepareStreamResponse) (sf : State) :
  prepareStream_call env this request s0 = (Returned c, s1) →
  resumptions c ss response sf →
  ∃ before sa sv s536 s221,
    ss = (before ++ [sa; sv; s536; s221])%list
    ∧ ssrc (rs_audio response) = generateSynchronisationSource env (ssrcCalls sa)
    ∧ ssrc (rs_video response) = generateSynchronisationSource env (ssrcCalls sv)
    ∧ (audioSSRC <$> pendingSessions sf !! sessionID request)
        = Some (ssrc (rs_audio response))
    ∧ (videoSSRC <$> pendingSessions sf !! sessionID request)
        = Some (ssrc (rs_video response))
    ∧ (ssrc (rs_video response) ≠ ssrc (rs_audio response)
       ↔ generateSynchronisationSource env (ssrcCalls sv)
           ≠ generateSynchronisationSource env (ssrcCalls sa)).
Proof.
  rewrite prepareStream_call_run. intros [= <- <-] Hrun.
  apply draws_from179 in Hrun
    as (before & sa & sv & s536 & s221 & -> & Ha & Hv & Hpa & Hpv).
  exists before, sa, sv, s536, s221. rewrite Ha, Hv. by repeat split.
Qed.

Lemma resumeAll_sound {A} (c : Co A) (ss : list State) (a : A) (sf : State) :
  resumeAll c ss = Some (a, sf) → resumptions c ss a sf.
Proof.
  revert c. induction ss as [| s rest IH]; intros c; [by destruct c |].
  destruct c as [b | resume]; [done |]. cbn [resumeAll].
  destruct (resume s) as [[c' | e] s'] eqn:Hr; [| done].
  destruct c' as [b | resume'].
  - destruct rest; [| done]. intros [= <- <-]. by apply resumptions_last.
  - intros H. eapply resumptions_next; [exact Hr |]. by apply IH.
Qed.

Lemma prepareStream_ssrc_draws_witness :
  ∃ response sf,
    resumptions (Suspended (prepareStream_from179 Sample.env Sample.doorbell
                              (Sample.prepare "ipv4")))
      Interleaved.resumed response sf
    ∧ ssrc (rs_audio response) = 1000
    ∧ ssrc (rs_video response) = 1002
    ∧ ∃ before sa sv s536 s221,
        Interleaved.resumed = (before ++ [sa; sv; s536; s221])%list
        ∧ ssrc (rs_audio response)
            = generateSynchronisationSource Sample.env (ssrcCalls sa)
        ∧ ssrc (rs_video response)
            = generateSynchronisationSource Sample.env (ssrcCalls sv)
        ∧ (audioSSRC <$> pendingSessions sf !! "s1") = Some (ssrc (rs_audio response))
        ∧ (videoSSRC <$> pendingSessions sf !! "s1") = Some (ssrc (rs_video response))
        ∧ (ssrc (rs_video response) ≠ ssrc (rs_audio response)
           ↔ generateSynchronisationSource Sample.env (ssrcCalls sv)
               ≠ generateSynchronisationSource Sample.env (ssrcCalls sa)).
Proof.
  destruct (resumeAll (Suspended (prepareStream_from179 Sample.env Sample.doorbell
                                    (Sample.prepare "ipv4")))
              Interleaved.resumed) as [[response sf] |] eqn:Hrun;
    [| vm_compute in Hrun; discriminate Hrun].
  exists response, sf.
  assert (Ha : ssrc (rs_audio response) = 1000)
    by (vm_compute in Hrun; by injection Hrun as <- <-).
  assert (Hv : ssrc (rs_video response) = 1002)
    by (vm_compute in Hrun; by injection Hrun as <- <-).
  apply resumeAll_sound in Hrun.
  split; [exact Hrun |]. split; [exact Ha |]. split; [exact Hv |].
  exact (prepareStream_ssrc_draws Sample.env Sample.doorbell (Sample.prepare "ipv4")
           initial _ _ _ _ _
           (prepareStream_call_run Sample.env Sample.doorbell (Sample.prepare "ipv4")
              initial)
           Hrun).
Defined.

